(** * Telegram Manager: the adaptive hybrid download controller

    A shallow embedding of the download engine of the three script variants
    (tgm_final_v2.py, tgm_final_v2.5_universal.py,
    tgm_final_v2.6_aria2_hybrid.py): the profile computer, the checkpoint
    store ([load_state] / [save_state]) and the [DownloadController] class of
    v2.6, with the properties the design document states about them.

    Conventions.  Python [int] is [Z]; [float] throughputs and clock readings
    are exact rationals [Q]; a [dict] with string keys is a [gmap string _];
    an exception is a result [Raise]; what the environment decides (clock
    readings, I/O faults, whether a process spawns, control calls of other
    threads) is read from oracles stored in the world. *)

From Stdlib Require Import ZArith QArith Lqa Lia List Bool Ascii String.
From stdpp Require Import base option gmap strings pretty.

Local Open Scope Z_scope.

(** ** Profile computer *)

(** The dictionary [compute_profile] returns. *)
Record Profile := mkProfile {
  chunk_size : Z;
  concurrency : Z;
  fast_mode : bool;
  refresh_interval : Q
}.

(** Python truthiness of an [Optional[float]]: [None] and [0.0] are false. *)
Definition truthy_bps (bps : option Q) : bool :=
  match bps with
  | Some q => negb (Qeq_bool q 0)
  | None => false
  end.

(** [a >= b] on floats. *)
Definition Qge_bool (a b : Q) : bool := Qle_bool b a.

(** [bps / 1e6]. *)
Definition to_mbps (bps : Q) : Q := (bps / 1000000)%Q.

(** The four-way table of [compute_profile], entered only for a truthy
    [bps]: (chunk, concurrency, fast_mode). *)
Definition speed_row (mbps : Q) : Z * Z * bool :=
  if Qge_bool mbps 10 then (1000000, 4, true)
  else if Qge_bool mbps 2 then (512000, 2, true)
  else if Qge_bool mbps (1 # 2) then (256000, 1, false)
  else (128000, 1, false).

(** [compute_profile(bps, battery_ok)] of v2.6; [cfg_refresh] is
    [cfg.get("refresh_interval", 3.0)]. *)
Definition compute_profile (cfg_refresh : Q) (bps : option Q) (battery_ok : bool)
  : Profile :=
  let '(chunk, conc, fast) :=
    if truthy_bps bps
    then speed_row (to_mbps (default 0%Q bps))
    else (256000, 1, false) in
  let '(chunk, conc) :=
    if negb battery_ok then (Z.max 64000 (chunk / 2), 1) else (chunk, conc) in
  mkProfile chunk conc fast cfg_refresh.

(** [compute_runtime_profile(speed_bps, battery_ok)] of v2.5: the same table,
    and the extra key [measured_bps]. *)
Record RuntimeProfile := mkRuntimeProfile {
  rp_profile : Profile;
  measured_bps : option Z
}.

(** [int(x)] on a float: truncation towards zero. *)
Definition int_of_Q (q : Q) : Z := Z.quot (Qnum q) (Zpos (Qden q)).

Definition compute_runtime_profile (cfg_refresh : Q) (speed_bps : option Q)
  (battery_ok : bool) : RuntimeProfile :=
  let '(chunk, conc, fast) :=
    if truthy_bps speed_bps
    then speed_row (to_mbps (default 0%Q speed_bps))
    else (256000, 1, false) in
  let '(chunk, conc) :=
    if negb battery_ok then (Z.max 64000 (chunk / 2), 1) else (chunk, conc) in
  mkRuntimeProfile (mkProfile chunk conc fast cfg_refresh)
    (if truthy_bps speed_bps then Some (int_of_Q (default 0%Q speed_bps)) else None).


(** ** Checkpoint store: data *)

(** One checkpoint entry, [{"done": ..., "total": ...}]. *)
Record Entry := mkEntry { done : Z; total : Z }.

(** [self.state]: [str(chat_id)] to [str(msg_id)] to entry. *)
Abbreviation Store := (gmap string (gmap string Entry)).

(** [str(n)] on an [int]. *)
Definition str (n : Z) : string := pretty n.

(** [st.get(c, {}).get(m, {}).get("done", 0)]. *)
Definition get_done (st : Store) (c m : string) : Z :=
  default 0 (done <$> (default ∅ (st !! c) !! m)).

(** [st.setdefault(c, {})[m] = e]. *)
Definition set_entry (st : Store) (c m : string) (e : Entry) : Store :=
  <[c := <[m := e]> (default ∅ (st !! c))]> st.

(** [total or assumed_size] on ints: the left operand unless it is falsy. *)
Definition py_or (a b : Z) : Z := if a =? 0 then b else a.

(** Truthiness of an [Optional[str]]. *)
Definition truthy_str (s : option string) : bool :=
  match s with
  | Some EmptyString => false
  | Some _ => true
  | None => false
  end.

(** ** Files, exceptions and the environment *)

(** The text of a file, as far as [json] tells texts apart:
    [Dumped s] is [json.dumps(s, indent=2)]; [Torn s] is a strict prefix of
    it (possibly empty), what an interrupted write leaves; [Junk t] is any
    other text that is not a JSON document.  A strict prefix of the dump of a
    dictionary opens a brace it never closes, so [json.loads] rejects it.
    Texts that decode to something other than such a mapping are outside the
    model: the functions are annotated [Dict[str, Any]]. *)
Inductive Text :=
| Dumped (s : Store)
| Torn (s : Store)
| Junk (t : string).

Record TextFile := mkTextFile {
  readable : bool;     (* read_text succeeds (permissions, encoding) *)
  text : Text
}.

Inductive Exn := OSError | JSONDecodeError | ValueError.

(** How far a file operation gets before the operating system refuses. *)
Inductive Fault :=
| NoFault
| FailOpen     (* the file could not be opened: nothing changed *)
| FailMid.     (* opened and truncated, then the write stopped part-way *)

(** The control calls another thread can make on the controller. *)
Inductive Control := CallPause | CallResume | CallCancel.

Inductive Engine := Handoff | Stream.

(** Module-level constants of the script and what the environment decides.
    The oracles are indexed by the number of environment events so far. *)
Record Env := mkEnv {
  ARIA_BIN : option string;         (* shutil.which("aria2c") *)
  cfg_aria2_enabled : bool;         (* bool(cfg.get("aria2_enabled", True)) *)
  ARIA_MIN_BYTES : Z;               (* cfg.get("aria2_threshold_bytes", 100 * 1024 * 1024) *)
  EXTERNAL_PATH : string;
  DOWNLOAD_STATE : string;
  telethon_ready : bool;            (* telethon_available and TELETHON_CLIENT is not None *)
  clock : nat -> Q;                 (* what time.time() returns *)
  io : nat -> Fault;                (* how a file operation fares *)
  spawn_ok : nat -> bool;           (* whether Popen starts the process *)
  calls : nat -> list Control;      (* control calls arriving before a look at the flags *)
  feed : list (Z * Z);              (* (received, total) reports of one download_media *)
  feed_ok : bool;                   (* whether that transfer ends without an exception *)
  payload : list Byte.byte               (* the file a finished transfer leaves *)
}.

(** [ARIA_ENABLED = bool(ARIA_BIN) and bool(cfg.get("aria2_enabled", True))]. *)
Definition ARIA_ENABLED (E : Env) : bool :=
  truthy_str (ARIA_BIN E) && cfg_aria2_enabled E.

(** [STATE_SAVE_INTERVAL = 3.0]. *)
Definition STATE_SAVE_INTERVAL : Q := 3.

(** The fields of [DownloadController] ([_lock] is the atomicity of the
    blocks below). *)
Record DownloadController := mkController {
  profile : Profile;
  dest : string;
  pause_set : bool;      (* self._pause.is_set() *)
  cancel_set : bool;     (* self._cancel.is_set() *)
  downloaded : Z;
  total_bytes : Z;       (* self.total *)
  last_save : Q;
  state : Store
}.

Record World := mkWorld {
  docs : gmap string TextFile;     (* text files, by path *)
  media : gmap string (list Byte.byte); (* downloaded files, by path *)
  procs : list (list string);      (* command lines of the processes started, none waited for *)
  steps : nat;                     (* environment events so far *)
  engines : list Engine            (* ghost: the engines invoked, in order *)
}.

Record Sys := mkSys { self : DownloadController; world : World }.

(** The result of a call: a value, an exception, or no return within the
    steps allowed. *)
Inductive Res (A : Type) :=
| Ok (a : A)
| Raise (e : Exn)
| Hang.
Arguments Ok {A} a.
Arguments Raise {A} e.
Arguments Hang {A}.

Definition M (A : Type) : Type := Sys -> Res A * Sys.

Definition ret {A} (a : A) : M A := fun s => (Ok a, s).

Definition bind {A B} (m : M A) (k : A -> M B) : M B :=
  fun s =>
    match m s with
    | (Ok a, s') => k a s'
    | (Raise e, s') => (Raise e, s')
    | (Hang, s') => (Hang, s')
    end.

Definition raise {A} (e : Exn) : M A := fun s => (Raise e, s).
Definition hang {A} : M A := fun s => (Hang, s).

(** [try: body  except Exception: handler]. *)
Definition try_except {A} (body handler : M A) : M A :=
  fun s =>
    match body s with
    | (Raise _, s') => handler s'
    | r => r
    end.

(** The statements of a block in sequence. *)
Notation "x <- m ; k" := (bind m (fun x => k))
  (at level 20, m at level 100, k at level 200, only parsing).
Notation "m ;; k" := (bind m (fun _ => k))
  (at level 100, k at level 200, only parsing, right associativity).

Definition get_self : M DownloadController := fun s => (Ok (self s), s).
Definition get_world : M World := fun s => (Ok (world s), s).
Definition put_self (c : DownloadController) : M unit :=
  fun s => (Ok tt, mkSys c (world s)).

Definition with_pause (b : bool) (c : DownloadController) :=
  mkController (profile c) (dest c) b (cancel_set c) (downloaded c)
    (total_bytes c) (last_save c) (state c).
Definition with_cancel (b : bool) (c : DownloadController) :=
  mkController (profile c) (dest c) (pause_set c) b (downloaded c)
    (total_bytes c) (last_save c) (state c).
Definition with_downloaded (n : Z) (c : DownloadController) :=
  mkController (profile c) (dest c) (pause_set c) (cancel_set c) n
    (total_bytes c) (last_save c) (state c).
Definition with_last_save (t : Q) (c : DownloadController) :=
  mkController (profile c) (dest c) (pause_set c) (cancel_set c) (downloaded c)
    (total_bytes c) t (state c).
Definition with_state (st : Store) (c : DownloadController) :=
  mkController (profile c) (dest c) (pause_set c) (cancel_set c) (downloaded c)
    (total_bytes c) (last_save c) st.

Definition with_docs (d : gmap string TextFile) (w : World) :=
  mkWorld d (media w) (procs w) (steps w) (engines w).
Definition with_media (m : gmap string (list Byte.byte)) (w : World) :=
  mkWorld (docs w) m (procs w) (steps w) (engines w).
Definition with_procs (p : list (list string)) (w : World) :=
  mkWorld (docs w) (media w) p (steps w) (engines w).
Definition with_steps (n : nat) (w : World) :=
  mkWorld (docs w) (media w) (procs w) n (engines w).
Definition with_engines (l : list Engine) (w : World) :=
  mkWorld (docs w) (media w) (procs w) (steps w) l.

Definition mod_self (f : DownloadController -> DownloadController) : M unit :=
  fun s => (Ok tt, mkSys (f (self s)) (world s)).
Definition mod_world (f : World -> World) : M unit :=
  fun s => (Ok tt, mkSys (self s) (f (world s))).

(** The index of the next environment event. *)
Definition tick : M nat :=
  fun s => (Ok (steps (world s)),
            mkSys (self s) (with_steps (S (steps (world s))) (world s))).

(** Ghost: record that an engine is entered. *)
Definition enter (e : Engine) : M unit :=
  mod_world (fun w => with_engines (engines w ++ [e]) w).

(** ** Primitives of the environment *)

Section Operations.
Context (E : Env).

(** [time.time()]. *)
Definition time_time : M Q := n <- tick; ret (clock E n).

Definition next_fault : M Fault := n <- tick; ret (io E n).

(** [def pause(self): self._pause.set()], [def resume(self): self._pause.clear()],
    [def cancel(self): self._cancel.set()]. *)
Definition pause (c : DownloadController) : DownloadController := with_pause true c.
Definition resume (c : DownloadController) : DownloadController := with_pause false c.
Definition cancel (c : DownloadController) : DownloadController := with_cancel true c.

Definition apply_control (k : Control) (c : DownloadController) : DownloadController :=
  match k with
  | CallPause => pause c
  | CallResume => resume c
  | CallCancel => cancel c
  end.

(** The control calls of other threads that arrive before this thread looks
    at a flag. *)
Definition controlled (l : list Control) (c : DownloadController) : DownloadController :=
  fold_left (fun c k => apply_control k c) l c.

Definition poll : M unit :=
  n <- tick; mod_self (controlled (calls E n)).

Definition pause_is_set : M bool := poll;; c <- get_self; ret (pause_set c).
Definition cancel_is_set : M bool := poll;; c <- get_self; ret (cancel_set c).

(** [p.exists()] on a text file and on a downloaded file. *)
Definition doc_exists (p : string) : M bool :=
  w <- get_world; ret (bool_decide (is_Some (docs w !! p))).
Definition media_exists (p : string) : M bool :=
  w <- get_world; ret (bool_decide (is_Some (media w !! p))).

(** [p.read_text(encoding="utf-8")]. *)
Definition read_text (p : string) : M Text :=
  w <- get_world;
  match docs w !! p with
  | Some f => if readable f then ret (text f) else raise OSError
  | None => raise OSError
  end.

(** What is left of a text when the write stops early. *)
Definition cut_short (t : Text) : Text :=
  match t with
  | Dumped s => Torn s
  | Torn s => Torn s
  | Junk _ => Junk ""
  end.

(** The file at [p] after its text is replaced; a new file is readable. *)
Definition doc_put (p : string) (t : Text) (w : World) : World :=
  with_docs (<[p := mkTextFile (default true (readable <$> docs w !! p)) t]> (docs w)) w.

(** [p.write_text(t, encoding="utf-8")]: open [p] itself for writing, which
    truncates it, then write. *)
Definition write_text (p : string) (t : Text) : M unit :=
  f <- next_fault;
  match f with
  | NoFault => mod_world (doc_put p t)
  | FailOpen => raise OSError
  | FailMid => mod_world (doc_put p (cut_short t));; raise OSError
  end.

Definition json_dumps (s : Store) : Text := Dumped s.

Definition json_loads (t : Text) : M Store :=
  match t with
  | Dumped s => ret s
  | Torn _ => raise JSONDecodeError
  | Junk _ => raise JSONDecodeError
  end.

(** [d.mkdir(parents=True, exist_ok=True)]: directories are not modelled,
    only that the call can fail. *)
Definition mkdir (d : string) : M unit :=
  f <- next_fault;
  match f with
  | NoFault => ret tt
  | _ => raise OSError
  end.

(** [subprocess.Popen(cmd, ...)]: starts the process and returns at once. *)
Definition Popen (cmd : list string) : M unit :=
  n <- tick;
  if spawn_ok E n
  then mod_world (fun w => with_procs (procs w ++ [cmd]) w)
  else raise OSError.

(** [with open(p, "wb") as f: f.truncate(size)]: the file is emptied by the
    open, then extended with zero bytes to [size]. *)
Definition open_wb_truncate (p : string) (size : Z) : M unit :=
  f <- next_fault;
  match f with
  | FailOpen => raise OSError
  | FailMid => mod_world (fun w => with_media (<[p := []]> (media w)) w);; raise OSError
  | NoFault =>
      if size <? 0
      then mod_world (fun w => with_media (<[p := []]> (media w)) w);; raise ValueError
      else mod_world (fun w =>
             with_media (<[p := repeat Byte.x00 (Z.to_nat size)]> (media w)) w)
  end.

(** ** Checkpoint store: [load_state] and [save_state] *)

(** v2.6 and v2.5:
    [if DOWNLOAD_STATE.exists(): try: return json.loads(read_text())
     except Exception: return {}] and [return {}] otherwise. *)
Definition load_state : M Store :=
  there <- doc_exists (DOWNLOAD_STATE E);
  if there
  then try_except (t <- read_text (DOWNLOAD_STATE E); json_loads t) (ret ∅)
  else ret ∅.

(** v2.6 and v2.5:
    [try: DOWNLOAD_STATE.write_text(json.dumps(s, indent=2)) except Exception: pass]. *)
Definition save_state (s : Store) : M unit :=
  try_except (write_text (DOWNLOAD_STATE E) (json_dumps s)) (ret tt).

(** v2: the same two functions; [load_state] tests [not exists()] first and
    [save_state] has no [try]. *)
Definition load_state_v2 : M Store :=
  there <- doc_exists (DOWNLOAD_STATE E);
  if negb there
  then ret ∅
  else try_except (t <- read_text (DOWNLOAD_STATE E); json_loads t) (ret ∅).

Definition save_state_v2 (s : Store) : M unit :=
  write_text (DOWNLOAD_STATE E) (json_dumps s).

(** ** [DownloadController] *)

(** [__init__(self, profile, dest_dir)]. *)
Definition __init__ (prof : Profile) (dest_dir : string) : M unit :=
  mkdir dest_dir;;
  t <- time_time;
  st <- load_state;
  put_self (mkController prof dest_dir false false 0 0 t st).

(** [_save_progress]. *)
Definition _save_progress : M unit :=
  now <- time_time;
  c <- get_self;
  if Qge_bool (now - last_save c) STATE_SAVE_INTERVAL
  then save_state (state c);;
       now' <- time_time;
       mod_self (with_last_save now')
  else ret tt.

(** [while self._pause.is_set() and not self._cancel.is_set(): time.sleep(0.5)];
    one unit of [fuel] per look at the pause flag. *)
Fixpoint _wait_if_paused (fuel : nat) : M unit :=
  match fuel with
  | O => hang
  | S k =>
      p <- pause_is_set;
      if p
      then c <- cancel_is_set;
           if c then ret tt else _wait_if_paused k
      else ret tt
  end.

(** The block of [_cb] under [self._lock], in [_telethon_download]. *)
Definition _cb_locked (chat_id msg_id assumed_size received total : Z) : M unit :=
  c <- get_self;
  let prev := get_done (state c) (str chat_id) (str msg_id) in
  let add := Z.max 0 (received - prev) in
  mod_self (fun c => with_downloaded (downloaded c + add) c);;
  mod_self (fun c =>
    with_state (set_entry (state c) (str chat_id) (str msg_id)
                  (mkEntry received (py_or total assumed_size))) c);;
  _save_progress.

(** [_cb(received, total)]: the locked block, then the wait while paused. *)
Definition _cb (fuel : nat) (chat_id msg_id assumed_size received total : Z) : M unit :=
  _cb_locked chat_id msg_id assumed_size received total;;
  _wait_if_paused fuel.

(** The [while done < size and not self._cancel.is_set()] loop of
    [_simulated]; returns the final [done].  The profile is the record
    [compute_profile] builds, which always has [chunk_size], so the default of
    [self.profile.get("chunk_size", 256000)] is never used. *)
Fixpoint simulated_loop (fuel : nat) (size done : Z) : M Z :=
  match fuel with
  | O => hang
  | S k =>
      if done <? size
      then c <- cancel_is_set;
           if c then ret done
           else
             _wait_if_paused fuel;;
             me <- get_self;
             let step := Z.min (chunk_size (profile me)) (size - done) in
             mod_self (fun c => with_downloaded (downloaded c + step) c);;
             _save_progress;;
             simulated_loop k size (done + step)
      else ret done
  end.

(** [outpath.exists() and outpath.stat().st_size >= size]. *)
Definition already_complete (w : World) (outpath : string) (size : Z) : bool :=
  match media w !! outpath with
  | Some b => size <=? Z.of_nat (length b)
  | None => false
  end.

(** [_simulated(self, outpath, size)]. *)
Definition _simulated (fuel : nat) (outpath : string) (size : Z) : M bool :=
  w <- get_world;
  if already_complete w outpath size
  then ret true
  else
    simulated_loop fuel size 0;;
    try_except (open_wb_truncate outpath size) (ret tt);;
    c <- cancel_is_set;
    ret (negb c).

(** [await TELETHON_CLIENT.download_media(msg, file=outpath, progress_callback=cb)]:
    the library reports progress through [cb], then leaves the file or
    raises. *)
Fixpoint deliver (cb : Z -> Z -> M unit) (reports : list (Z * Z)) : M unit :=
  match reports with
  | [] => ret tt
  | (received, total) :: rest => cb received total;; deliver cb rest
  end.

Definition download_media (cb : Z -> Z -> M unit) (outpath : string) : M unit :=
  deliver cb (feed E);;
  if feed_ok E
  then mod_world (fun w => with_media (<[outpath := payload E]> (media w)) w)
  else raise OSError.

(** [_telethon_download(self, chat_id, msg_id, outpath, assumed_size)]. *)
Definition _telethon_download (fuel : nat) (chat_id msg_id : Z) (outpath : string)
  (assumed_size : Z) : M bool :=
  enter Stream;;
  if negb (telethon_ready E)
  then _simulated fuel outpath assumed_size
  else try_except
         (download_media (_cb fuel chat_id msg_id assumed_size) outpath;;
          media_exists outpath)
         (ret false).

(** [cmd = [ARIA_BIN, "-x", "8", "-s", "8", "-j", "4", "-d", str(outdir), "-o", outname, url]]. *)
Definition aria2_cmd (url outdir outname : string) : list string :=
  [default "" (ARIA_BIN E); "-x"; "8"; "-s"; "8"; "-j"; "4";
   "-d"; outdir; "-o"; outname; url].

(** [_aria2_hand_off(self, url, outdir, outname)]. *)
Definition _aria2_hand_off (url outdir outname : string) : M bool :=
  enter Handoff;;
  if negb (ARIA_ENABLED E) then ret false
  else
    mkdir outdir;;
    let cmd := aria2_cmd url outdir outname in
    try_except (Popen cmd;; ret true) (ret false).

(** A [DownloadItem] as [_download_one] reads it: [item.get("msg_id")],
    [item.get("size", 0)], [item.get("title", "file")], [item.get("direct_url")]. *)
Record DownloadItem := mkItem {
  msg_id : Z;
  size : option Z;
  title : option string;
  direct_url : option string
}.

(** [title.replace(" ", "_")]. *)
Fixpoint replace_spaces (s : string) : string :=
  match s with
  | EmptyString => EmptyString
  | String c rest =>
      String (if Ascii.eqb c " " then "_"%char else c) (replace_spaces rest)
  end.

(** [f"{chat_id}_{msg_id}_{title}"]. *)
Definition outname_of (chat_id : Z) (item : DownloadItem) : string :=
  str chat_id +:+ "_" +:+ str (msg_id item) +:+ "_" +:+
  replace_spaces (default "file" (title item)).

(** [self.dest / outname]. *)
Definition path_join (d name : string) : string := d +:+ "/" +:+ name.

(** The test [_download_one] makes before it hands an item off:
    [if size >= ARIA_MIN_BYTES and ARIA_ENABLED:] then [if direct_url:]. *)
Definition handoff_guard (item : DownloadItem) : bool :=
  if (ARIA_MIN_BYTES E <=? default 0 (size item)) && ARIA_ENABLED E
  then truthy_str (direct_url item)
  else false.

(** The block under [self._lock] after a successful hand-off:
    [self.downloaded += size] and the entry [{"done": size, "total": size}]
    (the source text stops inside the second [int(size)]). *)
Definition credit_handoff (chat_id : Z) (item : DownloadItem) : M unit :=
  let sz := default 0 (size item) in
  mod_self (fun c => with_downloaded (downloaded c + sz) c);;
  mod_self (fun c =>
    with_state (set_entry (state c) (str chat_id) (str (msg_id item))
                  (mkEntry sz sz)) c).

(** Modelled from the spec: the rest of [_download_one] after the hand-off
    block, which the source file does not contain (its text stops in that
    block).  The dispatch policy reads "if size >= threshold and
    handoffAvailable and directUrl present -> Handoff Engine; else -> Stream
    Engine": every item not handed off goes to [_telethon_download] with the
    internal path and the declared size. *)
Definition stream_item (fuel : nat) (chat_id : Z) (item : DownloadItem) : M bool :=
  me <- get_self;
  _telethon_download fuel chat_id (msg_id item)
    (path_join (dest me) (outname_of chat_id item)) (default 0 (size item)).

(** [_download_one(self, chat_id, item)]: the hand-off block as the source
    has it, then [stream_item].  What the method returns after the hand-off
    block is not in the source; the model returns the engine's answer. *)
Definition _download_one (fuel : nat) (chat_id : Z) (item : DownloadItem) : M bool :=
  let sz := default 0 (size item) in
  let outname := outname_of chat_id item in
  if (ARIA_MIN_BYTES E <=? sz) && ARIA_ENABLED E
  then
    if truthy_str (direct_url item)
    then
      ok <- _aria2_hand_off (default "" (direct_url item)) (EXTERNAL_PATH E) outname;
      if ok
      then credit_handoff chat_id item;; ret true
      else stream_item fuel chat_id item
    else stream_item fuel chat_id item
  else stream_item fuel chat_id item.

End Operations.

(** Running a call from a given state. *)
Definition result {A} (m : M A) (s : Sys) : Res A := fst (m s).
Definition after {A} (m : M A) (s : Sys) : Sys := snd (m s).

(** The object before [__init__] has run on it. *)
Definition blank_controller (prof : Profile) (dest_dir : string) : DownloadController :=
  mkController prof dest_dir false false 0 0 0%Q ∅.

(** The system after [DownloadController(profile, dest_dir)] in the world [w]. *)
Definition new_controller (E : Env) (prof : Profile) (dest_dir : string) (w : World) : Sys :=
  after (__init__ E prof dest_dir) (mkSys (blank_controller prof dest_dir) w).

(** The mapping the store file holds, when it holds one. *)
Definition stored (E : Env) (w : World) : option Store :=
  match docs w !! DOWNLOAD_STATE E with
  | Some (mkTextFile _ (Dumped s)) => Some s
  | _ => None
  end.

(** [0 <= done <= total], for an entry and for every entry of a store. *)
Definition entry_ok (e : Entry) : Prop := 0 <= done e <= total e.

Definition store_ok (st : Store) : Prop :=
  forall c m inner e, st !! c = Some inner -> inner !! m = Some e -> entry_ok e.

(** ** v2: the progress callback of [download_with_telethon] *)

Module V2.

(** [state[key]] of v2: one entry per chat, [{"chat": ..., "total": ..., "done": ...}]. *)
Record ChatEntry := mkChatEntry { chat : string; total : Z; done : Z }.

(** The locals of [download_with_telethon] the callback updates. *)
Record Locals := mkLocals {
  downloaded : Z;
  state : gmap string ChatEntry
}.

(** [_cb(curr, total)]: [downloaded += curr], then
    [state[key] = {"chat": name, "total": total_bytes, "done": int(downloaded)}]
    (the [save_state] and the inline message follow). *)
Definition _cb (key name : string) (total_bytes : Z) (l : Locals) (curr : Z) : Locals :=
  let d := downloaded l + curr in
  mkLocals d (<[key := mkChatEntry name total_bytes d]> (state l)).

End V2.

(** ** The state of the store file at load time *)

(** [DOWNLOAD_STATE.exists()] is false. *)
Definition state_file_missing (E : Env) (w : World) : Prop :=
  docs w !! DOWNLOAD_STATE E = None.

(** The file exists and [read_text] raises. *)
Definition state_file_unreadable (E : Env) (w : World) : Prop :=
  exists f, docs w !! DOWNLOAD_STATE E = Some f /\ readable f = false.

(** The file can be read and [json.loads] raises on its text. *)
Definition state_file_corrupt (E : Env) (w : World) : Prop :=
  exists f, docs w !! DOWNLOAD_STATE E = Some f /\ readable f = true /\
            forall st, text f <> Dumped st.

(** The world after [write_text p t] has run in [w], whatever became of it:
    one environment event, and the file at [p] whole, cut short or
    untouched. *)
Definition write_outcome (E : Env) (p : string) (t : Text) (w : World) : World :=
  let w1 := with_steps (S (steps w)) w in
  match io E (steps w) with
  | NoFault => doc_put p t w1
  | FailOpen => w1
  | FailMid => doc_put p (cut_short t) w1
  end.

(** A save is whole when the store file afterwards is what it was before
    ([w0]) or holds the complete dump of the mapping saved: what
    write-temp-then-replace would guarantee. *)
Definition store_file_whole (E : Env) (st : Store) (w0 w : World) : Prop :=
  docs w !! DOWNLOAD_STATE E = docs w0 !! DOWNLOAD_STATE E \/
  exists rd, docs w !! DOWNLOAD_STATE E = Some (mkTextFile rd (Dumped st)).

(** Every mapping the store file holds satisfies the entry bound. *)
Definition durable_ok (E : Env) (w : World) : Prop :=
  forall st, stored E w = Some st -> store_ok st.

(** ** Concrete inputs *)

(** A device with aria2c installed and enabled, the default threshold of
    100 MiB, no Telethon client, a clock that advances four seconds per
    reading, no I/O faults, and no control calls. *)
Definition env0 : Env :=
  mkEnv (Some "/usr/bin/aria2c") true (100 * 1024 * 1024)
    "/sdcard/Download/TelegramManager"
    "/home/u/TelegramManager/ManagerData/download_state.json"
    false
    (fun n => inject_Z (4 * Z.of_nat n))
    (fun _ => NoFault)
    (fun _ => true)
    (fun _ => [])
    [] true [].

Definition with_io (f : nat -> Fault) (E : Env) : Env :=
  mkEnv (ARIA_BIN E) (cfg_aria2_enabled E) (ARIA_MIN_BYTES E) (EXTERNAL_PATH E)
    (DOWNLOAD_STATE E) (telethon_ready E) (clock E) f (spawn_ok E) (calls E)
    (feed E) (feed_ok E) (payload E).

Definition with_calls (f : nat -> list Control) (E : Env) : Env :=
  mkEnv (ARIA_BIN E) (cfg_aria2_enabled E) (ARIA_MIN_BYTES E) (EXTERNAL_PATH E)
    (DOWNLOAD_STATE E) (telethon_ready E) (clock E) (io E) (spawn_ok E) f
    (feed E) (feed_ok E) (payload E).

Definition profile0 : Profile := compute_profile 3 None true.

Definition world0 : World := mkWorld ∅ ∅ [] 0 [].

Definition sys0 : Sys := mkSys (blank_controller profile0 "/data/dl") world0.

(** A world whose store file holds the given text. *)
Definition world_with_store (rd : bool) (t : Text) : World :=
  with_docs {[ DOWNLOAD_STATE env0 := mkTextFile rd t ]} world0.

(** A checkpoint with one entry: chat 7, message 1, 500 of 1000 bytes. *)
Definition store_7_1 : Store := {[ "7" := {[ "1" := mkEntry 500 1000 ]} ]}.

(** The system after [_save_progress] has run: the clock is read; when the
    interval has passed, the mapping in memory is written and the clock is
    read again for [last_save]. *)
Definition progress_saved (E : Env) (s : Sys) : Sys :=
  let n := steps (world s) in
  let w1 := with_steps (S n) (world s) in
  if Qge_bool (clock E n - last_save (self s)) STATE_SAVE_INTERVAL
  then
    let w2 := write_outcome E (DOWNLOAD_STATE E) (Dumped (state (self s))) w1 in
    mkSys (with_last_save (clock E (steps w2)) (self s)) (with_steps (S (steps w2)) w2)
  else mkSys (self s) w1.

(** The controller after the two assignments of [_cb]'s locked block. *)
Definition progress_recorded (chat_id msg_id assumed_size received total : Z)
  (c : DownloadController) : DownloadController :=
  with_state (set_entry (state c) (str chat_id) (str msg_id)
                (mkEntry received (py_or total assumed_size)))
    (with_downloaded
       (downloaded c + Z.max 0 (received - get_done (state c) (str chat_id) (str msg_id)))
       c).

(** [s'] differs from [s] at most in the two flags and in the count of
    environment events: what looking at the flags can change. *)
Definition only_flags_moved (s s' : Sys) : Prop :=
  profile (self s') = profile (self s) /\
  dest (self s') = dest (self s) /\
  downloaded (self s') = downloaded (self s) /\
  total_bytes (self s') = total_bytes (self s) /\
  last_save (self s') = last_save (self s) /\
  state (self s') = state (self s) /\
  docs (world s') = docs (world s) /\
  media (world s') = media (world s) /\
  procs (world s') = procs (world s) /\
  engines (world s') = engines (world s).

(** The cumulative counts of a transfer never go down, starting from [prev]. *)
Fixpoint nondecreasing_from (prev : Z) (l : list (Z * Z)) : Prop :=
  match l with
  | [] => True
  | (received, _) :: rest => prev <= received /\ nondecreasing_from received rest
  end.

(** The last cumulative count reported, [prev] when there is no report. *)
Fixpoint last_received (prev : Z) (l : list (Z * Z)) : Z :=
  match l with
  | [] => prev
  | (received, _) :: rest => last_received received rest
  end.

(** A controller just built on an empty disk, and one rebuilt after a
    restart on a disk whose store file holds the checkpoint of chat 7. *)
Definition fresh_sys : Sys := new_controller env0 profile0 "/data/dl" world0.

Definition restarted_sys : Sys :=
  new_controller env0 profile0 "/data/dl" (world_with_store true (Dumped store_7_1)).

(** A call keeps the component [f] of the world, however it ends. *)
Definition keeps {X A} (f : World -> X) (m : M A) : Prop :=
  forall s, f (world (after m s)) = f (world s).

(** An item of 150 MiB with a direct URL, and the same without one. *)
Definition big_item : DownloadItem :=
  mkItem 1 (Some (150 * 1024 * 1024)) (Some "my video.mp4")
    (Some "https://cdn.example.org/v.mp4").

(** Another thread calls [cancel()] just before this thread's look number [k]
    at a flag. *)
Definition cancel_at (k : nat) : nat -> list Control :=
  fun n => if Nat.eqb n k then [CallCancel] else [].

Definition env_cancel : Env := with_calls (cancel_at 5) env0.

(** A controller whose destination already holds three bytes of the file. *)
Definition clip_path : string := "/data/dl/7_1_clip.mp4".

Definition partial_sys : Sys :=
  mkSys (blank_controller profile0 "/data/dl")
        (with_media {[ clip_path := [Byte.x07; Byte.x07; Byte.x07] ]} world0).

(** v2: the locals of [download_with_telethon] when it starts on a chat with
    no checkpoint. *)
Definition v2_start : V2.Locals := V2.mkLocals 0 ∅.


(** * The rest of the scripts

    ** More of the controller *)

(** No other thread calls [pause()], [resume()] or [cancel()]. *)
Definition quiet (E : Env) : Prop := forall n, calls E n = [].

(** v2: [clear_state_for(chat_id)]:
    [s = load_state(); s.pop(str(chat_id), None); save_state(s)]. *)
Definition clear_state_for (E : Env) (chat_id : Z) : M unit :=
  s <- load_state_v2 E;
  save_state_v2 E (delete (str chat_id) s).

Definition with_clock (f : nat -> Q) (E : Env) : Env :=
  mkEnv (ARIA_BIN E) (cfg_aria2_enabled E) (ARIA_MIN_BYTES E) (EXTERNAL_PATH E)
    (DOWNLOAD_STATE E) (telethon_ready E) f (io E) (spawn_ok E) (calls E)
    (feed E) (feed_ok E) (payload E).

Definition with_feed (reports : list (Z * Z)) (ok : bool) (E : Env) : Env :=
  mkEnv (ARIA_BIN E) (cfg_aria2_enabled E) (ARIA_MIN_BYTES E) (EXTERNAL_PATH E)
    (DOWNLOAD_STATE E) true (clock E) (io E) (spawn_ok E) (calls E)
    reports ok (payload E).

(** A device on which every write is refused, with a clock that reads
    10, 11, 12, ...: a second per reading. *)
Definition env_readonly : Env :=
  with_clock (fun n => inject_Z (10 + Z.of_nat n)) (with_io (fun _ => FailOpen) env0).

(** A controller with a checkpoint in memory that is not yet on disk. *)
Definition unsaved_sys : Sys :=
  mkSys (with_state store_7_1 (blank_controller profile0 "/data/dl")) world0.

(** A controller on which [cancel()] has been called. *)
Definition cancelled_sys : Sys :=
  mkSys (cancel (pause (blank_controller profile0 "/data/dl"))) world0.

(** A Telethon client whose transfer reports 300 and 600 of 1000 bytes and
    then fails. *)
Definition env_broken_feed : Env := with_feed [(300, 1000); (600, 1000)] false env0.

(** ** v2: the paginated chooser *)

(** The values [range(i, stop, step)] yields for [step > 0]; one unit of
    fuel per value. *)
Fixpoint range_from (fuel : nat) (i stop step : Z) : list Z :=
  match fuel with
  | O => []
  | S k => if i <? stop then i :: range_from k (i + step) stop step else []
  end.

(** [l[i:j]] for [0 <= i]: a slice stops at the end of the list. *)
Definition slice {A} (l : list A) (i j : Z) : list A :=
  take (Z.to_nat (j - i)) (drop (Z.to_nat i) l).

(** [l[i]]: a negative index counts from the end; [None] is [IndexError]. *)
Definition py_index {A} (l : list A) (i : Z) : option A :=
  if i <? 0
  then if 0 <=? Z.of_nat (length l) + i
       then l !! Z.to_nat (Z.of_nat (length l) + i)
       else None
  else l !! Z.to_nat i.

(** One value of the generator [paginate]:
    [(items[i:i+page_size], i // page_size + 1,
      (len(items) + page_size - 1) // page_size)]. *)
Record Page (A : Type) := mkPage {
  page_items : list A;
  page_num : Z;
  total_pages : Z
}.
Arguments mkPage {A} _ _ _.
Arguments page_items {A} _.
Arguments page_num {A} _.
Arguments total_pages {A} _.

(** [list(paginate(items, page_size))]: [range] refuses a step of zero
    ([inl ValueError]) and is empty for a negative one. *)
Definition paginate {A} (items : list A) (page_size : Z) : Exn + list (Page A) :=
  let n := Z.of_nat (length items) in
  if page_size =? 0 then inl ValueError
  else if page_size <? 0 then inr []
  else inr (map (fun i => mkPage (slice items i (i + page_size))
                            (i / page_size + 1)
                            ((n + page_size - 1) / page_size))
              (range_from (length items) 0 n page_size)).

(** What [input(...).strip().lower()] is, as [choose_from_list] tells the
    cases apart: ["n"], ["p"], ["q"], a string of digits that reads [num],
    anything else. *)
Inductive Cmd :=
| CmdNext
| CmdPrev
| CmdQuit
| CmdNumber (num : Z)
| CmdUnknown.

(** How [choose_from_list] ends: [return items[num - 1]], [return None],
    [EOFError] from [input] when the input has ended, [IndexError] from a
    subscript, or an exception of [paginate]. *)
Inductive Choice (A : Type) :=
| Chosen (a : A)
| ReturnedNone
| EOFError
| IndexError
| Raised (e : Exn).
Arguments Chosen {A} a.
Arguments ReturnedNone {A}.
Arguments EOFError {A}.
Arguments IndexError {A}.
Arguments Raised {A} e.

(** [enumerate(l, start)]. *)
Fixpoint enumerate {A} (l : list A) (start : Z) : list (Z * A) :=
  match l with
  | [] => []
  | a :: l' => (start, a) :: enumerate l' (start + 1)
  end.

(** The [while True] loop of [choose_from_list]: one turn per line of input.
    The second component is what has been listed, turn by turn: the pairs
    [(idx, item)] of [for idx, item in enumerate(page_items,
    start=1 + page_index * 100)]. *)
Fixpoint choose_loop {A} (items : list A) (pages : list (Page A)) (page_index : Z)
  (inputs : list Cmd) : Choice A * list (list (Z * A)) :=
  match py_index pages page_index with
  | None => (IndexError, [])
  | Some pg =>
      let shown := enumerate (page_items pg) (1 + page_index * 100) in
      match inputs with
      | [] => (EOFError, [shown])
      | cmd :: rest =>
          let continue (i : Z) :=
            let (r, screens) := choose_loop items pages i rest in
            (r, shown :: screens) in
          match cmd with
          | CmdNext =>
              if page_index + 1 <? Z.of_nat (length pages)
              then continue (page_index + 1)
              else continue page_index
          | CmdPrev =>
              if 0 <? page_index
              then continue (page_index - 1)
              else continue page_index
          | CmdQuit => (ReturnedNone, [shown])
          | CmdNumber num =>
              if (1 <=? num) && (num <=? Z.of_nat (length items))
              then match py_index items (num - 1) with
                   | Some a => (Chosen a, [shown])
                   | None => (IndexError, [shown])
                   end
              else continue page_index
          | CmdUnknown => continue page_index
          end
      end
  end.

(** [choose_from_list(items, title)]. *)
Definition choose_from_list {A} (items : list A) (inputs : list Cmd)
  : Choice A * list (list (Z * A)) :=
  match items with
  | [] =>
      match inputs with
      | [] => (EOFError, [])
      | _ :: _ => (ReturnedNone, [])
      end
  | _ :: _ =>
      match paginate items 100 with
      | inr pages => choose_loop items pages 0 inputs
      | inl e => (Raised e, [])
      end
  end.

(** What is asked of a run of the chooser: no subscript failed, an item
    returned is one of [items], and every number listed next to an item
    passes the range test of the number branch and indexes this item. *)
Definition chooser_sound {A} (items : list A) (rs : Choice A * list (list (Z * A))) : Prop :=
  fst rs <> IndexError /\
  (forall e, fst rs <> Raised e) /\
  (forall a, fst rs = Chosen a -> a ∈ items) /\
  forall screen idx item,
    screen ∈ snd rs -> (idx, item) ∈ screen ->
    1 <= idx <= Z.of_nat (length items) /\
    py_index items (idx - 1) = Some item.

(** ** The download history: [append_history] *)

Module History.

(** One element of the list in [HISTORY_FILE]:
    [{"chat": ..., "size": ..., "time": ..., "duration": f"{duration}s"}]. *)
Record Item := mkItem {
  chat : string;
  size : Z;
  time : string;
  duration : string
}.

(** The text of the history file: the dump of a list, a dump the write left
    cut short, JSON that is not a list (only a list has [append]), or text
    that is not JSON. *)
Inductive HText :=
| Listed (h : list Item)
| Cut (h : list Item)
| NotAList
| NotJson.

Record HFile := mkHFile { readable : bool; text : HText }.

(** [None]: [HISTORY_FILE.exists()] is false. *)
Definition Disk := option HFile.

Inductive Error := OSError | JSONDecodeError | AttributeError.

(** [json.loads(HISTORY_FILE.read_text(encoding="utf-8"))] on a file that
    exists; [inr None] is a value that is not a list. *)
Definition read_loads (f : HFile) : Error + option (list Item) :=
  if readable f
  then match text f with
       | Listed h => inr (Some h)
       | NotAList => inr None
       | Cut _ => inl JSONDecodeError
       | NotJson => inl JSONDecodeError
       end
  else inl OSError.

(** [hist.append(item)]. *)
Definition append (hist : option (list Item)) (item : Item) : Error + list Item :=
  match hist with
  | Some h => inr (h ++ [item])
  | None => inl AttributeError
  end.

(** [h[-n:]]. *)
Definition last_n (n : nat) (h : list Item) : list Item :=
  drop (length h - n) h.

(** [HISTORY_FILE.write_text(json.dumps(h, indent=2), encoding="utf-8")]:
    the file itself is opened and truncated, then written. *)
Definition write_text (fault : Fault) (h : list Item) (d : Disk) : option Error * Disk :=
  let rd := default true (readable <$> d) in
  match fault with
  | NoFault => (None, Some (mkHFile rd (Listed h)))
  | FailOpen => (Some OSError, d)
  | FailMid => (Some OSError, Some (mkHFile rd (Cut h)))
  end.

(** [f"{duration}s"]. *)
Definition seconds (duration : Z) : string := pretty duration +:+ "s".

(** v2.6: the whole body is under one [try: ... except Exception: pass]. *)
Definition append_history (now : string) (fault : Fault)
  (chat_name : string) (total duration : Z) (d : Disk) : option Error * Disk :=
  let item := mkItem chat_name total now (seconds duration) in
  let loaded := match d with
                | Some f => read_loads f
                | None => inr (Some [])
                end in
  match loaded with
  | inl _ => (None, d)
  | inr hist =>
      match append hist item with
      | inl _ => (None, d)
      | inr hist' => (None, snd (write_text fault (last_n 300 hist') d))
      end
  end.

(** v2.5: one [try] around the load, which falls back to [[]], and one
    around the write; [hist.append] is outside both. *)
Definition append_history_v25 (now : string) (fault : Fault)
  (chat_name : string) (total duration_s : Z) (d : Disk) : option Error * Disk :=
  let item := mkItem chat_name total now (seconds duration_s) in
  let hist := match d with
              | Some f => match read_loads f with
                          | inr hist => hist
                          | inl _ => Some []
                          end
              | None => Some []
              end in
  match append hist item with
  | inl e => (Some e, d)
  | inr hist' => (None, snd (write_text fault (last_n 300 hist') d))
  end.

(** v2: a [try] around the load only; the last 200 are kept and the write
    is not guarded. *)
Definition append_history_v2 (now : string) (fault : Fault)
  (chat_name : string) (total duration_s : Z) (d : Disk) : option Error * Disk :=
  let item := mkItem chat_name total now (seconds duration_s) in
  let h := match d with
           | Some f => match read_loads f with
                       | inr h => h
                       | inl _ => Some []
                       end
           | None => Some []
           end in
  match append h item with
  | inl e => (Some e, d)
  | inr h' => write_text fault (last_n 200 h') d
  end.

(** The list the history file holds, when it holds one that can be read. *)
Definition listed (d : Disk) : option (list Item) :=
  match d with
  | Some (mkHFile true (Listed h)) => Some h
  | _ => None
  end.

(** One completed download to record: the clock text, what the write meets,
    and the arguments. *)
Record Call := mkCall {
  now : string;
  fault : Fault;
  chat_name : string;
  total : Z;
  duration_arg : Z
}.

Definition run (append_history : string -> Fault -> string -> Z -> Z -> Disk -> option Error * Disk)
  (calls : list Call) (d : Disk) : Disk :=
  fold_left (fun d c => snd (append_history (now c) (fault c) (chat_name c) (total c)
                               (duration_arg c) d))
    calls d.

End History.

(** The history the next [append_history] starts from: the list in the
    file, or [[]] when there is no file. *)
Definition history_before (d : History.Disk) (h : list History.Item) : Prop :=
  (d = None /\ h = []) \/ History.listed d = Some h.

(** A variant of [append_history] records the newest download and keeps at
    most [cap] entries: when the write goes through, the file holds the old
    list with the new item at its end, cut to its last [cap] elements. *)
Definition records_newest (cap : nat)
  (f : string -> Fault -> string -> Z -> Z -> History.Disk ->
       option History.Error * History.Disk) : Prop :=
  forall (now chat_name : string) (total duration : Z) (d : History.Disk)
         (h : list History.Item),
    history_before d h ->
    let item := History.mkItem chat_name total now (History.seconds duration) in
    exists h',
      f now NoFault chat_name total duration d = (None, Some (History.mkHFile true (History.Listed h'))) /\
      last h' = Some item /\
      (length h' <= cap)%nat /\
      h' `suffix_of` (h ++ [item]) /\
      ((length h < cap)%nat -> h' = h ++ [item]).

(** The history file exists and does not hold a list that can be read. *)
Definition history_unloadable (d : History.Disk) : Prop :=
  is_Some d /\ History.listed d = None.

(** A history file that is not JSON, and two downloads to record. *)
Definition history_junk : History.Disk :=
  Some (History.mkHFile true History.NotJson).

Definition two_calls : list History.Call :=
  [History.mkCall "2024-01-01T00:00:00" NoFault "news" 1000 12;
   History.mkCall "2024-01-02T00:00:00" NoFault "films" 5000 40].

(** ** The speed probe: [measure_speed_sample] *)

(** What the probe meets: whether [requests] could be imported, the two
    readings of [time.time()], and the response: [None] when [requests.get]
    raises, else the lengths of the chunks [r.iter_content(4096)] yields and
    whether the stream raises after them instead of ending. *)
Record Probe := mkProbe {
  requests_ok : bool;
  t0 : Q;
  response : option (list Z * bool);
  t1 : Q
}.

(** [for chunk in r.iter_content(4096): total += len(chunk);
     if total >= 40000: break]: the total and whether the loop was left by
    [break]. *)
Fixpoint count_chunks (chunks : list Z) (total : Z) : Z * bool :=
  match chunks with
  | [] => (total, false)
  | n :: rest =>
      let total := total + n in
      if 40000 <=? total then (total, true) else count_chunks rest total
  end.

(** The bytes counted before the loop is left. *)
Definition bytes_counted (p : Probe) : Z :=
  match response p with
  | Some (chunks, _) => fst (count_chunks chunks 0)
  | None => 0
  end.

(** [measure_speed_sample(timeout=6.0)] of v2.6 and v2.5. *)
Definition measure_speed_sample (p : Probe) : option Q :=
  if negb (requests_ok p) then None
  else
    match response p with
    | None => None
    | Some (chunks, raises) =>
        let '(total, broke) := count_chunks chunks 0 in
        if negb broke && raises then None
        else
          let dt := (t1 p - t0 p)%Q in
          if Qlt_le_dec 0 dt then Some (inject_Z total / dt)%Q else None
    end.

(** A favicon of 5430 bytes in two chunks, fetched in a quarter second. *)
Definition probe_favicon : Probe :=
  mkProbe true 100 (Some ([4096; 1334], false)) (100 + (1 # 4)).

(** ** v2: backup and restore *)

Module Backup.

(** A file is named by its directory and its name in it. *)
Abbreviation Path := (string * string)%type.

(** [cfg["lockout"]]: [{"attempts": ..., "blocked_until": ...}]; a key that
    is absent reads as 0 ([lock.get(key, 0)]). *)
Record Lock := mkLock { attempts : Z; blocked_until : Z }.

(** The keys of [cfg] that backup and restore read or write. *)
Record Cfg := mkCfg {
  owner : option string;
  lockout : Lock;
  owner_code_enc : option string;
  last_backup : string
}.

Definition with_lockout (l : Lock) (c : Cfg) : Cfg :=
  mkCfg (owner c) l (owner_code_enc c) (last_backup c).
Definition with_last_backup (ts : string) (c : Cfg) : Cfg :=
  mkCfg (owner c) (lockout c) (owner_code_enc c) ts.

(** What a file holds: some text, or the dump of [cfg]; whole, or cut short
    by a write that stopped part-way. *)
Inductive Doc := Plain (t : string) | ConfigJson (c : Cfg).
Inductive Content := Whole (d : Doc) | Partial (d : Doc).

Abbreviation Files := (gmap (string * string) Content).

(** What [dest.write_text(src.read_text(encoding="utf-8"))] meets. *)
Inductive CopyFault :=
| Copies
| ReadFails      (* read_text raises *)
| OpenFails      (* the destination cannot be opened: nothing changed *)
| WriteStops.    (* opened and truncated, then the write stopped part-way *)

Definition cut (c : Content) : Content :=
  match c with
  | Whole d => Partial d
  | Partial d => Partial d
  end.

(** [dst.write_text(src.read_text(encoding="utf-8"))]; [true] when it
    raises. *)
Definition copy (f : CopyFault) (src dst : Path) (fs : Files) : bool * Files :=
  match fs !! src with
  | None => (true, fs)
  | Some c =>
      match f with
      | Copies => (false, <[dst := c]> fs)
      | ReadFails => (true, fs)
      | OpenFails => (true, fs)
      | WriteStops => (true, <[dst := cut c]> fs)
      end
  end.

(** [name.endswith(suf)]. *)
Definition ends_with (suf name : string) : bool :=
  String.prefix (String.rev suf) (String.rev name).

(** [Path.stem]: the name without its last suffix; a dot that starts or
    ends the name starts no suffix. *)
Definition stem (name : string) : string :=
  match String.index 0 "." (String.rev name) with
  | Some j =>
      let i := (String.length name - 1 - j)%nat in
      if (0 <? i)%nat && (i <? String.length name - 1)%nat
      then String.substring 0 i name
      else name
  | None => name
  end.

Section Layout.

(** [MANAGER_DATA = Path.home() / APP / "ManagerData"]. *)
Variable MANAGER_DATA : string.

Definition SEC_DIR : string := MANAGER_DATA +:+ "/security".
Definition BACKUPS_DIR : string := MANAGER_DATA +:+ "/backups".
Definition CFG_PATH : Path := (SEC_DIR, "config.json"%string).
Definition DOWNLOAD_STATE : Path := (MANAGER_DATA, "download_state.json"%string).
Definition HISTORY_FILE : Path := (MANAGER_DATA, "download_history.json"%string).

(** [save_config(cfg)] of v2: [CFG_PATH.write_text(json.dumps(cfg, indent=2))],
    not guarded; [true] when it raises. *)
Definition save_config (fault : Fault) (cfg : Cfg) (fs : Files) : bool * Files :=
  match fault with
  | NoFault => (false, <[CFG_PATH := Whole (ConfigJson cfg)]> fs)
  | FailOpen => (true, fs)
  | FailMid => (true, <[CFG_PATH := Partial (ConfigJson cfg)]> fs)
  end.

(** [bk_dir = BACKUPS_DIR / f"backup_{ts}"]. *)
Definition bk_dir (ts : string) : string := BACKUPS_DIR +:+ "/backup_" +:+ ts.

(** [files = {"state": DOWNLOAD_STATE, "history": HISTORY_FILE,
              "config": CFG_PATH}]. *)
Definition files : list (string * Path) :=
  [("state"%string, DOWNLOAD_STATE); ("history"%string, HISTORY_FILE);
   ("config"%string, CFG_PATH)].

(** [for k, p in files.items(): if p.exists():
       dest = bk_dir / f"{k}.json"; dest.write_text(p.read_text(...))];
    [faults i] is what copy number [i] meets. *)
Fixpoint backup_loop (faults : nat -> CopyFault) (i : nat) (dir : string)
  (todo : list (string * Path)) (fs : Files) : bool * Files :=
  match todo with
  | [] => (false, fs)
  | (k, p) :: rest =>
      if bool_decide (is_Some (fs !! p))
      then match copy (faults i) p (dir, k +:+ ".json") fs with
           | (true, fs') => (true, fs')
           | (false, fs') => backup_loop faults (S i) dir rest fs'
           end
      else backup_loop faults i dir rest fs
  end.

(** [make_backup(auto)]: the copies, then [cfg["last_backup"] = ts;
    save_config(cfg)].  The result is whether it raised, [cfg] in memory and
    the files. *)
Definition make_backup (ts : string) (mkdir_ok : bool) (faults : nat -> CopyFault)
  (save_fault : Fault) (cfg : Cfg) (fs : Files) : bool * Cfg * Files :=
  if negb mkdir_ok then (true, cfg, fs)
  else
    match backup_loop faults 0 (bk_dir ts) files fs with
    | (true, fs') => (true, cfg, fs')
    | (false, fs') =>
        let cfg' := with_last_backup ts cfg in
        let (raised, fs'') := save_config save_fault cfg' fs' in
        (raised, cfg', fs'')
    end.

(** [dest = MANAGER_DATA / f"{name}.json" if name != "config" else CFG_PATH]
    for [name = f.stem]. *)
Definition restore_dest (file_name : string) : Path :=
  let name := stem file_name in
  if String.eqb name "config" then CFG_PATH else (MANAGER_DATA, name +:+ ".json").

(** [for f in sel.glob("*.json"): ... dest.write_text(f.read_text(...))];
    [listing] is what the glob yields, in its order. *)
Fixpoint restore_loop (faults : nat -> CopyFault) (i : nat) (sel : string)
  (listing : list string) (fs : Files) : bool * Files :=
  match listing with
  | [] => (false, fs)
  | f :: rest =>
      match copy (faults i) (sel, f) (restore_dest f) fs with
      | (true, fs') => (true, fs')
      | (false, fs') => restore_loop faults (S i) sel rest fs'
      end
  end.

End Layout.

(** What [sel.glob("*.json")] can yield on the files [fs]: each file of the
    directory whose name ends in [.json], once, in some order. *)
Definition glob_of (sel : string) (fs : Files) (listing : list string) : Prop :=
  NoDup listing /\
  forall n, n ∈ listing <-> is_Some (fs !! (sel, n)) /\ ends_with ".json" n = true.

End Backup.

(** A device with a checkpoint and a configuration, no history yet. *)
Definition data_dir : string := "/home/u/TelegramManager/ManagerData".

Definition cfg_plain : Backup.Cfg :=
  Backup.mkCfg (Some "Owner"%string) (Backup.mkLock 0 0) None "".

Definition files_before_backup : Backup.Files :=
  {[ Backup.DOWNLOAD_STATE data_dir := Backup.Whole (Backup.Plain "{checkpoint}");
     Backup.CFG_PATH data_dir := Backup.Whole (Backup.ConfigJson cfg_plain) ]}.

(** The backup of 1 January, and the device after the checkpoint was lost. *)
Definition backup_made : bool * Backup.Cfg * Backup.Files :=
  Backup.make_backup data_dir "20240101_000000" true (fun _ => Backup.Copies) NoFault
    cfg_plain files_before_backup.

Definition files_after_loss : Backup.Files :=
  delete (Backup.DOWNLOAD_STATE data_dir) (snd backup_made).

(** ** [SimpleFernet] and the owner check of a restore *)

Section Security.

(** The library calls of [SimpleFernet] and of the check:
    [base64.urlsafe_b64encode], [base64.urlsafe_b64decode] ([None] when it
    raises), [hashlib.sha256(raw).digest()], AES in CFB mode under a key and
    an IV, and [bytes.decode()] ([None] when it raises).  Bytes and text are
    both [string]: a [str] is its UTF-8 bytes, so [str.encode()] is the
    identity. *)
Variable urlsafe_b64encode : string -> string.
Variable urlsafe_b64decode : string -> option string.
Variable sha256 : string -> string.
Variable aes_cfb_encrypt : string -> string -> string -> string.
Variable aes_cfb_decrypt : string -> string -> string -> string.
Variable utf8_decode : string -> option string.

(** Whether PyCryptodome could be imported. *)
Variable pycrypto_ok : bool.

(** [self.key]. *)
Record SimpleFernet := mkSimpleFernet { fernet_key : string }.

(** [__init__(self, key=None)]: [raw = key or SimpleFernet.generate_key()];
    [generated] is what [generate_key()] would return. *)
Definition SimpleFernet__init__ (key : option string) (generated : string) : SimpleFernet :=
  let raw := if truthy_str key then default generated key else generated in
  mkSimpleFernet (sha256 raw).

(** [encrypt(self, data)]; [iv] is [get_random_bytes(16)]. *)
Definition encrypt (self : SimpleFernet) (iv data : string) : string :=
  if negb pycrypto_ok
  then urlsafe_b64encode data
  else urlsafe_b64encode (iv +:+ aes_cfb_encrypt (fernet_key self) iv data).

(** [decrypt(self, token)]: every exception gives [b""]; [AES.new] refuses
    an IV that is not 16 bytes long. *)
Definition decrypt (self : SimpleFernet) (token : string) : string :=
  match urlsafe_b64decode token with
  | None => ""
  | Some raw =>
      if negb pycrypto_ok then raw
      else
        let iv := String.substring 0 16 raw in
        let ct := String.substring 16 (String.length raw - 16) raw in
        if (String.length iv =? 16)%nat
        then aes_cfb_decrypt (fernet_key self) iv ct
        else ""
  end.

(** What is typed at [Select number or q:], as the flow tells the cases
    apart: ["q"] in any case, a string of digits that reads [n], anything
    else. *)
Inductive Pick := PickQ | PickNumber (n : Z) | PickOther.

(** How [restore_backup_flow] ends. *)
Inductive Outcome :=
| NoBackups        (* "No backups found." *)
| Declined         (* q *)
| NotSelected      (* not a number of the list: nothing happens *)
| Blocked          (* "Device locked due to failed restore attempts." *)
| Mismatch         (* "Owner code mismatch. Abort." *)
| VerifyFailed     (* "Failed to verify owner code. Abort." *)
| Restored         (* "Restore complete." *)
| RestoreRaised.   (* a copy of the restore loop raised *)

Variable MANAGER_DATA : string.

(** The restore loop on the chosen backup. *)
Definition perform_restore (sel : string) (glob : string -> list string)
  (faults : nat -> Backup.CopyFault) (cfg : Backup.Cfg) (fs : Backup.Files)
  : Outcome * Backup.Cfg * Backup.Files :=
  let (raised, fs') := Backup.restore_loop MANAGER_DATA faults 0 sel (glob sel) fs in
  (if raised then RestoreRaised else Restored, cfg, fs').

(** [restore_backup_flow()] of v2.  [backups] is [list_backups()], [c] the
    line typed, [now_ts] is [int(time.time())], [code] what [getpass]
    returns, stripped; [glob sel] is what [sel.glob("*.json")] yields.
    The result is how it ends, [cfg] in memory and the files. *)
Definition restore_backup_flow (FERNET : SimpleFernet) (backups : list string) (c : Pick)
  (now_ts : Z) (code : string) (save_fault : Fault) (glob : string -> list string)
  (faults : nat -> Backup.CopyFault) (cfg : Backup.Cfg) (fs : Backup.Files)
  : Outcome * Backup.Cfg * Backup.Files :=
  match backups with
  | [] => (NoBackups, cfg, fs)
  | _ :: _ =>
      match c with
      | PickQ => (Declined, cfg, fs)
      | PickOther => (NotSelected, cfg, fs)
      | PickNumber n =>
          if (1 <=? n) && (n <=? Z.of_nat (length (take 10 backups)))
          then
            match py_index backups (n - 1) with
            | None => (NotSelected, cfg, fs)
            | Some sel =>
                if truthy_str (Backup.owner cfg)
                then
                  let lock := Backup.lockout cfg in
                  if now_ts <? Backup.blocked_until lock
                  then (Blocked, cfg, fs)
                  else if truthy_str (Backup.owner_code_enc cfg)
                  then
                    let stored_code_enc := default ""%string (Backup.owner_code_enc cfg) in
                    match utf8_decode (decrypt FERNET stored_code_enc) with
                    | None => (VerifyFailed, cfg, fs)
                    | Some dec =>
                        if negb (String.eqb dec code)
                        then
                          let a := Backup.attempts lock + 1 in
                          let lock' :=
                            Backup.mkLock a
                              (if 3 <=? a then now_ts + 24 * 3600
                               else Backup.blocked_until lock) in
                          let cfg' := Backup.with_lockout lock' cfg in
                          let (raised, fs') :=
                            Backup.save_config MANAGER_DATA save_fault cfg' fs in
                          (if raised then VerifyFailed else Mismatch, cfg', fs')
                        else perform_restore sel glob faults cfg fs
                    end
                  else perform_restore sel glob faults cfg fs
                else perform_restore sel glob faults cfg fs
            end
          else (NotSelected, cfg, fs)
      end
  end.

(** One use of the restore menu: what is typed and what the device does. *)
Record Visit := mkVisit {
  v_backups : list string;
  v_pick : Pick;
  v_now : Z;
  v_code : string;
  v_save : Fault;
  v_glob : string -> list string;
  v_faults : nat -> Backup.CopyFault
}.

Definition visit (FERNET : SimpleFernet) (v : Visit) (st : Backup.Cfg * Backup.Files)
  : Outcome * Backup.Cfg * Backup.Files :=
  restore_backup_flow FERNET (v_backups v) (v_pick v) (v_now v) (v_code v) (v_save v)
    (v_glob v) (v_faults v) (fst st) (snd st).

(** The configuration and the files after a series of visits. *)
Definition visits (FERNET : SimpleFernet) (l : list Visit) (st : Backup.Cfg * Backup.Files)
  : Backup.Cfg * Backup.Files :=
  fold_left (fun st v => let '(_, cfg, fs) := visit FERNET v st in (cfg, fs)) l st.

End Security.

(** A library for examples, with the stored code kept as plain text:
    base64 and AES are the identity, every byte string decodes. *)
Definition plain_fernet : SimpleFernet := mkSimpleFernet "k".

(** The same with a base64 decoder that refuses every token. *)
Definition no_b64decode : string -> option string := fun _ => None.

Definition no_aes : string -> string -> string -> string := fun _ _ d => d.

(** An owner with the stored code ["1234"], no failed attempt so far. *)
Definition cfg_owner : Backup.Cfg :=
  Backup.mkCfg (Some "Owner"%string) (Backup.mkLock 0 0) (Some "1234"%string) "".

(** A visit at second [now] that picks the first backup and types [code]. *)
Definition try_code (now : Z) (code : string) : Visit :=
  mkVisit ["backup_20240101_000000"%string] (PickNumber 1) now code NoFault
    (fun _ => []) (fun _ => Backup.Copies).
(** * Properties

    ** The profile computer: the rows of the table *)

Lemma to_mbps_ge (bps c : Q) :
  Qge_bool (to_mbps bps) c = Qge_bool bps (c * 1000000)%Q.
Proof.
  unfold Qge_bool, to_mbps.
  assert (E : (bps / 1000000 == bps * (1 # 1000000))%Q) by reflexivity.
  destruct (Qle_bool c (bps / 1000000)) eqn:H1;
    destruct (Qle_bool (c * 1000000) bps) eqn:H2; try reflexivity.
  - apply Qle_bool_iff in H1. rewrite E in H1.
    assert (H3 : (c * 1000000 <= bps)%Q) by lra.
    apply Qle_bool_iff in H3. congruence.
  - apply Qle_bool_iff in H2.
    assert (H3 : (c <= bps / 1000000)%Q) by (rewrite E; lra).
    apply Qle_bool_iff in H3. congruence.
Qed.

Lemma Qge_bool_false (a b : Q) : (a < b)%Q -> Qge_bool a b = false.
Proof.
  intros H. unfold Qge_bool. destruct (Qle_bool b a) eqn:E; [|reflexivity].
  apply Qle_bool_iff in E. lra.
Qed.

Lemma Qge_bool_true (a b : Q) : (b <= a)%Q -> Qge_bool a b = true.
Proof. intros H. unfold Qge_bool. now apply Qle_bool_iff. Qed.

Lemma truthy_bps_Some (q : Q) : ~ (q == 0)%Q -> truthy_bps (Some q) = true.
Proof.
  intros H. unfold truthy_bps. destruct (Qeq_bool q 0) eqn:E; [|reflexivity].
  apply Qeq_bool_iff in E. contradiction.
Qed.

Lemma speed_row_cases (mbps : Q) :
  speed_row mbps = (1000000, 4, true) \/ speed_row mbps = (512000, 2, true) \/
  speed_row mbps = (256000, 1, false) \/ speed_row mbps = (128000, 1, false).
Proof.
  unfold speed_row.
  destruct (Qge_bool mbps 10); [tauto|].
  destruct (Qge_bool mbps 2); [tauto|].
  destruct (Qge_bool mbps (1 # 2)); tauto.
Qed.

(** v2.5's profile is v2.6's, with [measured_bps] beside it. *)
Lemma compute_runtime_profile_profile (r : Q) (bps : option Q) (b : bool) :
  rp_profile (compute_runtime_profile r bps b) = compute_profile r bps b.
Proof.
  unfold compute_runtime_profile, compute_profile.
  destruct (truthy_bps bps).
  - destruct (speed_row_cases (to_mbps (default 0%Q bps))) as [H|[H|[H|H]]];
      rewrite H; destruct b; reflexivity.
  - destruct b; reflexivity.
Qed.

(** Row "unknown": [None], and also a measured [0.0], which [if bps:] takes
    for no measurement. *)
Lemma compute_profile_falsy (r : Q) (bps : option Q) :
  truthy_bps bps = false ->
  compute_profile r bps true = mkProfile 256000 1 false r.
Proof. intros H. unfold compute_profile. now rewrite H. Qed.

Lemma compute_profile_fast (r q : Q) :
  (10000000 <= q)%Q -> compute_profile r (Some q) true = mkProfile 1000000 4 true r.
Proof.
  intros H. unfold compute_profile.
  rewrite truthy_bps_Some by (intros E0; rewrite E0 in H; lra).
  cbn [from_option id]. unfold speed_row.
  rewrite to_mbps_ge, Qge_bool_true by lra. reflexivity.
Qed.

Lemma compute_profile_medium (r q : Q) :
  (2000000 <= q)%Q -> (q < 10000000)%Q ->
  compute_profile r (Some q) true = mkProfile 512000 2 true r.
Proof.
  intros H1 H2. unfold compute_profile.
  rewrite truthy_bps_Some by (intros E0; rewrite E0 in H1; lra).
  cbn [from_option id]. unfold speed_row.
  rewrite to_mbps_ge, Qge_bool_false by lra.
  rewrite to_mbps_ge, Qge_bool_true by lra. reflexivity.
Qed.

Lemma compute_profile_slow (r q : Q) :
  (500000 <= q)%Q -> (q < 2000000)%Q ->
  compute_profile r (Some q) true = mkProfile 256000 1 false r.
Proof.
  intros H1 H2. unfold compute_profile.
  rewrite truthy_bps_Some by (intros E0; rewrite E0 in H1; lra).
  cbn [from_option id]. unfold speed_row.
  rewrite to_mbps_ge, Qge_bool_false by lra.
  rewrite to_mbps_ge, Qge_bool_false by lra.
  rewrite to_mbps_ge, Qge_bool_true by lra. reflexivity.
Qed.

(** C7, as amended: for every measured throughput other than zero and
    strictly below 0.5 Mbps (500,000 bytes per second), with the power flag
    true, the profile is chunk 128,000, concurrency 1, fast mode off; v2.5's
    [compute_runtime_profile] gives the same profile.  A measurement of
    exactly zero is not in this row: [compute_profile_falsy]. *)
Theorem compute_profile_below_half_mbps (r q : Q) :
  ~ (q == 0)%Q -> (q < 500000)%Q ->
  compute_profile r (Some q) true = mkProfile 128000 1 false r /\
  rp_profile (compute_runtime_profile r (Some q) true) = mkProfile 128000 1 false r.
Proof.
  intros H0 H. rewrite compute_runtime_profile_profile.
  assert (compute_profile r (Some q) true = mkProfile 128000 1 false r) as ->; [|easy].
  unfold compute_profile. rewrite truthy_bps_Some by assumption.
  cbn [from_option id]. unfold speed_row.
  rewrite !to_mbps_ge, !Qge_bool_false by lra. reflexivity.
Qed.

Lemma compute_profile_below_half_mbps_witness :
  compute_profile 3 (Some 100000%Q) true = mkProfile 128000 1 false 3 /\
  rp_profile (compute_runtime_profile 3 (Some 100000%Q) true) = mkProfile 128000 1 false 3.
Proof.
  apply (compute_profile_below_half_mbps 3 100000).
  - intros H. vm_compute in H. discriminate H.
  - reflexivity.
Defined.

(** C7 as stated fails at a measurement of exactly 0 bytes per second: zero
    is below 0.5 Mbps, the power flag is true, and the chunk size is 256,000,
    not 128,000. *)
Lemma compute_profile_zero_counterexample :
  (0 < 500000)%Q /\
  compute_profile 3 (Some 0%Q) true = mkProfile 256000 1 false 3 /\
  chunk_size (compute_profile 3 (Some 0%Q) true) <> 128000.
Proof. split; [reflexivity|]. split; [reflexivity|]. vm_compute. discriminate. Qed.

(** C10: for every input the chunk size is between 64,000 and 1,000,000,
    the concurrency is 1, 2 or 4, and it is 1 when the power flag is false;
    the same holds of v2.5's [compute_runtime_profile]. *)
Theorem compute_profile_bounds (r : Q) (bps : option Q) (battery_ok : bool) :
  let p := compute_profile r bps battery_ok in
  let p' := rp_profile (compute_runtime_profile r bps battery_ok) in
  (64000 <= chunk_size p <= 1000000 /\
   (concurrency p = 1 \/ concurrency p = 2 \/ concurrency p = 4) /\
   concurrency (compute_profile r bps false) = 1) /\
  (64000 <= chunk_size p' <= 1000000 /\
   (concurrency p' = 1 \/ concurrency p' = 2 \/ concurrency p' = 4) /\
   concurrency (rp_profile (compute_runtime_profile r bps false)) = 1).
Proof.
  cbv zeta. rewrite !compute_runtime_profile_profile.
  assert (H : 64000 <= chunk_size (compute_profile r bps battery_ok) <= 1000000 /\
   (concurrency (compute_profile r bps battery_ok) = 1 \/
    concurrency (compute_profile r bps battery_ok) = 2 \/
    concurrency (compute_profile r bps battery_ok) = 4) /\
   concurrency (compute_profile r bps false) = 1).
  { unfold compute_profile. destruct (truthy_bps bps).
    - destruct (speed_row_cases (to_mbps (default 0%Q bps))) as [H|[H|[H|H]]];
        rewrite H; destruct battery_ok; cbn -[Z.le]; repeat split; try (now vm_compute); auto.
    - destruct battery_ok; cbn -[Z.le]; repeat split; try (now vm_compute); auto. }
  split; exact H.
Qed.

(** ** Loading the checkpoint store *)

(** [load_state] returns a mapping from every state of the disk. *)
Lemma load_state_ok (E : Env) (s : Sys) :
  exists st, load_state E s = (Ok st, s).
Proof.
  unfold load_state, bind, doc_exists, get_world, ret, try_except, read_text, raise.
  destruct s as [c w]; cbn.
  destruct (docs w !! DOWNLOAD_STATE E) as [[rd t]|] eqn:Hf.
  - rewrite bool_decide_eq_true_2 by eauto. cbn. rewrite Hf. cbn.
    destruct rd; cbn; [|eauto].
    destruct t; cbn; eauto.
  - rewrite bool_decide_eq_false_2 by (intros [? ?]; discriminate).
    eauto.
Qed.

Lemma load_state_v2_eq (E : Env) (s : Sys) : load_state_v2 E s = load_state E s.
Proof.
  unfold load_state_v2, load_state, bind, doc_exists, get_world, ret.
  destruct s as [c w]; cbn.
  destruct (bool_decide (is_Some (docs w !! DOWNLOAD_STATE E))); reflexivity.
Qed.


(** A store file that holds a dump is read back as the mapping dumped. *)
Lemma load_state_dumped (E : Env) (s : Sys) (st : Store) :
  docs (world s) !! DOWNLOAD_STATE E = Some (mkTextFile true (Dumped st)) ->
  load_state E s = (Ok st, s).
Proof.
  intros Hf.
  unfold load_state, bind, doc_exists, get_world, ret, try_except, read_text.
  destruct s as [c w]; cbn in *. rewrite Hf.
  rewrite bool_decide_eq_true_2 by eauto. cbn. now rewrite Hf.
Qed.

Lemma load_state_empty (E : Env) (s : Sys) :
  state_file_missing E (world s) \/ state_file_unreadable E (world s) \/
  state_file_corrupt E (world s) ->
  load_state E s = (Ok ∅, s).
Proof.
  unfold load_state, bind, doc_exists, get_world, ret, try_except, read_text, raise.
  destruct s as [c w]; cbn.
  intros [Hm | [(f & Hf & Hr) | (f & Hf & Hr & Hc)]].
  - unfold state_file_missing in Hm. rewrite Hm.
    rewrite bool_decide_eq_false_2 by (intros [? ?]; discriminate). reflexivity.
  - rewrite Hf. rewrite bool_decide_eq_true_2 by eauto. cbn. rewrite ?Hf. cbn.
    now rewrite Hr.
  - rewrite Hf. rewrite bool_decide_eq_true_2 by eauto. cbn. rewrite ?Hf. cbn.
    rewrite Hr.
    destruct (text f) as [st| |] eqn:Ht; cbn; [|reflexivity..].
    now destruct (Hc st).
Qed.

(** What [DownloadController(profile, dest_dir)] leaves when the destination
    directory can be made: counters at zero, flags clear, [last_save] the
    clock reading, [state] what [load_state] returns. *)
Lemma init_run (E : Env) (prof : Profile) (d : string) (c0 : DownloadController) (w : World) :
  io E (steps w) = NoFault ->
  exists st,
    load_state E (mkSys c0 (with_steps (S (S (steps w))) w)) =
      (Ok st, mkSys c0 (with_steps (S (S (steps w))) w)) /\
    __init__ E prof d (mkSys c0 w) =
      (Ok tt, mkSys (mkController prof d false false 0 0 (clock E (S (steps w))) st)
                    (with_steps (S (S (steps w))) w)).
Proof.
  intros Hio.
  destruct (load_state_ok E (mkSys c0 (with_steps (S (S (steps w))) w))) as [st Hst].
  exists st. split; [exact Hst|].
  unfold __init__, mkdir, next_fault, time_time, bind at 1 2 3 4, tick, ret. cbn.
  rewrite Hio. cbn. unfold bind at 1.
  unfold with_steps in *. cbn in *. rewrite Hst. reflexivity.
Qed.

(** C9: if the checkpoint file is missing, unreadable or corrupt at load
    time, [load_state] (v2.6, v2.5 and v2) returns the empty mapping without
    raising and without touching anything; and the controller's constructor,
    once its destination directory is made, starts with the empty
    checkpoint. *)
Theorem load_state_bad_file_empty (E : Env) (prof : Profile) (d : string) (s : Sys) :
  state_file_missing E (world s) \/ state_file_unreadable E (world s) \/
  state_file_corrupt E (world s) ->
  load_state E s = (Ok ∅, s) /\
  load_state_v2 E s = (Ok ∅, s) /\
  (io E (steps (world s)) = NoFault ->
   result (__init__ E prof d) s = Ok tt /\
   state (self (after (__init__ E prof d) s)) = ∅).
Proof.
  intros Hbad. rewrite load_state_v2_eq.
  split; [now apply load_state_empty|]. split; [now apply load_state_empty|].
  intros Hio. destruct s as [c w]. cbn in *.
  destruct (init_run E prof d c w Hio) as (st & Hst & Hi).
  unfold result, after. rewrite Hi. cbn. split; [reflexivity|].
  rewrite load_state_empty in Hst by exact Hbad. congruence.
Qed.

Lemma load_state_bad_file_empty_witness :
  let s := mkSys (blank_controller profile0 "/data/dl")
                 (world_with_store true (Torn store_7_1)) in
  load_state env0 s = (Ok ∅, s) /\
  load_state_v2 env0 s = (Ok ∅, s) /\
  (io env0 (steps (world s)) = NoFault ->
   result (__init__ env0 profile0 "/data/dl") s = Ok tt /\
   state (self (after (__init__ env0 profile0 "/data/dl") s)) = ∅).
Proof.
  apply (load_state_bad_file_empty env0 profile0 "/data/dl"
           (mkSys (blank_controller profile0 "/data/dl")
                  (world_with_store true (Torn store_7_1)))).
  right; right. exists (mkTextFile true (Torn store_7_1)).
  split; [reflexivity|]. split; [reflexivity|]. intros st H. discriminate H.
Defined.

(** The three kinds of unusable file, each at explicit input. *)
Example load_state_missing_file :
  load_state env0 sys0 = (Ok ∅, sys0).
Proof. apply load_state_empty. left. reflexivity. Qed.

Example load_state_unreadable_file :
  let s := mkSys (blank_controller profile0 "/data/dl")
                 (world_with_store false (Dumped store_7_1)) in
  load_state env0 s = (Ok ∅, s).
Proof.
  apply load_state_empty. right; left.
  exists (mkTextFile false (Dumped store_7_1)). split; reflexivity.
Qed.

Example load_state_good_file :
  let s := mkSys (blank_controller profile0 "/data/dl")
                 (world_with_store true (Dumped store_7_1)) in
  load_state env0 s = (Ok store_7_1, s).
Proof. apply load_state_dumped. reflexivity. Qed.

(** ** Saving the checkpoint store *)

Lemma write_text_run (E : Env) (p : string) (t : Text) (s : Sys) :
  write_text E p t s =
    (match io E (steps (world s)) with NoFault => Ok tt | _ => Raise OSError end,
     mkSys (self s) (write_outcome E p t (world s))).
Proof.
  unfold write_text, write_outcome, next_fault, bind, tick, ret, mod_world, raise.
  cbn. destruct (io E (steps (world s))); reflexivity.
Qed.

(** v2.6 and v2.5 swallow a failed write. *)
Lemma save_state_run (E : Env) (st : Store) (s : Sys) :
  save_state E st s =
    (Ok tt, mkSys (self s) (write_outcome E (DOWNLOAD_STATE E) (Dumped st) (world s))).
Proof.
  unfold save_state, try_except, json_dumps. rewrite write_text_run.
  destruct (io E (steps (world s))); reflexivity.
Qed.

Lemma write_outcome_other (E : Env) (p q : string) (t : Text) (w : World) :
  p <> q -> docs (write_outcome E p t w) !! q = docs w !! q.
Proof.
  intros Hne. unfold write_outcome, doc_put.
  destruct (io E (steps w)); cbn; try reflexivity; now rewrite lookup_insert_ne.
Qed.

Lemma write_outcome_frame (E : Env) (p : string) (t : Text) (w : World) :
  media (write_outcome E p t w) = media w /\
  procs (write_outcome E p t w) = procs w /\
  engines (write_outcome E p t w) = engines w /\
  steps (write_outcome E p t w) = S (steps w).
Proof. unfold write_outcome. destruct (io E (steps w)); cbn; auto. Qed.

Lemma write_outcome_text (E : Env) (p : string) (t : Text) (w : World) :
  text <$> docs (write_outcome E p t w) !! p =
    match io E (steps w) with
    | NoFault => Some t
    | FailMid => Some (cut_short t)
    | FailOpen => text <$> docs w !! p
    end.
Proof.
  unfold write_outcome, doc_put.
  destruct (io E (steps w)); cbn; try reflexivity; now rewrite lookup_insert_eq.
Qed.

(** C6, as amended: every save writes the dump straight into the store file
    itself.  No other path is created, written or renamed (there is no
    temporary file); the store file afterwards holds the whole dump, or is
    untouched (the open failed), or holds a strict prefix of the dump (the
    write stopped part-way); v2.5 and v2.6 report none of this to the caller,
    v2 lets the exception through. *)
Theorem save_state_writes_in_place (E : Env) (st : Store) (s : Sys) :
  let s' := after (save_state E st) s in
  result (save_state E st) s = Ok tt /\
  self s' = self s /\
  media (world s') = media (world s) /\
  (forall p, p <> DOWNLOAD_STATE E -> docs (world s') !! p = docs (world s) !! p) /\
  text <$> docs (world s') !! DOWNLOAD_STATE E =
    match io E (steps (world s)) with
    | NoFault => Some (Dumped st)
    | FailMid => Some (Torn st)
    | FailOpen => text <$> docs (world s) !! DOWNLOAD_STATE E
    end /\
  after (save_state_v2 E st) s = s' /\
  result (save_state_v2 E st) s =
    match io E (steps (world s)) with NoFault => Ok tt | _ => Raise OSError end.
Proof.
  unfold result, after, save_state_v2, json_dumps.
  rewrite save_state_run, write_text_run. cbn.
  repeat split; try reflexivity.
  - apply write_outcome_frame.
  - intros p Hp. apply write_outcome_other. congruence.
  - apply (write_outcome_text E (DOWNLOAD_STATE E) (Dumped st)).
Qed.

(** C6 as stated fails: when the write stops part-way, the store file that
    held the checkpoint of chat 7 holds neither that checkpoint nor the whole
    new mapping (here the empty one), although [save_state] returned
    normally. *)
Lemma save_state_torn_counterexample :
  let E := with_io (fun _ => FailMid) env0 in
  let s := mkSys (blank_controller profile0 "/data/dl")
                 (world_with_store true (Dumped store_7_1)) in
  result (save_state E ∅) s = Ok tt /\
  text <$> docs (world (after (save_state E ∅) s)) !! DOWNLOAD_STATE E = Some (Torn ∅) /\
  ~ store_file_whole E ∅ (world s) (world (after (save_state E ∅) s)).
Proof.
  cbv zeta. split; [reflexivity|]. split; [vm_compute; reflexivity|].
  unfold after. rewrite save_state_run.
  intros [H | [rd H]]; vm_compute in H; discriminate H.
Qed.

(** ** The progress callback *)

Lemma _save_progress_run (E : Env) (s : Sys) :
  _save_progress E s = (Ok tt, progress_saved E s).
Proof.
  unfold _save_progress, progress_saved, time_time, bind at 1 2 3, tick, get_self, ret.
  cbn.
  destruct (Qge_bool (clock E (steps (world s)) - last_save (self s)) STATE_SAVE_INTERVAL);
    [|reflexivity].
  unfold bind. rewrite save_state_run. cbn. reflexivity.
Qed.

Lemma progress_saved_self (E : Env) (s : Sys) :
  state (self (progress_saved E s)) = state (self s) /\
  downloaded (self (progress_saved E s)) = downloaded (self s) /\
  pause_set (self (progress_saved E s)) = pause_set (self s) /\
  cancel_set (self (progress_saved E s)) = cancel_set (self s) /\
  profile (self (progress_saved E s)) = profile (self s) /\
  dest (self (progress_saved E s)) = dest (self s).
Proof.
  unfold progress_saved.
  destruct (Qge_bool _ _); cbn; auto 10.
Qed.

Lemma progress_saved_world (E : Env) (s : Sys) :
  media (world (progress_saved E s)) = media (world s) /\
  procs (world (progress_saved E s)) = procs (world s) /\
  engines (world (progress_saved E s)) = engines (world s) /\
  (forall p, p <> DOWNLOAD_STATE E ->
     docs (world (progress_saved E s)) !! p = docs (world s) !! p).
Proof.
  unfold progress_saved.
  destruct (Qge_bool _ _); cbn; [|auto].
  pose proof (write_outcome_frame E (DOWNLOAD_STATE E) (Dumped (state (self s)))
                (with_steps (S (steps (world s))) (world s))) as (Hm & Hp & He & _).
  rewrite Hm, Hp, He. cbn. repeat split.
  intros p Hp'. rewrite write_outcome_other by congruence. reflexivity.
Qed.

(** What [_save_progress] can leave in the store file: what was there, the
    mapping in memory, or no mapping at all (a write cut short). *)
Lemma progress_saved_stored (E : Env) (s : Sys) :
  stored E (world (progress_saved E s)) = stored E (world s) \/
  stored E (world (progress_saved E s)) = Some (state (self s)) \/
  stored E (world (progress_saved E s)) = None.
Proof.
  unfold progress_saved.
  destruct (Qge_bool _ _); cbn; [|now left].
  unfold stored, write_outcome, doc_put. cbn.
  destruct (io E (S (steps (world s)))); cbn.
  - right; left. now rewrite lookup_insert_eq.
  - now left.
  - right; right. now rewrite lookup_insert_eq.
Qed.

Lemma _cb_locked_run (E : Env) (chat_id msg_id assumed_size received total : Z) (s : Sys) :
  _cb_locked E chat_id msg_id assumed_size received total s =
    (Ok tt,
     progress_saved E
       (mkSys (progress_recorded chat_id msg_id assumed_size received total (self s))
              (world s))).
Proof.
  unfold _cb_locked, bind, get_self, mod_self. cbn -[_save_progress].
  rewrite _save_progress_run. reflexivity.
Qed.

(** Reading and writing one entry of a store. *)
Lemma get_done_set_entry (st : Store) (c m : string) (e : Entry) :
  get_done (set_entry st c m e) c m = done e.
Proof. unfold get_done, set_entry. now rewrite lookup_insert_eq; cbn; rewrite lookup_insert_eq. Qed.

Lemma set_entry_lookup (st : Store) (c m : string) (e : Entry) (c' m' : string) :
  (c', m') <> (c, m) ->
  default ∅ (set_entry st c m e !! c') !! m' = default ∅ (st !! c') !! m'.
Proof.
  intros Hne. unfold set_entry.
  destruct (decide (c = c')) as [->|Hc].
  - rewrite lookup_insert_eq. cbn. rewrite lookup_insert_ne by congruence. reflexivity.
  - now rewrite lookup_insert_ne.
Qed.

Lemma store_ok_set_entry (st : Store) (c m : string) (e : Entry) :
  store_ok st -> entry_ok e -> store_ok (set_entry st c m e).
Proof.
  intros Hst He c' m' inner e' Hc Hm. unfold set_entry in Hc.
  destruct (decide (c = c')) as [->|Hne].
  - rewrite lookup_insert_eq in Hc. injection Hc as <-.
    destruct (decide (m = m')) as [->|Hne'].
    + rewrite lookup_insert_eq in Hm. congruence.
    + rewrite lookup_insert_ne in Hm by assumption.
      destruct (st !! c') as [inner0|] eqn:Hi; cbn in Hm.
      * eapply Hst; eauto.
      * rewrite lookup_empty in Hm. discriminate.
  - rewrite lookup_insert_ne in Hc by assumption. eapply Hst; eauto.
Qed.

Lemma store_ok_empty : store_ok ∅.
Proof. intros c m inner e H. rewrite lookup_empty in H. discriminate. Qed.

(** *** Looking at the flags *)

Lemma only_flags_moved_refl (s : Sys) : only_flags_moved s s.
Proof. unfold only_flags_moved. auto 12. Qed.

Lemma only_flags_moved_trans (s1 s2 s3 : Sys) :
  only_flags_moved s1 s2 -> only_flags_moved s2 s3 -> only_flags_moved s1 s3.
Proof.
  unfold only_flags_moved.
  intros (A1 & A2 & A3 & A4 & A5 & A6 & A7 & A8 & A9 & A10)
         (B1 & B2 & B3 & B4 & B5 & B6 & B7 & B8 & B9 & B10).
  repeat split; congruence.
Qed.

Lemma controlled_data (l : list Control) (c : DownloadController) :
  profile (controlled l c) = profile c /\
  dest (controlled l c) = dest c /\
  downloaded (controlled l c) = downloaded c /\
  total_bytes (controlled l c) = total_bytes c /\
  last_save (controlled l c) = last_save c /\
  state (controlled l c) = state c.
Proof.
  unfold controlled. revert c. induction l as [|k l IH]; intros c; [auto 10|].
  cbn [fold_left]. destruct (IH (apply_control k c)) as (H1 & H2 & H3 & H4 & H5 & H6).
  rewrite H1, H2, H3, H4, H5, H6. destruct k; cbn; auto 10.
Qed.

(** Once set, the cancel flag stays set: no control call clears it. *)
Lemma controlled_cancel_stays (l : list Control) (c : DownloadController) :
  cancel_set c = true -> cancel_set (controlled l c) = true.
Proof.
  unfold controlled. revert c. induction l as [|k l IH]; intros c H; [exact H|].
  cbn [fold_left]. apply IH. destruct k; cbn; auto.
Qed.

Lemma poll_run (E : Env) (s : Sys) :
  poll E s = (Ok tt, mkSys (controlled (calls E (steps (world s))) (self s))
                           (with_steps (S (steps (world s))) (world s))).
Proof. reflexivity. Qed.

Lemma pause_is_set_run (E : Env) (s : Sys) :
  pause_is_set E s =
    (Ok (pause_set (controlled (calls E (steps (world s))) (self s))),
     mkSys (controlled (calls E (steps (world s))) (self s))
           (with_steps (S (steps (world s))) (world s))).
Proof. reflexivity. Qed.

Lemma cancel_is_set_run (E : Env) (s : Sys) :
  cancel_is_set E s =
    (Ok (cancel_set (controlled (calls E (steps (world s))) (self s))),
     mkSys (controlled (calls E (steps (world s))) (self s))
           (with_steps (S (steps (world s))) (world s))).
Proof. reflexivity. Qed.

Lemma poll_only_flags (E : Env) (s : Sys) :
  only_flags_moved s (mkSys (controlled (calls E (steps (world s))) (self s))
                            (with_steps (S (steps (world s))) (world s))).
Proof.
  unfold only_flags_moved. cbn.
  destruct (controlled_data (calls E (steps (world s))) (self s))
    as (H1 & H2 & H3 & H4 & H5 & H6).
  auto 12.
Qed.

(** The state after one look at a flag. *)
Lemma _wait_if_paused_S (E : Env) (k : nat) (s : Sys) :
  _wait_if_paused E (S k) s =
    let s1 := mkSys (controlled (calls E (steps (world s))) (self s))
                    (with_steps (S (steps (world s))) (world s)) in
    if pause_set (self s1)
    then
      let s2 := mkSys (controlled (calls E (steps (world s1))) (self s1))
                      (with_steps (S (steps (world s1))) (world s1)) in
      if cancel_set (self s2) then (Ok tt, s2) else _wait_if_paused E k s2
    else (Ok tt, s1).
Proof.
  cbn [_wait_if_paused]. unfold bind at 1. rewrite pause_is_set_run. cbv zeta. cbn [self world].
  destruct (pause_set _); [|reflexivity].
  unfold bind at 1. rewrite cancel_is_set_run. cbn [self world].
  destruct (cancel_set _); reflexivity.
Qed.

(** The wait while paused moves nothing but the flags, whether or not it
    returns within the fuel; and it never raises. *)
Lemma _wait_if_paused_run (E : Env) (fuel : nat) (s : Sys) :
  exists r s', _wait_if_paused E fuel s = (r, s') /\ only_flags_moved s s' /\
               (r = Ok tt \/ r = Hang).
Proof.
  revert s. induction fuel as [|k IH]; intros s.
  - exists Hang, s. split; [reflexivity|]. split; [apply only_flags_moved_refl | now right].
  - rewrite _wait_if_paused_S. cbv zeta. cbn [self world].
    pose proof (poll_only_flags E s) as H1.
    destruct (pause_set _); [|eauto 6].
    match goal with |- context [cancel_set (controlled (calls E (steps ?w1)) ?c1)] =>
      pose proof (poll_only_flags E (mkSys c1 w1)) as H2; cbn [self world] in H2;
      destruct (cancel_set (controlled (calls E (steps w1)) c1))
    end.
    + do 2 eexists. split; [reflexivity|]. split; [|now left].
      eapply only_flags_moved_trans; eauto.
    + match goal with |- context [_wait_if_paused E k ?s2] =>
        destruct (IH s2) as (r & s' & Hr & H3 & H4) end.
      exists r, s'. split; [exact Hr|]. split; [|exact H4].
      eapply only_flags_moved_trans; [|exact H3].
      eapply only_flags_moved_trans; eauto.
Qed.

(** A wait that finds the pause flag clear returns at once. *)
Lemma _wait_if_paused_not_paused (E : Env) (k : nat) (s : Sys) :
  pause_set (controlled (calls E (steps (world s))) (self s)) = false ->
  _wait_if_paused E (S k) s =
    (Ok tt, mkSys (controlled (calls E (steps (world s))) (self s))
                  (with_steps (S (steps (world s))) (world s))).
Proof.
  intros H. cbn [_wait_if_paused]. unfold bind. rewrite pause_is_set_run, H. reflexivity.
Qed.

(** *** The aggregate counter *)

Lemma _cb_run (E : Env) (fuel : nat) (chat_id msg_id assumed_size received total : Z) (s : Sys) :
  exists r s',
    _cb E fuel chat_id msg_id assumed_size received total s = (r, s') /\
    only_flags_moved
      (progress_saved E
         (mkSys (progress_recorded chat_id msg_id assumed_size received total (self s))
                (world s))) s' /\
    (r = Ok tt \/ r = Hang).
Proof.
  unfold _cb, bind. rewrite _cb_locked_run.
  apply _wait_if_paused_run.
Qed.

Lemma progress_recorded_downloaded (chat_id msg_id assumed_size received total : Z)
  (c : DownloadController) :
  downloaded (progress_recorded chat_id msg_id assumed_size received total c) =
    downloaded c + Z.max 0 (received - get_done (state c) (str chat_id) (str msg_id)).
Proof. reflexivity. Qed.

Lemma progress_recorded_done (chat_id msg_id assumed_size received total : Z)
  (c : DownloadController) :
  get_done (state (progress_recorded chat_id msg_id assumed_size received total c))
    (str chat_id) (str msg_id) = received.
Proof. unfold progress_recorded. cbn [state with_state]. apply get_done_set_entry. Qed.

Lemma _cb_locked_downloaded (E : Env) (chat_id msg_id assumed_size received total : Z)
  (s : Sys) :
  downloaded (self (after (_cb_locked E chat_id msg_id assumed_size received total) s)) =
    downloaded (self s) +
    Z.max 0 (received - get_done (state (self s)) (str chat_id) (str msg_id)).
Proof.
  unfold after. rewrite _cb_locked_run. cbn [snd].
  pose proof (progress_saved_self E
    (mkSys (progress_recorded chat_id msg_id assumed_size received total (self s))
           (world s))) as (_ & Hd & _).
  cbn [self] in Hd. now rewrite progress_recorded_downloaded in Hd.
Qed.

Lemma _cb_downloaded (E : Env) (fuel : nat) (chat_id msg_id assumed_size received total : Z)
  (s : Sys) :
  downloaded (self (after (_cb E fuel chat_id msg_id assumed_size received total) s)) =
    downloaded (self s) +
    Z.max 0 (received - get_done (state (self s)) (str chat_id) (str msg_id)).
Proof.
  rewrite <- _cb_locked_downloaded with (E := E) (total := total)
    (assumed_size := assumed_size).
  unfold after. rewrite _cb_locked_run. cbn [snd].
  destruct (_cb_run E fuel chat_id msg_id assumed_size received total s)
    as (r & s' & Hrun & Hmove & _).
  rewrite Hrun. cbn [snd].
  destruct Hmove as (_ & _ & Hd' & _). exact Hd'.
Qed.


(** X4: over a whole transfer the deltas telescope: with counts that never go
    down from the checkpointed [prev], the counter grows by the last count
    minus [prev], however many reports there were. *)
Lemma deliver_telescopes (E : Env) (chat_id msg_id assumed_size : Z)
  (reports : list (Z * Z)) (s : Sys) :
  nondecreasing_from (get_done (state (self s)) (str chat_id) (str msg_id)) reports ->
  downloaded (self (after (deliver (_cb_locked E chat_id msg_id assumed_size) reports) s)) =
    downloaded (self s) +
    (last_received (get_done (state (self s)) (str chat_id) (str msg_id)) reports -
     get_done (state (self s)) (str chat_id) (str msg_id)).
Proof.
  revert s. induction reports as [|[received total] rest IH]; intros s Hmono.
  - cbn. lia.
  - destruct Hmono as [Hle Hrest].
    unfold after in *. cbn [deliver]. unfold bind at 1. rewrite _cb_locked_run.
    set (s1 := progress_saved E
      (mkSys (progress_recorded chat_id msg_id assumed_size received total (self s))
             (world s))).
    pose proof (progress_saved_self E
      (mkSys (progress_recorded chat_id msg_id assumed_size received total (self s))
             (world s))) as (Hst & Hd & _).
    fold s1 in Hst, Hd. cbn [self] in Hst, Hd.
    assert (Hdone : get_done (state (self s1)) (str chat_id) (str msg_id) = received)
      by (rewrite Hst; apply progress_recorded_done).
    rewrite IH by (rewrite Hdone; exact Hrest).
    rewrite Hdone, Hd, progress_recorded_downloaded. cbn [last_received]. lia.
Qed.

(** *** The entry bound *)

Lemma durable_ok_progress_saved (E : Env) (s : Sys) :
  store_ok (state (self s)) -> durable_ok E (world s) ->
  durable_ok E (world (progress_saved E s)).
Proof.
  intros Hmem Hdisk st Hst.
  destruct (progress_saved_stored E s) as [H | [H | H]]; rewrite H in Hst.
  - now apply Hdisk.
  - injection Hst as <-. exact Hmem.
  - discriminate.
Qed.

(** C4, as amended: the callback stores [done = received] and
    [total = (total or assumed_size)] without clamping; when the report
    satisfies [0 <= received <= (total or assumed_size)] and the entries in
    memory and in the store file satisfied [0 <= done <= total], they still
    do after the callback and its write to the store file; a hand-off credit
    stores [done = total = size], within the bound for a size that is not
    negative. *)
Theorem _cb_keeps_entry_bound (E : Env) (chat_id msg_id assumed_size received total : Z)
  (s : Sys) :
  store_ok (state (self s)) -> durable_ok E (world s) ->
  0 <= received <= py_or total assumed_size ->
  let s' := after (_cb_locked E chat_id msg_id assumed_size received total) s in
  default ∅ (state (self s') !! str chat_id) !! str msg_id =
    Some (mkEntry received (py_or total assumed_size)) /\
  store_ok (state (self s')) /\
  durable_ok E (world s') /\
  (forall item, 0 <= default 0 (size item) ->
     store_ok (state (self (after (credit_handoff chat_id item) s)))).
Proof.
  intros Hmem Hdisk Hrange. cbv zeta. unfold after. rewrite _cb_locked_run. cbn [snd].
  set (s1 := mkSys (progress_recorded chat_id msg_id assumed_size received total (self s))
                   (world s)).
  assert (Hmem1 : store_ok (state (self s1))).
  { cbn. apply store_ok_set_entry; [exact Hmem | exact Hrange]. }
  pose proof (progress_saved_self E s1) as (Hst & _).
  rewrite Hst. split; [|split; [|split]].
  - cbn. unfold set_entry. rewrite lookup_insert_eq. cbn. now rewrite lookup_insert_eq.
  - exact Hmem1.
  - apply durable_ok_progress_saved; [exact Hmem1 | exact Hdisk].
  - intros item Hsz. cbn. apply store_ok_set_entry; [exact Hmem|].
    unfold entry_ok. cbn. lia.
Qed.

Lemma _cb_keeps_entry_bound_witness :
  let s' := after (_cb_locked env0 7 1 0 400 1000) fresh_sys in
  default ∅ (state (self s') !! str 7) !! str 1 = Some (mkEntry 400 (py_or 1000 0)) /\
  store_ok (state (self s')) /\
  durable_ok env0 (world s') /\
  (forall item, 0 <= default 0 (size item) ->
     store_ok (state (self (after (credit_handoff 7 item) fresh_sys)))).
Proof.
  apply (_cb_keeps_entry_bound env0 7 1 0 400 1000 fresh_sys).
  - apply store_ok_empty.
  - intros st H. vm_compute in H. discriminate H.
  - vm_compute. split; discriminate.
Defined.

(** C4 as stated fails: on a fresh controller, whose memory and (absent)
    store file satisfy the bound, the report [_cb(500, 0)] for an item of
    unknown size ([assumed_size = 0]) writes the entry [done = 500],
    [total = 0] into the store file. *)
Lemma _cb_unclamped_counterexample :
  store_ok (state (self fresh_sys)) /\ durable_ok env0 (world fresh_sys) /\
  stored env0 (world (after (_cb_locked env0 7 1 0 500 0) fresh_sys)) =
    Some {[ "7" := {[ "1" := mkEntry 500 0 ]} ]} /\
  ~ durable_ok env0 (world (after (_cb_locked env0 7 1 0 500 0) fresh_sys)).
Proof.
  assert (Hs : stored env0 (world (after (_cb_locked env0 7 1 0 500 0) fresh_sys)) =
               Some {[ "7" := {[ "1" := mkEntry 500 0 ]} ]}) by (vm_compute; reflexivity).
  split; [apply store_ok_empty|]. split; [intros st H; vm_compute in H; discriminate H|].
  split; [exact Hs|].
  intros H. specialize (H _ Hs "7" "1" {[ "1" := mkEntry 500 0 ]} (mkEntry 500 0)).
  assert (Hbad : entry_ok (mkEntry 500 0)) by (apply H; reflexivity).
  unfold entry_ok in Hbad. cbn in Hbad. lia.
Qed.

(** *** The checkpoint across a restart *)

(** A controller rebuilt on a disk whose store file holds a dump starts from
    the mapping dumped. *)
Lemma init_loads_checkpoint (E : Env) (prof : Profile) (d : string)
  (c0 : DownloadController) (w : World) (st : Store) :
  io E (steps w) = NoFault ->
  docs w !! DOWNLOAD_STATE E = Some (mkTextFile true (Dumped st)) ->
  state (self (after (__init__ E prof d) (mkSys c0 w))) = st.
Proof.
  intros Hio Hf. destruct (init_run E prof d c0 w Hio) as (st' & Hst & Hi).
  unfold after. rewrite Hi. cbn.
  rewrite (load_state_dumped E _ st) in Hst by exact Hf. congruence.
Qed.

(** C5, as amended: a checkpoint update sets the item's stored [done] to the
    cumulative count reported; so the stored value is at least what it was
    exactly when the report is, and the aggregate counter never goes down. *)
Theorem _cb_sets_done (E : Env) (fuel : nat)
  (chat_id msg_id assumed_size received total : Z) (s : Sys) :
  let prev := get_done (state (self s)) (str chat_id) (str msg_id) in
  let s' := after (_cb E fuel chat_id msg_id assumed_size received total) s in
  get_done (state (self s')) (str chat_id) (str msg_id) = received /\
  (prev <= get_done (state (self s')) (str chat_id) (str msg_id) <-> prev <= received) /\
  downloaded (self s) <= downloaded (self s').
Proof.
  cbv zeta.
  rewrite _cb_downloaded. unfold after.
  destruct (_cb_run E fuel chat_id msg_id assumed_size received total s)
    as (r & s' & Hrun & Hmove & _).
  rewrite Hrun. cbn [snd].
  destruct Hmove as (_ & _ & _ & _ & _ & Hst & _).
  pose proof (progress_saved_self E
    (mkSys (progress_recorded chat_id msg_id assumed_size received total (self s))
           (world s))) as (Hst' & _).
  rewrite Hst, Hst'. cbn [self]. rewrite progress_recorded_done.
  split; [reflexivity|]. split; [reflexivity|]. lia.
Qed.

(** C5 as stated fails: after a restart that loads the checkpoint of chat 7,
    message 1 at 500 bytes, the first report of the new transfer, 100 bytes,
    leaves the stored [done] at 100. *)
Lemma _cb_restart_counterexample :
  get_done (state (self restarted_sys)) "7" "1" = 500 /\
  get_done (state (self (after (_cb env0 1 7 1 1000 100 1000) restarted_sys))) "7" "1" = 100 /\
  ~ (get_done (state (self restarted_sys)) "7" "1" <=
     get_done (state (self (after (_cb env0 1 7 1 1000 100 1000) restarted_sys))) "7" "1").
Proof.
  assert (H1 : get_done (state (self restarted_sys)) "7" "1" = 500)
    by (vm_compute; reflexivity).
  assert (H2 : get_done (state (self (after (_cb env0 1 7 1 1000 100 1000) restarted_sys)))
                 "7" "1" = 100) by (vm_compute; reflexivity).
  rewrite H1, H2. repeat split. lia.
Qed.

(** ** Sequencing *)

Lemma bind_run {A B} (m : M A) (k : A -> M B) (s : Sys) (r : Res A) (s1 : Sys) :
  m s = (r, s1) ->
  bind m k s =
    match r with
    | Ok a => k a s1
    | Raise e => (Raise e, s1)
    | Hang => (Hang, s1)
    end.
Proof. intros H. unfold bind. now rewrite H. Qed.

(** ** What a call leaves alone *)

Lemma keeps_ret {X A} (f : World -> X) (a : A) : keeps f (ret a).
Proof. intros s. reflexivity. Qed.

Lemma keeps_raise {X A} (f : World -> X) (e : Exn) : keeps f (@raise A e).
Proof. intros s. reflexivity. Qed.

Lemma keeps_hang {X A} (f : World -> X) : keeps f (@hang A).
Proof. intros s. reflexivity. Qed.

Lemma keeps_bind {X A B} (f : World -> X) (m : M A) (k : A -> M B) :
  keeps f m -> (forall a, keeps f (k a)) -> keeps f (bind m k).
Proof.
  intros Hm Hk s. unfold after, bind. specialize (Hm s). unfold after in Hm.
  destruct (m s) as [[a| e |] s1]; cbn in *; [|exact Hm..].
  rewrite <- Hm. apply (Hk a s1).
Qed.

Lemma keeps_try_except {X A} (f : World -> X) (body handler : M A) :
  keeps f body -> keeps f handler -> keeps f (try_except body handler).
Proof.
  intros Hb Hh s. unfold after, try_except. specialize (Hb s). unfold after in Hb.
  destruct (body s) as [[a| e |] s1]; cbn in *; [exact Hb | | exact Hb].
  rewrite <- Hb. apply (Hh s1).
Qed.

Lemma keeps_get_self {X} (f : World -> X) : keeps f get_self.
Proof. intros s. reflexivity. Qed.

Lemma keeps_get_world {X} (f : World -> X) : keeps f get_world.
Proof. intros s. reflexivity. Qed.

Lemma keeps_mod_self {X} (f : World -> X) (g : DownloadController -> DownloadController) :
  keeps f (mod_self g).
Proof. intros s. reflexivity. Qed.

Lemma keeps_if {X A} (f : World -> X) (b : bool) (m1 m2 : M A) :
  keeps f m1 -> keeps f m2 -> keeps f (if b then m1 else m2).
Proof. destruct b; auto. Qed.

Create HintDb keeps.
#[export] Hint Resolve keeps_ret keeps_raise keeps_hang keeps_get_self keeps_get_world
  keeps_mod_self keeps_try_except keeps_if : keeps.
#[export] Hint Extern 2 (keeps _ (bind _ _)) =>
  apply keeps_bind; [|intros ?] : keeps.

Section Frame.
Context {X : Type} (f : World -> X) (E : Env).
Hypothesis f_steps : forall n w, f (with_steps n w) = f w.
Hypothesis f_docs : forall d w, f (with_docs d w) = f w.
Hypothesis f_procs : forall p w, f (with_procs p w) = f w.

Lemma keeps_tick : keeps f tick.
Proof. intros s. unfold after, tick. cbn. apply f_steps. Qed.
Hint Resolve keeps_tick : keeps.

Lemma keeps_time_time : keeps f (time_time E).
Proof. unfold time_time. auto with keeps. Qed.

Lemma keeps_next_fault : keeps f (next_fault E).
Proof. unfold next_fault. auto with keeps. Qed.

Lemma keeps_poll : keeps f (poll E).
Proof. unfold poll. auto with keeps. Qed.
Hint Resolve keeps_time_time keeps_next_fault keeps_poll : keeps.

Lemma keeps_pause_is_set : keeps f (pause_is_set E).
Proof. unfold pause_is_set. auto with keeps. Qed.

Lemma keeps_cancel_is_set : keeps f (cancel_is_set E).
Proof. unfold cancel_is_set. auto with keeps. Qed.
Hint Resolve keeps_pause_is_set keeps_cancel_is_set : keeps.

Lemma keeps_doc_put (p : string) (t : Text) : keeps f (mod_world (doc_put p t)).
Proof. intros s. unfold after, mod_world, doc_put. cbn. apply f_docs. Qed.
Hint Resolve keeps_doc_put : keeps.

Lemma keeps_write_text (p : string) (t : Text) : keeps f (write_text E p t).
Proof.
  unfold write_text. apply keeps_bind; [auto with keeps|].
  intros [| |]; auto with keeps.
Qed.
Hint Resolve keeps_write_text : keeps.

Lemma keeps_save_state (st : Store) : keeps f (save_state E st).
Proof. unfold save_state. auto with keeps. Qed.
Hint Resolve keeps_save_state : keeps.

Lemma keeps__save_progress : keeps f (_save_progress E).
Proof.
  unfold _save_progress. apply keeps_bind; [auto with keeps|]. intros now.
  apply keeps_bind; [auto with keeps|]. intros c.
  apply keeps_if; auto 6 with keeps.
Qed.
Hint Resolve keeps__save_progress : keeps.

Lemma keeps__wait_if_paused (fuel : nat) : keeps f (_wait_if_paused E fuel).
Proof.
  induction fuel as [|k IH]; cbn [_wait_if_paused]; [auto with keeps|].
  apply keeps_bind; [auto with keeps|]. intros p.
  apply keeps_if; [|auto with keeps].
  apply keeps_bind; [auto with keeps|]. intros c.
  apply keeps_if; auto with keeps.
Qed.
Hint Resolve keeps__wait_if_paused : keeps.

Lemma keeps__cb_locked (chat_id msg_id assumed_size received total : Z) :
  keeps f (_cb_locked E chat_id msg_id assumed_size received total).
Proof. unfold _cb_locked. auto 8 with keeps. Qed.
Hint Resolve keeps__cb_locked : keeps.

Lemma keeps__cb (fuel : nat) (chat_id msg_id assumed_size received total : Z) :
  keeps f (_cb E fuel chat_id msg_id assumed_size received total).
Proof. unfold _cb. auto with keeps. Qed.

Lemma keeps_deliver (cb : Z -> Z -> M unit) (reports : list (Z * Z)) :
  (forall r t, keeps f (cb r t)) -> keeps f (deliver cb reports).
Proof.
  intros Hcb. induction reports as [|[r t] rest IH]; cbn [deliver]; auto with keeps.
Qed.

Lemma keeps_simulated_loop (fuel : nat) (size done : Z) :
  keeps f (simulated_loop E fuel size done).
Proof.
  revert done. induction fuel as [|k IH]; intros done; [cbn; auto with keeps|].
  cbn [simulated_loop].
  apply keeps_if; [|auto with keeps].
  apply keeps_bind; [auto with keeps|]. intros c.
  apply keeps_if; [auto with keeps|].
  apply keeps_bind; [apply keeps__wait_if_paused|]. intros _.
  apply keeps_bind; [auto with keeps|]. intros me.
  apply keeps_bind; [auto with keeps|]. intros _.
  apply keeps_bind; [auto with keeps|]. intros _.
  apply IH.
Qed.

Lemma keeps_mkdir (d : string) : keeps f (mkdir E d).
Proof.
  unfold mkdir. apply keeps_bind; [auto with keeps|]. intros [| |]; auto with keeps.
Qed.

Lemma keeps_Popen (cmd : list string) : keeps f (Popen E cmd).
Proof.
  unfold Popen. apply keeps_bind; [auto with keeps|]. intros n.
  apply keeps_if; [|auto with keeps].
  intros s. unfold after, mod_world. cbn. apply f_procs.
Qed.

End Frame.

(** ** Which engine an item goes to *)

Lemma engines_steps (n : nat) (w : World) : engines (with_steps n w) = engines w.
Proof. reflexivity. Qed.
Lemma engines_docs (d : gmap string TextFile) (w : World) : engines (with_docs d w) = engines w.
Proof. reflexivity. Qed.
Lemma engines_procs (p : list (list string)) (w : World) : engines (with_procs p w) = engines w.
Proof. reflexivity. Qed.

Lemma keeps_engines_open_wb_truncate (E : Env) (p : string) (size : Z) :
  keeps engines (open_wb_truncate E p size).
Proof.
  unfold open_wb_truncate.
  apply keeps_bind; [apply keeps_next_fault; reflexivity|].
  intros [| |]; [|auto with keeps|].
  - apply keeps_if; [apply keeps_bind; [|auto with keeps]|]; intros s; reflexivity.
  - apply keeps_bind; [|auto with keeps]. intros s; reflexivity.
Qed.

Lemma keeps_engines__simulated (E : Env) (fuel : nat) (outpath : string) (size : Z) :
  keeps engines (_simulated E fuel outpath size).
Proof.
  unfold _simulated. apply keeps_bind; [auto with keeps|]. intros w.
  apply keeps_if; [auto with keeps|].
  apply keeps_bind; [apply keeps_simulated_loop; reflexivity|]. intros _.
  apply keeps_bind.
  - apply keeps_try_except; [apply keeps_engines_open_wb_truncate | auto with keeps].
  - intros _. apply keeps_bind; [apply keeps_cancel_is_set; reflexivity|].
    auto with keeps.
Qed.

Lemma keeps_engines_download_media (E : Env) (fuel : nat)
  (chat_id msg_id assumed_size : Z) (outpath : string) :
  keeps engines (download_media E (_cb E fuel chat_id msg_id assumed_size) outpath).
Proof.
  unfold download_media. apply keeps_bind.
  - apply keeps_deliver. intros r t. apply keeps__cb; reflexivity.
  - intros _. apply keeps_if; [|auto with keeps]. intros s; reflexivity.
Qed.

(** An engine call leaves its own mark in the log, first, and no other. *)
Lemma entered_log {A} (e : Engine) (m : M A) (s : Sys) :
  keeps engines m ->
  engines (world (after (bind (enter e) (fun _ => m)) s)) = engines (world s) ++ [e].
Proof.
  intros Hm. unfold after, bind, enter, mod_world. cbn.
  apply (Hm (mkSys (self s) (with_engines (engines (world s) ++ [e]) (world s)))).
Qed.

Lemma _telethon_download_log (E : Env) (fuel : nat) (chat_id msg_id : Z)
  (outpath : string) (assumed_size : Z) (s : Sys) :
  engines (world (after (_telethon_download E fuel chat_id msg_id outpath assumed_size) s)) =
    engines (world s) ++ [Stream].
Proof.
  unfold _telethon_download. apply entered_log.
  apply keeps_if; [apply keeps_engines__simulated|].
  apply keeps_try_except; [|auto with keeps].
  apply keeps_bind; [apply keeps_engines_download_media|].
  intros _. unfold media_exists. auto with keeps.
Qed.

Lemma _aria2_hand_off_log (E : Env) (url outdir outname : string) (s : Sys) :
  engines (world (after (_aria2_hand_off E url outdir outname) s)) =
    engines (world s) ++ [Handoff].
Proof.
  unfold _aria2_hand_off. apply entered_log.
  apply keeps_if; [auto with keeps|].
  apply keeps_bind; [apply keeps_mkdir; reflexivity|]. intros _.
  apply keeps_try_except; [|auto with keeps].
  apply keeps_bind; [apply keeps_Popen; reflexivity | auto with keeps].
Qed.

Lemma stream_item_log (E : Env) (fuel : nat) (chat_id : Z) (item : DownloadItem) (s : Sys) :
  engines (world (after (stream_item E fuel chat_id item) s)) = engines (world s) ++ [Stream].
Proof.
  unfold stream_item, after, bind, get_self. cbn [fst snd].
  apply _telethon_download_log.
Qed.

Lemma handoff_guard_true (E : Env) (item : DownloadItem) :
  handoff_guard E item = true <->
  ARIA_MIN_BYTES E <= default 0 (size item) /\ ARIA_ENABLED E = true /\
  truthy_str (direct_url item) = true.
Proof.
  unfold handoff_guard.
  destruct (Z.leb_spec (ARIA_MIN_BYTES E) (default 0 (size item)));
    destruct (ARIA_ENABLED E); cbn; intuition (try discriminate; try lia).
Qed.


(** ** Handing an item off *)

Lemma _aria2_hand_off_run (E : Env) (url outdir outname : string) (s : Sys) :
  ARIA_ENABLED E = true ->
  io E (steps (world s)) = NoFault ->
  _aria2_hand_off E url outdir outname s =
    let w2 := with_steps (S (S (steps (world s))))
                (with_engines (engines (world s) ++ [Handoff]) (world s)) in
    if spawn_ok E (S (steps (world s)))
    then (Ok true, mkSys (self s) (with_procs (procs (world s) ++ [aria2_cmd E url outdir outname]) w2))
    else (Ok false, mkSys (self s) w2).
Proof.
  intros Hen Hio.
  unfold _aria2_hand_off, enter, mkdir, Popen, next_fault, try_except, bind, tick,
    mod_world, ret, raise.
  rewrite Hen. cbn. rewrite Hio. cbn.
  destruct (spawn_ok E (S (steps (world s)))); reflexivity.
Qed.

(** Without aria2c, or with it switched off, nothing is started. *)
Lemma _aria2_hand_off_disabled (E : Env) (url outdir outname : string) (s : Sys) :
  ARIA_ENABLED E = false ->
  result (_aria2_hand_off E url outdir outname) s = Ok false /\
  procs (world (after (_aria2_hand_off E url outdir outname) s)) = procs (world s).
Proof.
  intros Hen. unfold result, after, _aria2_hand_off, enter, bind, mod_world, ret.
  rewrite Hen. cbn. auto.
Qed.

(** C2: when the item passes the hand-off test, the external directory can
    be made and [Popen] starts the process, [_aria2_hand_off] returns [True]
    with the process started and not waited for (no file has been written),
    and [_download_one] at once adds the item's whole declared size to
    [downloaded] and records the entry [done = size] (and [total = size]). *)
Theorem handoff_credits_at_spawn (E : Env) (fuel : nat) (chat_id : Z) (item : DownloadItem)
  (s : Sys) :
  handoff_guard E item = true ->
  io E (steps (world s)) = NoFault ->
  spawn_ok E (S (steps (world s))) = true ->
  let sz := default 0 (size item) in
  let url := default "" (direct_url item) in
  let outname := outname_of chat_id item in
  let h := after (_aria2_hand_off E url (EXTERNAL_PATH E) outname) s in
  let s' := after (_download_one E fuel chat_id item) s in
  (result (_aria2_hand_off E url (EXTERNAL_PATH E) outname) s = Ok true /\
   procs (world h) = procs (world s) ++ [aria2_cmd E url (EXTERNAL_PATH E) outname] /\
   media (world h) = media (world s)) /\
  (downloaded (self s') = downloaded (self s) + sz /\
   default ∅ (state (self s') !! str chat_id) !! str (msg_id item) = Some (mkEntry sz sz) /\
   get_done (state (self s')) (str chat_id) (str (msg_id item)) = sz /\
   media (world s') = media (world s)).
Proof.
  intros Hg Hio Hsp. cbv zeta.
  pose proof Hg as Hg'. apply handoff_guard_true in Hg' as (Hsz & Hen & Hurl).
  unfold result, after.
  pose proof (_aria2_hand_off_run E (default "" (direct_url item)) (EXTERNAL_PATH E)
                (outname_of chat_id item) s Hen Hio) as Hrun.
  cbv zeta in Hrun. rewrite Hsp in Hrun.
  split.
  - rewrite Hrun. cbn. auto.
  - assert (Hd : exists h0,
      _aria2_hand_off E (default "" (direct_url item)) (EXTERNAL_PATH E)
        (outname_of chat_id item) s = (Ok true, h0) /\
      media (world h0) = media (world s) /\ self h0 = self s /\
      _download_one E fuel chat_id item s =
        (Ok true,
         mkSys (with_state
                  (set_entry (state (self h0)) (str chat_id) (str (msg_id item))
                     (mkEntry (default 0 (size item)) (default 0 (size item))))
                  (with_downloaded (downloaded (self h0) + default 0 (size item)) (self h0)))
               (world h0))).
    { eexists. split; [exact Hrun|]. split; [reflexivity|]. split; [reflexivity|].
      unfold _download_one.
      apply Z.leb_le in Hsz. rewrite Hsz, Hen, Hurl. cbn [andb].
      unfold bind at 1. rewrite Hrun. reflexivity. }
    destruct Hd as (h0 & _ & Hm & Hself & Hd). rewrite Hd. cbn. rewrite Hself.
    split; [reflexivity|]. split; [|split; [|exact Hm]].
    + unfold set_entry. rewrite lookup_insert_eq. cbn. now rewrite lookup_insert_eq.
    + apply get_done_set_entry.
Qed.

Lemma handoff_credits_at_spawn_witness :
  let sz := 150 * 1024 * 1024 in
  let url := "https://cdn.example.org/v.mp4"%string in
  let outname := outname_of 7 big_item in
  let h := after (_aria2_hand_off env0 url (EXTERNAL_PATH env0) outname) fresh_sys in
  let s' := after (_download_one env0 5 7 big_item) fresh_sys in
  (result (_aria2_hand_off env0 url (EXTERNAL_PATH env0) outname) fresh_sys = Ok true /\
   procs (world h) =
     procs (world fresh_sys) ++ [aria2_cmd env0 url (EXTERNAL_PATH env0) outname] /\
   media (world h) = media (world fresh_sys)) /\
  (downloaded (self s') = downloaded (self fresh_sys) + sz /\
   default ∅ (state (self s') !! str 7) !! str (msg_id big_item) = Some (mkEntry sz sz) /\
   get_done (state (self s')) (str 7) (str (msg_id big_item)) = sz /\
   media (world s') = media (world fresh_sys)).
Proof.
  apply (handoff_credits_at_spawn env0 5 7 big_item fresh_sys); reflexivity.
Defined.

(** The name of the file the process is told to write. *)
Example outname_of_big_item : outname_of 7 big_item = "7_1_my_video.mp4"%string.
Proof. reflexivity. Qed.

(** ** The simulated stream engine and cancellation *)

Lemma media_steps (n : nat) (w : World) : media (with_steps n w) = media w.
Proof. reflexivity. Qed.
Lemma media_docs (d : gmap string TextFile) (w : World) : media (with_docs d w) = media w.
Proof. reflexivity. Qed.
Lemma media_procs (p : list (list string)) (w : World) : media (with_procs p w) = media w.
Proof. reflexivity. Qed.

(** The loop of [_simulated] raises nothing. *)
Lemma simulated_loop_no_raise (E : Env) (fuel : nat) (size done : Z) (s : Sys) :
  forall e, result (simulated_loop E fuel size done) s <> Raise e.
Proof.
  unfold result. revert done s.
  induction fuel as [|k IH]; intros done s e; [discriminate|].
  cbn [simulated_loop]. destruct (done <? size); [|discriminate].
  unfold bind at 1. rewrite cancel_is_set_run.
  destruct (cancel_set _); [discriminate|].
  unfold bind at 1.
  match goal with |- context [_wait_if_paused E (S k) ?s1] =>
    destruct (_wait_if_paused_run E (S k) s1) as (r & s2 & Hr & _ & [-> | ->]);
    rewrite Hr end; [|discriminate].
  unfold bind at 1, get_self. cbn [fst snd].
  unfold bind at 1, mod_self. cbn [fst snd].
  unfold bind at 1. rewrite _save_progress_run. apply IH.
Qed.

Lemma _simulated_body (E : Env) (fuel : nat) (outpath : string) (size : Z) (s : Sys) :
  already_complete (world s) outpath size = false ->
  _simulated E fuel outpath size s =
    bind (simulated_loop E fuel size 0)
      (fun _ => bind (try_except (open_wb_truncate E outpath size) (ret tt))
         (fun _ => bind (cancel_is_set E) (fun c => ret (negb c)))) s.
Proof.
  intros H. unfold _simulated, bind at 1, get_world. now rewrite H.
Qed.

Lemma open_wb_truncate_ok (E : Env) (p : string) (size : Z) (s : Sys) :
  io E (steps (world s)) = NoFault -> 0 <= size ->
  try_except (open_wb_truncate E p size) (ret tt) s =
    (Ok tt, mkSys (self s)
              (with_media (<[p := repeat Byte.x00 (Z.to_nat size)]> (media (world s)))
                 (with_steps (S (steps (world s))) (world s)))).
Proof.
  intros Hio Hsize.
  unfold try_except, open_wb_truncate, next_fault, bind, tick, ret, mod_world.
  cbn. rewrite Hio.
  destruct (size <? 0) eqn:Hneg; [apply Z.ltb_lt in Hneg; lia|]. reflexivity.
Qed.

(** X7: whatever stops the loop, [_simulated] then opens the destination for
    writing and sets its length to the declared size: unless the file was
    already complete or the call does not return, the destination ends as
    [size] zero bytes, cancelled or not. *)
Lemma _simulated_leaves_full_file (E : Env) (fuel : nat) (outpath : string) (size : Z)
  (s : Sys) :
  (forall n, io E n = NoFault) ->
  0 <= size ->
  already_complete (world s) outpath size = false ->
  result (_simulated E fuel outpath size) s <> Hang ->
  media (world (after (_simulated E fuel outpath size) s)) !! outpath =
    Some (repeat Byte.x00 (Z.to_nat size)).
Proof.
  intros Hio Hsize Hnot Hret.
  unfold result, after in *. rewrite _simulated_body in * by exact Hnot.
  pose proof (simulated_loop_no_raise E fuel size 0 s) as Hnr. unfold result in Hnr.
  destruct (simulated_loop E fuel size 0 s) as [[d| e |] s1] eqn:Hl;
    rewrite (bind_run _ _ _ _ _ Hl) in *; cbn [fst snd] in *.
  - rewrite (bind_run _ _ _ _ _ (open_wb_truncate_ok E outpath size s1 (Hio _) Hsize)).
    rewrite (bind_run _ _ _ _ _ (cancel_is_set_run E _)).
    cbn. apply lookup_insert_eq.
  - now destruct (Hnr e).
  - now destruct Hret.
Qed.

(** A destination that is already as long as the declared size is taken for
    a finished transfer: [_simulated] returns [True] at once. *)
Lemma _simulated_already_complete (E : Env) (fuel : nat) (outpath : string) (size : Z)
  (s : Sys) :
  already_complete (world s) outpath size = true ->
  _simulated E fuel outpath size s = (Ok true, s).
Proof.
  intros H. unfold _simulated, bind, get_world. rewrite H. now destruct s.
Qed.

(** C8, the failing input: a transfer of 600,000 bytes in chunks of 256,000
    into a destination that holds three bytes, cancelled by another thread
    after the first chunk.  [_simulated] returns [False] with 256,000 bytes
    counted, and the three bytes are gone: the destination is a file of the
    whole declared size, all zero bytes, so that the next call takes the item
    for complete and returns [True] at once. *)
Theorem _simulated_cancel_replaces_partial_file :
  let run := _simulated env_cancel 10 clip_path 600000 in
  media (world partial_sys) !! clip_path = Some [Byte.x07; Byte.x07; Byte.x07] /\
  result run partial_sys = Ok false /\
  cancel_set (self (after run partial_sys)) = true /\
  downloaded (self (after run partial_sys)) = 256000 /\
  media (world (after run partial_sys)) !! clip_path =
    Some (repeat Byte.x00 (Z.to_nat 600000)) /\
  result (_simulated env_cancel 10 clip_path 600000) (after run partial_sys) = Ok true.
Proof.
  cbv zeta.
  assert (Hloop : exists s1,
    simulated_loop env_cancel 10 600000 0 partial_sys = (Ok 256000, s1) /\
    cancel_set (self s1) = true /\ downloaded (self s1) = 256000).
  { eexists. split; [vm_compute; reflexivity|]. split; reflexivity. }
  destruct Hloop as (s1 & Hloop & Hc & Hd).
  assert (Hrun : _simulated env_cancel 10 clip_path 600000 partial_sys =
    (Ok false,
     mkSys (controlled (calls env_cancel (S (steps (world s1)))) (self s1))
       (with_steps (S (S (steps (world s1))))
          (with_media (<[clip_path := repeat Byte.x00 (Z.to_nat 600000)]> (media (world s1)))
             (world s1))))).
  { rewrite _simulated_body by reflexivity.
    rewrite (bind_run _ _ _ _ _ Hloop).
    rewrite (bind_run _ _ _ _ _
               (open_wb_truncate_ok env_cancel clip_path 600000 s1 eq_refl ltac:(lia))).
    rewrite (bind_run _ _ _ _ _ (cancel_is_set_run env_cancel _)).
    cbn [self world with_steps with_media steps media docs procs engines].
    unfold ret. rewrite controlled_cancel_stays by exact Hc. reflexivity. }
  unfold result, after. rewrite Hrun. cbn [fst snd self world].
  split; [reflexivity|]. split; [reflexivity|].
  split; [now apply controlled_cancel_stays|].
  split; [now rewrite (proj1 (proj2 (proj2 (controlled_data _ _))))|].
  split; [apply lookup_insert_eq|].
  rewrite _simulated_already_complete; [reflexivity|].
  unfold already_complete. cbn [world media with_steps with_media].
  rewrite lookup_insert_eq, repeat_length, Z2Nat.id by lia. reflexivity.
Qed.

(** ** Further properties *)

(** X1: without a measurement, on good power: chunk 256,000, one worker, fast
    mode off (v2.6 and v2.5). *)
Lemma compute_profile_unknown (r : Q) :
  compute_profile r None true = mkProfile 256000 1 false r /\
  rp_profile (compute_runtime_profile r None true) = mkProfile 256000 1 false r /\
  measured_bps (compute_runtime_profile r None true) = None.
Proof. repeat split. Qed.

(** X2: 15 MB/s on low power: the chunk of the fastest row halved, one worker. *)
Lemma compute_profile_fast_low_power (r : Q) :
  chunk_size (compute_profile r (Some 15000000%Q) false) = 500000 /\
  concurrency (compute_profile r (Some 15000000%Q) false) = 1 /\
  chunk_size (rp_profile (compute_runtime_profile r (Some 15000000%Q) false)) = 500000 /\
  concurrency (rp_profile (compute_runtime_profile r (Some 15000000%Q) false)) = 1.
Proof. repeat split. Qed.


Lemma deliver_telescopes_witness :
  downloaded (self (after (deliver (_cb_locked env0 7 1 1000)
                             [(600, 1000); (800, 1000); (1000, 1000)]) restarted_sys)) =
    downloaded (self restarted_sys) +
    (last_received (get_done (state (self restarted_sys)) (str 7) (str 1))
       [(600, 1000); (800, 1000); (1000, 1000)] -
     get_done (state (self restarted_sys)) (str 7) (str 1)).
Proof.
  apply (deliver_telescopes env0 7 1 1000 [(600, 1000); (800, 1000); (1000, 1000)]
           restarted_sys).
  vm_compute. repeat split; discriminate.
Defined.

(** Resumed at 500 of 1000 bytes, the three reports 600, 800, 1000 add 500
    bytes in all, not 2400. *)
Example deliver_resumed_adds_500 :
  downloaded (self (after (deliver (_cb_locked env0 7 1 1000)
                             [(600, 1000); (800, 1000); (1000, 1000)]) restarted_sys)) = 500.
Proof. vm_compute. reflexivity. Qed.


(** On one file of 100 bytes reported at 60 and then at 100 bytes, v2 counts
    160 and checkpoints [done = 160] of [total = 100]. *)
Example v2_cb_double_counts :
  let l := V2._cb "7" "chat" 100 (V2._cb "7" "chat" 100 v2_start 60) 100 in
  V2.downloaded l = 160 /\ V2.state l !! "7" = Some (V2.mkChatEntry "chat" 100 160).
Proof. split; reflexivity. Qed.

Lemma _simulated_leaves_full_file_witness :
  media (world (after (_simulated env_cancel 10 clip_path 5) partial_sys)) !! clip_path =
    Some (repeat Byte.x00 (Z.to_nat 5)).
Proof.
  apply (_simulated_leaves_full_file env_cancel 10 clip_path 5 partial_sys).
  - reflexivity.
  - lia.
  - reflexivity.
  - vm_compute. discriminate.
Defined.

(** A save whose write stops part-way is read back as the empty checkpoint:
    the progress of chat 7 is lost without an error. *)
Example torn_store_loads_empty :
  let E := with_io (fun _ => FailMid) env0 in
  let s := mkSys (blank_controller profile0 "/data/dl")
                 (world_with_store true (Dumped store_7_1)) in
  result (load_state E) s = Ok store_7_1 /\
  result (save_state E (set_entry store_7_1 "7" "1" (mkEntry 600 1000))) s = Ok tt /\
  result (load_state E) (after (save_state E (set_entry store_7_1 "7" "1" (mkEntry 600 1000))) s)
    = Ok ∅.
Proof. cbv zeta. vm_compute. repeat split. Qed.

(** * Properties of the rest of the scripts

    ** More of the controller *)

Lemma controlled_nil (c : DownloadController) : controlled [] c = c.
Proof. reflexivity. Qed.

(** The loop of [_simulated], whatever the other threads do: the profile is
    kept, nothing is raised, the counter moves up by what [done] moved, and
    [done] stays within the declared size. *)
Lemma simulated_loop_run (E : Env) (size : Z) (fuel : nat) (done : Z) (s : Sys) :
  0 <= chunk_size (profile (self s)) -> done <= size ->
  exists r s',
    simulated_loop E fuel size done s = (r, s') /\
    profile (self s') = profile (self s) /\
    downloaded (self s) <= downloaded (self s') <= downloaded (self s) + (size - done) /\
    (forall d, r = Ok d ->
       done <= d <= size /\ downloaded (self s') = downloaded (self s) + (d - done)) /\
    (forall e, r <> Raise e).
Proof.
  revert done s. induction fuel as [|k IH]; intros done s Hchunk Hdone.
  - exists Hang, s. repeat split; try lia; discriminate.
  - cbn [simulated_loop]. destruct (Z.ltb_spec done size) as [Hlt|Hge].
    2:{ exists (Ok done), s. split; [reflexivity|]. split; [reflexivity|].
        split; [lia|]. split; [|discriminate].
        intros d [= <-]. lia. }
    rewrite (bind_run _ _ _ _ _ (cancel_is_set_run E s)).
    pose proof (poll_only_flags E s) as (P1 & _ & D1 & _).
    set (s1 := mkSys (controlled (calls E (steps (world s))) (self s))
                     (with_steps (S (steps (world s))) (world s))) in *.
    destruct (cancel_set (controlled (calls E (steps (world s))) (self s))).
    { exists (Ok done), s1. split; [reflexivity|]. split; [exact P1|].
      split; [rewrite D1; lia|]. split; [|discriminate].
      intros d [= <-]. rewrite D1. lia. }
    destruct (_wait_if_paused_run E (S k) s1) as (r & s2 & Hw & Hmove & Hr).
    rewrite (bind_run _ _ _ _ _ Hw).
    destruct Hmove as (P2 & _ & D2 & _).
    destruct Hr as [-> | ->].
    2:{ exists Hang, s2. split; [reflexivity|]. split; [congruence|].
        split; [rewrite D2, D1; lia|]. split; discriminate. }
    unfold bind at 1, get_self. cbn [fst snd].
    unfold bind at 1, mod_self. cbn [fst snd].
    rewrite (bind_run _ _ _ _ _ (_save_progress_run E _)).
    set (step := Z.min (chunk_size (profile (self s2))) (size - done)).
    set (s3 := progress_saved E
                 (mkSys (with_downloaded (downloaded (self s2) + step) (self s2)) (world s2))).
    pose proof (progress_saved_self E
      (mkSys (with_downloaded (downloaded (self s2) + step) (self s2)) (world s2)))
      as (_ & D3 & _ & _ & P3 & _).
    fold s3 in D3, P3. cbn [self with_downloaded downloaded profile] in D3, P3.
    assert (Hstep : 0 <= step <= size - done).
    { unfold step. rewrite P2, P1. lia. }
    destruct (IH (done + step) s3) as (r & s' & Hrun & P4 & D4 & Hok & Hnr).
    { rewrite P3, P2, P1. exact Hchunk. }
    { lia. }
    exists r, s'. split; [exact Hrun|]. split; [congruence|].
    rewrite D3, D2, D1 in D4. split; [lia|]. split; [|exact Hnr].
    intros d Hd. destruct (Hok d Hd) as [Hd1 Hd2].
    rewrite D3, D2, D1 in Hd2. lia.
Qed.

(** The write at the end of [_simulated] reports nothing and leaves the
    controller alone. *)
Lemma open_wb_truncate_swallowed (E : Env) (p : string) (size : Z) (s : Sys) :
  exists s2, try_except (open_wb_truncate E p size) (ret tt) s = (Ok tt, s2) /\
             self s2 = self s.
Proof.
  unfold try_except, open_wb_truncate, next_fault, bind, tick, ret, mod_world, raise.
  cbn. destruct (io E (steps (world s))); cbn; eauto.
  destruct (size <? 0); cbn; eauto.
Qed.

(** X8: however a simulated transfer ends (finished, cancelled, or still
    waiting), [_simulated] never counts a byte twice and never more than the
    declared size: [downloaded] grows by at least 0 and at most
    [max(0, size)], and the call raises nothing. *)
Theorem _simulated_counts_within_size (E : Env) (fuel : nat) (outpath : string) (size : Z)
  (s : Sys) :
  0 <= chunk_size (profile (self s)) ->
  let s' := after (_simulated E fuel outpath size) s in
  downloaded (self s) <= downloaded (self s') <= downloaded (self s) + Z.max 0 size /\
  (forall e, result (_simulated E fuel outpath size) s <> Raise e).
Proof.
  intros Hchunk. cbv zeta. unfold after, result.
  destruct (already_complete (world s) outpath size) eqn:Hc.
  { rewrite _simulated_already_complete by exact Hc. cbn. split; [lia | discriminate]. }
  rewrite _simulated_body by exact Hc.
  destruct (Z.le_gt_cases 0 size) as [Hsize|Hsize].
  - destruct (simulated_loop_run E size fuel 0 s Hchunk Hsize)
      as (r & s1 & Hrun & _ & D1 & _ & Hnr).
    rewrite (bind_run _ _ _ _ _ Hrun).
    destruct r as [d|e|]; [|now destruct (Hnr e)|cbn; split; [lia|discriminate]].
    destruct (open_wb_truncate_swallowed E outpath size s1) as (s2 & Ht & Hs2).
    rewrite (bind_run _ _ _ _ _ Ht).
    rewrite (bind_run _ _ _ _ _ (cancel_is_set_run E s2)).
    cbn. rewrite (proj1 (proj2 (proj2 (controlled_data _ _)))), Hs2.
    split; [lia | discriminate].
  - assert (Hrun : simulated_loop E fuel size 0 s = (Hang, s) \/
                   simulated_loop E fuel size 0 s = (Ok 0, s)).
    { destruct fuel; [now left|]. right. cbn [simulated_loop].
      destruct (Z.ltb_spec 0 size); [lia | reflexivity]. }
    destruct Hrun as [Hrun | Hrun]; rewrite (bind_run _ _ _ _ _ Hrun).
    + cbn. split; [lia | discriminate].
    + destruct (open_wb_truncate_swallowed E outpath size s) as (s2 & Ht & Hs2).
      rewrite (bind_run _ _ _ _ _ Ht).
      rewrite (bind_run _ _ _ _ _ (cancel_is_set_run E s2)).
      cbn. rewrite (proj1 (proj2 (proj2 (controlled_data _ _)))), Hs2.
      split; [lia | discriminate].
Qed.

Lemma _simulated_counts_within_size_witness :
  let s' := after (_simulated env_cancel 10 clip_path 5) partial_sys in
  downloaded (self partial_sys) <= downloaded (self s') <=
    downloaded (self partial_sys) + Z.max 0 5 /\
  (forall e, result (_simulated env_cancel 10 clip_path 5) partial_sys <> Raise e).
Proof.
  apply (_simulated_counts_within_size env_cancel 10 clip_path 5 partial_sys).
  vm_compute. discriminate.
Defined.

(** With no control call and both flags clear, one chunk of the loop. *)
Lemma simulated_loop_quiet_step (E : Env) (size : Z) (k : nat) (done : Z) (s : Sys) :
  quiet E -> pause_set (self s) = false -> cancel_set (self s) = false ->
  done < size ->
  simulated_loop E (S k) size done s =
    simulated_loop E k size (done + Z.min (chunk_size (profile (self s))) (size - done))
      (progress_saved E
         (mkSys (with_downloaded
                   (downloaded (self s) + Z.min (chunk_size (profile (self s))) (size - done))
                   (self s))
                (with_steps (S (S (steps (world s)))) (world s)))).
Proof.
  intros Hq Hp Hc Hlt. cbn [simulated_loop].
  apply Z.ltb_lt in Hlt. rewrite Hlt.
  rewrite (bind_run _ _ _ _ _ (cancel_is_set_run E s)).
  rewrite Hq, controlled_nil, Hc.
  assert (Hw : _wait_if_paused E (S k)
                 (mkSys (self s) (with_steps (S (steps (world s))) (world s))) =
               (Ok tt, mkSys (self s) (with_steps (S (S (steps (world s)))) (world s)))).
  { rewrite _wait_if_paused_not_paused; cbn; rewrite Hq, controlled_nil; auto. }
  rewrite (bind_run _ _ _ _ _ Hw).
  unfold bind at 1, get_self. cbn [fst snd self].
  unfold bind at 1, mod_self. cbn [fst snd self world].
  rewrite (bind_run _ _ _ _ _ (_save_progress_run E _)).
  reflexivity.
Qed.

Lemma simulated_loop_quiet_completes (E : Env) (size : Z) (fuel : nat) (done : Z) (s : Sys) :
  quiet E -> pause_set (self s) = false -> cancel_set (self s) = false ->
  0 < chunk_size (profile (self s)) -> done <= size ->
  (Z.to_nat (size - done) < fuel)%nat ->
  exists s',
    simulated_loop E fuel size done s = (Ok size, s') /\
    downloaded (self s') = downloaded (self s) + (size - done) /\
    pause_set (self s') = false /\ cancel_set (self s') = false /\
    media (world s') = media (world s).
Proof.
  intros Hq. revert done s.
  induction fuel as [|k IH]; intros done s Hp Hc Hchunk Hdone Hfuel; [lia|].
  destruct (Z.eq_dec done size) as [->|Hne].
  - exists s. cbn [simulated_loop]. rewrite Z.ltb_irrefl.
    repeat split; auto. lia.
  - rewrite simulated_loop_quiet_step by (auto; lia).
    set (step := Z.min (chunk_size (profile (self s))) (size - done)).
    pose proof (progress_saved_self E
      (mkSys (with_downloaded (downloaded (self s) + step) (self s))
             (with_steps (S (S (steps (world s)))) (world s)))) as (_ & D & P & C & Pr & _).
    pose proof (progress_saved_world E
      (mkSys (with_downloaded (downloaded (self s) + step) (self s))
             (with_steps (S (S (steps (world s)))) (world s)))) as (Hm & _).
    cbn [self world with_downloaded with_steps downloaded pause_set cancel_set profile media]
      in D, P, C, Pr, Hm.
    assert (Hstep : 1 <= step <= size - done) by (unfold step; lia).
    destruct (IH (done + step) (progress_saved E
      (mkSys (with_downloaded (downloaded (self s) + step) (self s))
             (with_steps (S (S (steps (world s)))) (world s)))))
      as (s' & Hrun & D' & P' & C' & M').
    { now rewrite P. } { now rewrite C. } { now rewrite Pr. } { lia. } { lia. }
    exists s'. split; [exact Hrun|]. rewrite D in D'.
    split; [lia|]. split; [exact P'|]. split; [exact C'|].
    rewrite M', Hm. reflexivity.
Qed.

(** X9: a simulated transfer that nobody pauses or cancels finishes: with a
    positive chunk size, a destination that is not yet complete, no I/O fault
    and fuel for one look per byte, [_simulated] returns [True], has counted
    exactly the declared size, and leaves a file of that size. *)
Theorem _simulated_completes (E : Env) (fuel : nat) (outpath : string) (size : Z) (s : Sys) :
  quiet E -> (forall n, io E n = NoFault) ->
  pause_set (self s) = false -> cancel_set (self s) = false ->
  0 < chunk_size (profile (self s)) -> 0 <= size ->
  already_complete (world s) outpath size = false ->
  (Z.to_nat size < fuel)%nat ->
  let s' := after (_simulated E fuel outpath size) s in
  result (_simulated E fuel outpath size) s = Ok true /\
  downloaded (self s') = downloaded (self s) + size /\
  media (world s') !! outpath = Some (repeat Byte.x00 (Z.to_nat size)) /\
  already_complete (world s') outpath size = true.
Proof.
  intros Hq Hio Hp Hc Hchunk Hsize Hnot Hfuel. cbv zeta.
  unfold result, after. rewrite _simulated_body by exact Hnot.
  destruct (simulated_loop_quiet_completes E size fuel 0 s Hq Hp Hc Hchunk Hsize)
    as (s1 & Hrun & D1 & P1 & C1 & M1); [now rewrite Z.sub_0_r|].
  rewrite (bind_run _ _ _ _ _ Hrun).
  rewrite (bind_run _ _ _ _ _ (open_wb_truncate_ok E outpath size s1 (Hio _) Hsize)).
  rewrite (bind_run _ _ _ _ _ (cancel_is_set_run E _)).
  cbn [fst snd self world steps with_steps with_media media ret].
  rewrite Hq, controlled_nil. unfold ret. cbn [fst snd self world media with_steps with_media].
  rewrite C1. split; [reflexivity|]. split; [lia|].
  split; [apply lookup_insert_eq|].
  unfold already_complete. cbn [media with_steps with_media]. rewrite lookup_insert_eq.
  rewrite repeat_length, Z2Nat.id by lia. apply Z.leb_refl.
Qed.

Lemma _simulated_completes_witness :
  let s' := after (_simulated env0 10 clip_path 5) partial_sys in
  result (_simulated env0 10 clip_path 5) partial_sys = Ok true /\
  downloaded (self s') = downloaded (self partial_sys) + 5 /\
  media (world s') !! clip_path = Some (repeat Byte.x00 (Z.to_nat 5)) /\
  already_complete (world s') clip_path 5 = true.
Proof.
  apply (_simulated_completes env0 10 clip_path 5 partial_sys);
    first [reflexivity | lia | (intros n; reflexivity) | (cbn; lia)].
Defined.

(** ** Cancelling a paused worker *)

(** X10: once [cancel()] has been called the wait while paused ends at its
    first round, whatever pause and resume calls still arrive, and the flag
    stays set; a simulated transfer started then counts nothing and returns
    [False]. *)
Theorem cancel_releases_wait (E : Env) (k : nat) (outpath : string) (size : Z) (s : Sys) :
  cancel_set (self s) = true ->
  result (_wait_if_paused E (S k)) s = Ok tt /\
  cancel_set (self (after (_wait_if_paused E (S k)) s)) = true /\
  (already_complete (world s) outpath size = false ->
   result (_simulated E (S k) outpath size) s = Ok false /\
   downloaded (self (after (_simulated E (S k) outpath size) s)) = downloaded (self s)).
Proof.
  intros Hc. unfold result, after. rewrite _wait_if_paused_S. cbv zeta. cbn [self world].
  assert (C1 : cancel_set (controlled (calls E (steps (world s))) (self s)) = true)
    by now apply controlled_cancel_stays.
  split; [|split].
  - destruct (pause_set _); [|reflexivity].
    now rewrite controlled_cancel_stays.
  - destruct (pause_set _); [|exact C1].
    rewrite controlled_cancel_stays by exact C1. cbn.
    now apply controlled_cancel_stays.
  - intros Hnot. rewrite _simulated_body by exact Hnot.
    assert (Hloop : exists d, simulated_loop E (S k) size 0 s =
      (Ok d, mkSys (if 0 <? size then controlled (calls E (steps (world s))) (self s) else self s)
                   (if 0 <? size then with_steps (S (steps (world s))) (world s) else world s))).
    { cbn [simulated_loop]. destruct (0 <? size); [|now exists 0; destruct s].
      rewrite (bind_run _ _ _ _ _ (cancel_is_set_run E s)), C1. now exists 0. }
    destruct Hloop as (d & Hloop). rewrite (bind_run _ _ _ _ _ Hloop).
    set (s1 := mkSys _ _).
    assert (C2 : cancel_set (self s1) = true) by (unfold s1; cbn; now destruct (0 <? size)).
    assert (D2 : downloaded (self s1) = downloaded (self s)).
    { unfold s1; cbn. destruct (0 <? size); [|reflexivity].
      apply (controlled_data (calls E (steps (world s))) (self s)). }
    destruct (open_wb_truncate_swallowed E outpath size s1) as (s2 & Ht & Hs2).
    rewrite (bind_run _ _ _ _ _ Ht).
    rewrite (bind_run _ _ _ _ _ (cancel_is_set_run E s2)).
    cbn [fst snd self]. unfold ret. cbn [fst snd self].
    rewrite controlled_cancel_stays by (now rewrite Hs2).
    split; [reflexivity|].
    rewrite (proj1 (proj2 (proj2 (controlled_data _ _)))), Hs2. exact D2.
Qed.

Lemma cancel_releases_wait_witness :
  result (_wait_if_paused env0 1) cancelled_sys = Ok tt /\
  cancel_set (self (after (_wait_if_paused env0 1) cancelled_sys)) = true /\
  (already_complete (world cancelled_sys) clip_path 5 = false ->
   result (_simulated env0 1 clip_path 5) cancelled_sys = Ok false /\
   downloaded (self (after (_simulated env0 1 clip_path 5) cancelled_sys)) =
     downloaded (self cancelled_sys)).
Proof.
  apply (cancel_releases_wait env0 0 clip_path 5 cancelled_sys). reflexivity.
Defined.

(** ** The Telethon transfer *)

Lemma deliver__cb_result (E : Env) (fuel : nat) (chat_id msg_id assumed_size : Z)
  (reports : list (Z * Z)) (s : Sys) :
  result (deliver (_cb E fuel chat_id msg_id assumed_size) reports) s = Ok tt \/
  result (deliver (_cb E fuel chat_id msg_id assumed_size) reports) s = Hang.
Proof.
  unfold result. revert s. induction reports as [|[r t] rest IH]; intros s; [now left|].
  cbn [deliver].
  destruct (_cb_run E fuel chat_id msg_id assumed_size r t s) as (res & s' & Hrun & _ & Hres).
  rewrite (bind_run _ _ _ _ _ Hrun).
  destruct Hres as [-> | ->]; [apply IH | now right].
Qed.

(** With a Telethon client: the reports are delivered, then the file is
    left or the failure is turned into [False]. *)
Lemma _telethon_download_ready_run (E : Env) (fuel : nat) (chat_id msg_id : Z)
  (outpath : string) (assumed_size : Z) (s : Sys) :
  telethon_ready E = true ->
  _telethon_download E fuel chat_id msg_id outpath assumed_size s =
    let rs := deliver (_cb E fuel chat_id msg_id assumed_size) (feed E)
                (after (enter Stream) s) in
    match fst rs with
    | Ok _ =>
        if feed_ok E
        then (Ok true,
              mkSys (self (snd rs))
                (with_media (<[outpath := payload E]> (media (world (snd rs))))
                   (world (snd rs))))
        else (Ok false, snd rs)
    | Raise _ => (Ok false, snd rs)
    | Hang => (Hang, snd rs)
    end.
Proof.
  intros Hready. unfold _telethon_download. rewrite Hready. cbn [negb].
  unfold bind at 1, enter, mod_world, after. cbn [fst snd]. cbv zeta.
  unfold try_except, download_media, bind, media_exists, get_world, ret, raise, mod_world.
  destruct (deliver _ _ _) as [[[]|e|] s1]; cbn [fst snd]; try reflexivity.
  destruct (feed_ok E); [|reflexivity].
  cbn. rewrite lookup_insert_eq. rewrite bool_decide_eq_true_2 by eauto. reflexivity.
Qed.


(** A transfer that reports 300 and 600 bytes and then fails: [False], and
    600 bytes counted. *)
Example _telethon_download_broken_feed :
  result (_telethon_download env_broken_feed 1 7 1 clip_path 1000) fresh_sys = Ok false /\
  downloaded (self (after (_telethon_download env_broken_feed 1 7 1 clip_path 1000)
                      fresh_sys)) = 600.
Proof. vm_compute. split; reflexivity. Qed.

(** ** v2: clearing a chat's checkpoint *)

(** X12: with no write fault, [clear_state_for(chat_id)] leaves a store file
    that holds what [load_state] read without the chat's entry: the chat's
    checkpoint is gone, every other chat's is kept, and a store file that
    was absent or unreadable becomes an empty store.  No other file is
    touched. *)
Theorem clear_state_for_removes (E : Env) (chat_id : Z) (s : Sys) :
  io E (steps (world s)) = NoFault ->
  let loaded := match result (load_state_v2 E) s with Ok st => st | _ => ∅ end in
  let s' := after (clear_state_for E chat_id) s in
  result (clear_state_for E chat_id) s = Ok tt /\
  stored E (world s') = Some (delete (str chat_id) loaded) /\
  (forall st', stored E (world s') = Some st' ->
     st' !! str chat_id = None /\
     forall k, k <> str chat_id -> st' !! k = loaded !! k) /\
  (forall p, p <> DOWNLOAD_STATE E -> docs (world s') !! p = docs (world s) !! p).
Proof.
  intros Hio. cbv zeta. unfold result, after, clear_state_for.
  destruct (load_state_ok E s) as (st & Hst). rewrite <- load_state_v2_eq in Hst.
  rewrite (bind_run _ _ _ _ _ Hst), Hst.
  cbn [fst snd]. unfold save_state_v2, json_dumps. rewrite write_text_run, Hio.
  cbn [fst snd world].
  assert (Hs : stored E (write_outcome E (DOWNLOAD_STATE E) (Dumped (delete (str chat_id) st))
                           (world s)) = Some (delete (str chat_id) st)).
  { unfold stored, write_outcome, doc_put. rewrite Hio. cbn.
    now rewrite lookup_insert_eq. }
  split; [reflexivity|]. split; [exact Hs|]. split.
  - intros st' H. rewrite Hs in H. injection H as <-.
    split; [apply lookup_delete_eq|]. intros k Hk. now apply lookup_delete_ne.
  - intros p Hp. apply write_outcome_other. congruence.
Qed.

Lemma clear_state_for_removes_witness :
  let s := mkSys (blank_controller profile0 "/data/dl")
                 (world_with_store true (Dumped store_7_1)) in
  let loaded := match result (load_state_v2 env0) s with Ok st => st | _ => ∅ end in
  let s' := after (clear_state_for env0 7) s in
  result (clear_state_for env0 7) s = Ok tt /\
  stored env0 (world s') = Some (delete (str 7) loaded) /\
  (forall st', stored env0 (world s') = Some st' ->
     st' !! str 7 = None /\
     forall k, k <> str 7 -> st' !! k = loaded !! k) /\
  (forall p, p <> DOWNLOAD_STATE env0 -> docs (world s') !! p = docs (world s) !! p).
Proof.
  apply (clear_state_for_removes env0 7
           (mkSys (blank_controller profile0 "/data/dl")
                  (world_with_store true (Dumped store_7_1)))).
  reflexivity.
Defined.

(** ** The save interval *)

Lemma progress_saved_not_due (E : Env) (s : Sys) :
  (clock E (steps (world s)) - last_save (self s) < STATE_SAVE_INTERVAL)%Q ->
  progress_saved E s = mkSys (self s) (with_steps (S (steps (world s))) (world s)).
Proof.
  intros Hlt. unfold progress_saved. cbv zeta.
  now rewrite (Qge_bool_false _ _ Hlt).
Qed.

Lemma load_state_docs (E : Env) (s s' : Sys) :
  docs (world s') = docs (world s) ->
  result (load_state E) s' = result (load_state E) s.
Proof.
  intros Hd.
  unfold result, load_state, bind, doc_exists, get_world, ret, try_except, read_text, raise.
  destruct s as [c w], s' as [c' w']; cbn in *. rewrite Hd.
  destruct (docs w !! DOWNLOAD_STATE E) as [[rd t]|] eqn:Hf.
  - rewrite bool_decide_eq_true_2 by eauto. cbn. rewrite Hd, Hf. cbn.
    destruct rd; cbn; [|reflexivity]. destruct t; reflexivity.
  - rewrite bool_decide_eq_false_2 by (intros [? ?]; discriminate). reflexivity.
Qed.

(** X13: a report that reaches [_cb] less than [STATE_SAVE_INTERVAL] seconds
    after the last save is recorded in memory only: the entry of the message
    is set in [self.state], no file is touched, and [load_state] afterwards
    returns what it returned before the report, so a restart in this window
    does not see the report. *)
Theorem _cb_within_interval_in_memory_only (E : Env)
  (chat_id msg_id assumed_size received total : Z) (s : Sys) :
  (clock E (steps (world s)) - last_save (self s) < STATE_SAVE_INTERVAL)%Q ->
  let s' := after (_cb_locked E chat_id msg_id assumed_size received total) s in
  get_done (state (self s')) (str chat_id) (str msg_id) = received /\
  docs (world s') = docs (world s) /\
  last_save (self s') = last_save (self s) /\
  result (load_state E) s' = result (load_state E) s.
Proof.
  intros Hlt. cbv zeta. unfold after. rewrite _cb_locked_run. cbn [snd].
  rewrite progress_saved_not_due by exact Hlt. cbn [self world].
  assert (Hd : docs (with_steps (S (steps (world s))) (world s)) = docs (world s))
    by reflexivity.
  repeat split.
  - unfold progress_recorded. cbn. apply get_done_set_entry.
  - now apply load_state_docs.
Qed.

Lemma _cb_within_interval_in_memory_only_witness :
  (clock env0 (steps (world sys0)) - last_save (self sys0) < STATE_SAVE_INTERVAL)%Q /\
  let s' := after (_cb_locked env0 7 1 0 500 1000) sys0 in
  get_done (state (self s')) (str 7) (str 1) = 500 /\
  docs (world s') = docs (world sys0) /\
  last_save (self s') = last_save (self sys0) /\
  result (load_state env0) s' = result (load_state env0) sys0.
Proof.
  split; [reflexivity|].
  apply (_cb_within_interval_in_memory_only env0 7 1 0 500 1000 sys0).
  reflexivity.
Defined.

(** X14: when the interval has passed and the device refuses the write,
    [_save_progress] returns normally with every file as it was, and still
    sets [last_save] to the clock reading taken after the attempt; a second
    call before another interval has passed does not try again, so the
    mapping stays in memory only. *)
Theorem _save_progress_refused_write_not_retried (E : Env) (s : Sys) :
  let n := steps (world s) in
  (STATE_SAVE_INTERVAL <= clock E n - last_save (self s))%Q ->
  io E (S n) = FailOpen ->
  let s1 := after (_save_progress E) s in
  result (_save_progress E) s = Ok tt /\
  docs (world s1) = docs (world s) /\
  state (self s1) = state (self s) /\
  last_save (self s1) = clock E (S (S n)) /\
  ((clock E (S (S (S n))) - clock E (S (S n)) < STATE_SAVE_INTERVAL)%Q ->
   result (_save_progress E) s1 = Ok tt /\
   docs (world (after (_save_progress E) s1)) = docs (world s) /\
   last_save (self (after (_save_progress E) s1)) = clock E (S (S n))).
Proof.
  cbv zeta. intros Hdue Hio. unfold result, after.
  rewrite !_save_progress_run. cbn [fst snd].
  assert (H1 : progress_saved E s =
               mkSys (with_last_save (clock E (S (S (steps (world s))))) (self s))
                     (with_steps (S (S (S (steps (world s))))) (world s))).
  { unfold progress_saved. cbv zeta. rewrite (Qge_bool_true _ _ Hdue).
    unfold write_outcome. cbn [steps with_steps]. rewrite Hio. reflexivity. }
  rewrite H1. cbn [self world].
  do 4 (split; [reflexivity|]).
  intros Hlt. rewrite progress_saved_not_due by exact Hlt. cbn. repeat split.
Qed.

Lemma _save_progress_refused_write_not_retried_witness :
  let n := steps (world unsaved_sys) in
  (STATE_SAVE_INTERVAL <= clock env_readonly n - last_save (self unsaved_sys))%Q /\
  let s1 := after (_save_progress env_readonly) unsaved_sys in
  result (_save_progress env_readonly) unsaved_sys = Ok tt /\
  docs (world s1) = docs (world unsaved_sys) /\
  state (self s1) = state (self unsaved_sys) /\
  last_save (self s1) = clock env_readonly (S (S n)) /\
  ((clock env_readonly (S (S (S n))) - clock env_readonly (S (S n)) < STATE_SAVE_INTERVAL)%Q ->
   result (_save_progress env_readonly) s1 = Ok tt /\
   docs (world (after (_save_progress env_readonly) s1)) = docs (world unsaved_sys) /\
   last_save (self (after (_save_progress env_readonly) s1)) = clock env_readonly (S (S n))).
Proof.
  split; [vm_compute; discriminate|].
  apply (_save_progress_refused_write_not_retried env_readonly unsaved_sys).
  - vm_compute; discriminate.
  - reflexivity.
Defined.

(** ** v2: the paginated chooser *)

Lemma range_from_lookup (fuel : nat) (step stop : Z) :
  forall (i : Z) (k : nat) (x : Z),
    range_from fuel i stop step !! k = Some x ->
    x = i + Z.of_nat k * step /\ x < stop.
Proof.
  induction fuel as [|fuel IH]; intros i k x; cbn [range_from].
  - intros H. now rewrite lookup_nil in H.
  - destruct (i <? stop) eqn:Hlt; [|intros H; now rewrite lookup_nil in H].
    apply Z.ltb_lt in Hlt.
    destruct k as [|k]; cbn.
    + intros [= <-]. lia.
    + intros H. apply IH in H. lia.
Qed.

Lemma range_from_length (fuel : nat) (step stop : Z) :
  0 < step ->
  forall i : Z,
    (Z.to_nat (stop - i) <= fuel)%nat ->
    length (range_from fuel i stop step) = Z.to_nat ((stop - i + step - 1) / step).
Proof.
  intros Hstep.
  induction fuel as [|fuel IH]; intros i Hfuel; cbn [range_from].
  - assert (stop - i <= 0) by lia.
    assert ((stop - i + step - 1) / step <= 0); [|cbn; lia].
    assert ((stop - i + step - 1) / step < 1); [|lia].
    apply Z.div_lt_upper_bound; lia.
  - destruct (i <? stop) eqn:Hlt.
    + apply Z.ltb_lt in Hlt. cbn [length]. rewrite IH by lia.
      replace (stop - i + step - 1) with ((stop - (i + step) + step - 1) + 1 * step) by lia.
      rewrite Z.div_add by lia.
      assert (0 <= (stop - (i + step) + step - 1) / step) by (apply Z.div_pos; lia).
      lia.
    + apply Z.ltb_ge in Hlt. cbn [length].
      assert ((stop - i + step - 1) / step < 1); [apply Z.div_lt_upper_bound; lia|lia].
Qed.

Lemma slice_take_drop {A} (items : list A) (i step : Z) :
  slice items i (i + step) = take (Z.to_nat step) (drop (Z.to_nat i) items).
Proof. unfold slice. now replace (i + step - i) with step by lia. Qed.

Lemma concat_slices {A} (items : list A) (step : Z) :
  0 < step ->
  forall (fuel : nat) (i : Z),
    0 <= i ->
    (Z.to_nat (Z.of_nat (length items) - i) <= fuel)%nat ->
    concat (map (fun i => slice items i (i + step))
              (range_from fuel i (Z.of_nat (length items)) step)) =
    drop (Z.to_nat i) items.
Proof.
  intros Hstep. induction fuel as [|fuel IH]; intros i Hi Hfuel; cbn [range_from].
  - cbn. symmetry. apply drop_ge. lia.
  - destruct (i <? Z.of_nat (length items)) eqn:Hlt.
    + cbn [map concat]. rewrite IH by lia.
      rewrite slice_take_drop.
      replace (Z.to_nat (i + step)) with (Z.to_nat i + Z.to_nat step)%nat by lia.
      rewrite <- drop_drop. apply take_drop.
    + apply Z.ltb_ge in Hlt. cbn. symmetry. apply drop_ge. lia.
Qed.

(** The pages of [paginate] for a positive page size. *)
Lemma paginate_pages {A} (items : list A) (page_size : Z) :
  0 < page_size ->
  exists pages,
    paginate items page_size = inr pages /\
    concat (map page_items pages) = items /\
    Z.of_nat (length pages) = (Z.of_nat (length items) + page_size - 1) / page_size /\
    forall (k : nat) (p : Page A),
      pages !! k = Some p ->
      page_num p = Z.of_nat k + 1 /\
      total_pages p = Z.of_nat (length pages) /\
      page_items p = take (Z.to_nat page_size) (drop (k * Z.to_nat page_size) items) /\
      (0 < length (page_items p) <= Z.to_nat page_size)%nat.
Proof.
  intros Hps. unfold paginate. cbv zeta.
  destruct (page_size =? 0) eqn:H0; [apply Z.eqb_eq in H0; lia|].
  destruct (page_size <? 0) eqn:H1; [apply Z.ltb_lt in H1; lia|].
  eexists. split; [reflexivity|].
  assert (Hlen : Z.of_nat (length (range_from (length items) 0
                    (Z.of_nat (length items)) page_size)) =
                 (Z.of_nat (length items) + page_size - 1) / page_size).
  { rewrite range_from_length by lia.
    rewrite Z.sub_0_r. rewrite Z2Nat.id; [reflexivity|].
    apply Z.div_pos; lia. }
  split; [|split].
  - rewrite map_map. cbn [page_items].
    rewrite concat_slices by lia. reflexivity.
  - now rewrite length_map.
  - intros k p Hp. rewrite list_lookup_fmap in Hp.
    destruct (range_from _ _ _ _ !! k) as [i|] eqn:Hi; [|discriminate].
    injection Hp as <-. cbn [page_num total_pages page_items].
    apply range_from_lookup in Hi. destruct Hi as [-> Hlt]. rewrite Z.add_0_l in *.
    rewrite length_map, Hlen, slice_take_drop.
    replace (Z.to_nat (Z.of_nat k * page_size)) with (k * Z.to_nat page_size)%nat by nia.
    rewrite Z.div_mul by lia.
    repeat split.
    + rewrite length_take, length_drop. nia.
    + rewrite length_take. lia.
Qed.

(** X15: for a positive page size, [paginate] cuts the list into
    consecutive pages and loses nothing: the pages joined give the list
    back, page [k] (from 0) is numbered [k + 1] and holds the [page_size]
    items from position [k * page_size] (fewer on the last page, never
    none), and the page count each page carries is the number of pages,
    [ceil(len(items) / page_size)]. *)
Theorem paginate_covers {A} (items : list A) (page_size : Z) :
  0 < page_size ->
  exists pages,
    paginate items page_size = inr pages /\
    concat (map page_items pages) = items /\
    Z.of_nat (length pages) = (Z.of_nat (length items) + page_size - 1) / page_size /\
    forall (k : nat) (p : Page A),
      pages !! k = Some p ->
      page_num p = Z.of_nat k + 1 /\
      total_pages p = Z.of_nat (length pages) /\
      page_items p = take (Z.to_nat page_size) (drop (k * Z.to_nat page_size) items) /\
      (0 < length (page_items p) <= Z.to_nat page_size)%nat.
Proof. exact (paginate_pages items page_size). Qed.

Lemma paginate_covers_witness :
  exists pages,
    paginate [1; 2; 3; 4; 5] 2 = inr pages /\
    concat (map page_items pages) = [1; 2; 3; 4; 5] /\
    Z.of_nat (length pages) = (Z.of_nat (length [1; 2; 3; 4; 5]) + 2 - 1) / 2 /\
    forall (k : nat) (p : Page Z),
      pages !! k = Some p ->
      page_num p = Z.of_nat k + 1 /\
      total_pages p = Z.of_nat (length pages) /\
      page_items p = take (Z.to_nat 2) (drop (k * Z.to_nat 2) [1; 2; 3; 4; 5]) /\
      (0 < length (page_items p) <= Z.to_nat 2)%nat.
Proof. apply (paginate_covers [1; 2; 3; 4; 5] 2). lia. Defined.

Lemma enumerate_lookup {A} (l : list A) :
  forall (start idx : Z) (item : A),
    (idx, item) ∈ enumerate l start ->
    exists j : nat, idx = start + Z.of_nat j /\ l !! j = Some item.
Proof.
  induction l as [|a l IH]; intros start idx item; cbn [enumerate].
  - intros H. now apply elem_of_nil in H.
  - intros H. apply elem_of_cons in H. destruct H as [[= -> ->] | H].
    + exists 0%nat. split; [lia|reflexivity].
    + apply IH in H. destruct H as (j & -> & Hj).
      exists (S j). split; [lia|exact Hj].
Qed.

Lemma py_index_nonneg {A} (l : list A) (i : nat) :
  py_index l (Z.of_nat i) = l !! i.
Proof.
  unfold py_index. destruct (Z.of_nat i <? 0) eqn:H; [apply Z.ltb_lt in H; lia|].
  now rewrite Nat2Z.id.
Qed.

(** What the loop of [choose_from_list] shows and returns, from any page
    that exists. *)
Lemma choose_loop_sound {A} (items : list A) (pages : list (Page A)) :
  (forall (k : nat) (p : Page A),
     pages !! k = Some p ->
     page_items p = take 100 (drop (k * 100) items)) ->
  forall (inputs : list Cmd) (page_index : nat),
    (page_index < length pages)%nat ->
    chooser_sound items (choose_loop items pages (Z.of_nat page_index) inputs).
Proof.
  intros Hpages.
  assert (Hshown : forall (k : nat) (p : Page A) idx item,
            pages !! k = Some p ->
            (idx, item) ∈ enumerate (page_items p) (1 + Z.of_nat k * 100) ->
            1 <= idx <= Z.of_nat (length items) /\
            py_index items (idx - 1) = Some item).
  { intros k p idx item Hp Hin. apply enumerate_lookup in Hin.
    destruct Hin as (j & -> & Hj). rewrite (Hpages k p Hp) in Hj.
    apply lookup_take_Some in Hj. destruct Hj as [Hj _].
    rewrite lookup_drop in Hj. pose proof (lookup_lt_Some _ _ _ Hj) as Hlt.
    split; [lia|].
    replace (1 + Z.of_nat k * 100 + Z.of_nat j - 1) with (Z.of_nat (k * 100 + j)) by lia.
    now rewrite py_index_nonneg. }
  assert (Hone : forall (k : nat) (pg : Page A) (r : Choice A),
            pages !! k = Some pg ->
            r <> IndexError -> (forall e, r <> Raised e) ->
            (forall a, r = Chosen a -> a ∈ items) ->
            chooser_sound items (r, [enumerate (page_items pg) (1 + Z.of_nat k * 100)])).
  { intros k pg r Hpg H1 H2 H3. unfold chooser_sound. cbn [fst snd].
    split; [exact H1|]. split; [exact H2|]. split; [exact H3|].
    intros screen idx item Hs Hin. apply list_elem_of_singleton in Hs. subst screen.
    now apply (Hshown k pg). }
  induction inputs as [|cmd rest IH]; intros page_index Hlt;
    cbn [choose_loop]; rewrite py_index_nonneg;
    destruct (pages !! page_index) as [pg|] eqn:Hpg;
    try (apply lookup_ge_None in Hpg; lia).
  - apply (Hone page_index pg); [exact Hpg|discriminate..].
  - assert (Hcont : forall i : nat, (i < length pages)%nat ->
              chooser_sound items
                (let (r, screens) := choose_loop items pages (Z.of_nat i) rest in
                 (r, enumerate (page_items pg) (1 + Z.of_nat page_index * 100) :: screens))).
    { intros i Hi. specialize (IH i Hi). unfold chooser_sound in *.
      destruct (choose_loop items pages (Z.of_nat i) rest) as [r screens].
      cbn [fst snd] in *. destruct IH as (H1 & H2 & H3 & H4).
      split; [exact H1|]. split; [exact H2|]. split; [exact H3|].
      intros screen idx item Hs Hin. apply elem_of_cons in Hs. destruct Hs as [-> | Hs].
      - now apply (Hshown page_index pg).
      - now apply (H4 screen). }
    destruct cmd as [| | |num|].
    + destruct (Z.of_nat page_index + 1 <? Z.of_nat (length pages)) eqn:Hn.
      * apply Z.ltb_lt in Hn.
        replace (Z.of_nat page_index + 1) with (Z.of_nat (S page_index)) by lia.
        apply Hcont. lia.
      * now apply Hcont.
    + destruct (0 <? Z.of_nat page_index) eqn:Hp.
      * apply Z.ltb_lt in Hp.
        replace (Z.of_nat page_index - 1) with (Z.of_nat (page_index - 1)) by lia.
        apply Hcont. lia.
      * now apply Hcont.
    + apply (Hone page_index pg); [exact Hpg|discriminate..].
    + destruct ((1 <=? num) && (num <=? Z.of_nat (length items))) eqn:Hr.
      * apply andb_true_iff in Hr. destruct Hr as [Hr1 Hr2].
        apply Z.leb_le in Hr1, Hr2.
        replace (num - 1) with (Z.of_nat (Z.to_nat (num - 1))) by lia.
        rewrite py_index_nonneg.
        destruct (items !! Z.to_nat (num - 1)) as [a|] eqn:Ha;
          [|apply lookup_ge_None in Ha; lia].
        apply (Hone page_index pg); [exact Hpg|discriminate..|].
        intros a' [= <-]. apply list_elem_of_lookup. eauto.
      * now apply Hcont.
    + now apply Hcont.
Qed.


(** Five items fit one page; typing [n], then [9], then [2] selects the
    second item. *)
Example choose_from_list_second :
  fst (choose_from_list ["a"; "b"; "c"; "d"; "e"]%string [CmdNext; CmdNumber 9; CmdNumber 2])
  = Chosen "b"%string.
Proof. reflexivity. Qed.

(** ** The download history *)

Lemma last_n_app_last (n : nat) (h : list History.Item) (x : History.Item) :
  (0 < n)%nat ->
  last (History.last_n n (h ++ [x])) = Some x /\
  (length (History.last_n n (h ++ [x])) <= n)%nat /\
  History.last_n n (h ++ [x]) `suffix_of` (h ++ [x]) /\
  ((length h < n)%nat -> History.last_n n (h ++ [x]) = h ++ [x]).
Proof.
  intros Hn. unfold History.last_n. rewrite length_app. cbn [length].
  repeat split.
  - destruct (decide (length h + 1 - n <= length h)%nat) as [Hle|Hgt]; [|lia].
    rewrite drop_app_le by exact Hle. apply last_snoc.
  - rewrite length_drop, length_app. cbn [length]. lia.
  - apply suffix_drop.
  - intros Hlt. now replace (length h + 1 - n)%nat with 0%nat by lia.
Qed.

Lemma history_before_loaded (d : History.Disk) (h : list History.Item) :
  history_before d h ->
  match d with
  | Some f => History.read_loads f
  | None => inr (Some [])
  end = inr (Some h) /\
  default true (History.readable <$> d) = true.
Proof.
  intros [[-> ->] | H]; [split; reflexivity|].
  destruct d as [[[] []]|]; cbn in H; try discriminate.
  injection H as ->. split; reflexivity.
Qed.


Lemma append_history_unloadable (c : History.Call) (d : History.Disk) :
  history_unloadable d ->
  snd (History.append_history (History.now c) (History.fault c) (History.chat_name c)
         (History.total c) (History.duration_arg c) d) = d.
Proof.
  intros [[f ->] Hl]. unfold History.append_history, History.read_loads. cbv zeta.
  destruct f as [[] []]; cbn in *; try reflexivity. discriminate.
Qed.

(** X18: once the history file exists but does not hold a readable list
    (unreadable, cut short by an earlier write, not JSON, or JSON that is
    not a list), v2.6's [append_history] never writes it again: after any
    number of recorded downloads the file is what it was, and no download
    is recorded.  v2.5 and v2 differ: a file that is unreadable or not JSON
    is replaced by a list holding the new item alone, and JSON that is not a
    list makes them raise [AttributeError]. *)
Theorem append_history_unloadable_stays (calls : list History.Call) (d : History.Disk) :
  history_unloadable d ->
  History.run History.append_history calls d = d /\
  (forall now chat_name total duration,
     let item := History.mkItem chat_name total now (History.seconds duration) in
     (forall rd, d <> Some (History.mkHFile rd History.NotAList)) ->
     History.listed (snd (History.append_history_v25 now NoFault chat_name total duration d))
       = (if default true (History.readable <$> d) then Some [item] else None) /\
     fst (History.append_history_v2 now NoFault chat_name total duration d) = None /\
     snd (History.append_history_v2 now NoFault chat_name total duration d)
       = snd (History.append_history_v25 now NoFault chat_name total duration d)) /\
  (forall now fault chat_name total duration rd,
     d = Some (History.mkHFile rd History.NotAList) -> rd = true ->
     History.append_history_v25 now fault chat_name total duration d
       = (Some History.AttributeError, d) /\
     History.append_history_v2 now fault chat_name total duration d
       = (Some History.AttributeError, d)).
Proof.
  intros Hu. split; [|split].
  - unfold History.run. induction calls as [|c calls IH]; [reflexivity|].
    cbn [fold_left]. now rewrite append_history_unloadable.
  - intros now chat_name total duration item Hnl.
    destruct Hu as [[f ->] Hl].
    unfold History.append_history_v25, History.append_history_v2, History.read_loads.
    cbv zeta.
    destruct f as [[] []]; cbn in *; try discriminate; auto;
      try (now destruct (Hnl true)); try (now destruct (Hnl false)).
  - intros now fault chat_name total duration rd -> ->. split; reflexivity.
Qed.

Lemma append_history_unloadable_stays_witness :
  history_unloadable history_junk /\
  History.run History.append_history two_calls history_junk = history_junk.
Proof.
  split; [split; [eexists; reflexivity|reflexivity]|].
  apply (append_history_unloadable_stays two_calls history_junk).
  split; [eexists; reflexivity|reflexivity].
Defined.

(** The same two downloads after a history file that is not JSON: v2.6
    records neither, v2.5 and v2 record both. *)
Example append_history_after_junk :
  History.listed (History.run History.append_history two_calls history_junk) = None /\
  (length <$> History.listed (History.run History.append_history_v25 two_calls history_junk))
    = Some 2%nat /\
  (length <$> History.listed (History.run History.append_history_v2 two_calls history_junk))
    = Some 2%nat.
Proof. repeat split. Qed.

(** ** The speed probe *)

Lemma count_chunks_bounded (chunks : list Z) :
  Forall (fun n => 0 <= n <= 4096) chunks ->
  forall total : Z,
    0 <= total < 40000 ->
    0 <= fst (count_chunks chunks total) < 40000 + 4096 /\
    (snd (count_chunks chunks total) = true -> 40000 <= fst (count_chunks chunks total)).
Proof.
  induction 1 as [|n rest Hn Hrest IH]; intros total Ht; cbn [count_chunks].
  - cbn. split; [lia|discriminate].
  - destruct (40000 <=? total + n) eqn:Hge.
    + apply Z.leb_le in Hge. cbn. split; [lia|intros _; lia].
    + apply Z.leb_gt in Hge. apply IH. lia.
Qed.



(** 5430 bytes in a quarter second: 21720 bytes per second. *)
Example measure_speed_sample_favicon :
  exists bps, measure_speed_sample probe_favicon = Some bps /\ (bps == 21720)%Q.
Proof. eexists. split; [reflexivity|reflexivity]. Qed.

(** ** v2: backup and restore *)

Lemma string_app_assoc (a b c : string) : (a +:+ b) +:+ c = a +:+ (b +:+ c).
Proof.
  induction a as [|x a IH]; [reflexivity|].
  change (String x ((a +:+ b) +:+ c) = String x (a +:+ (b +:+ c))). now rewrite IH.
Qed.

Lemma string_app_nil_r (a : string) : a +:+ "" = a.
Proof.
  induction a as [|x a IH]; [reflexivity|].
  change (String x (a +:+ "") = String x a). now rewrite IH.
Qed.

Lemma bk_dir_ne_MANAGER_DATA (MD ts : string) : Backup.bk_dir MD ts <> MD.
Proof.
  unfold Backup.bk_dir, Backup.BACKUPS_DIR. rewrite string_app_assoc.
  intros H. rewrite <- (string_app_nil_r MD) in H at 2.
  apply String.app_inj in H. discriminate H.
Qed.

Lemma bk_dir_ne_SEC_DIR (MD ts : string) : Backup.bk_dir MD ts <> Backup.SEC_DIR MD.
Proof.
  unfold Backup.bk_dir, Backup.BACKUPS_DIR, Backup.SEC_DIR. rewrite string_app_assoc.
  intros H. apply String.app_inj in H. discriminate H.
Qed.

(** One turn of the loop of [make_backup] that does not raise. *)
Lemma backup_loop_step (faults : nat -> Backup.CopyFault) (i : nat) (dir k : string)
  (p : Backup.Path) (rest : list (string * Backup.Path)) (fs fs1 : Backup.Files) :
  Backup.backup_loop faults i dir ((k, p) :: rest) fs = (false, fs1) ->
  exists (fs_mid : Backup.Files) (i' : nat),
    Backup.backup_loop faults i' dir rest fs_mid = (false, fs1) /\
    fs_mid !! (dir, k +:+ ".json") =
      match fs !! p with
      | Some c => Some c
      | None => fs !! (dir, k +:+ ".json")
      end /\
    forall q, q <> (dir, k +:+ ".json") -> fs_mid !! q = fs !! q.
Proof.
  cbn [Backup.backup_loop]. unfold Backup.copy.
  destruct (fs !! p) as [c|] eqn:Hp.
  - rewrite bool_decide_eq_true_2 by eauto.
    destruct (faults i); try discriminate.
    intros H. exists (<[(dir, k +:+ ".json") := c]> fs), (S i).
    split; [exact H|]. split; [apply lookup_insert_eq|].
    intros q Hq. now apply lookup_insert_ne.
  - rewrite bool_decide_eq_false_2 by (intros [? ?]; discriminate).
    intros H. exists fs, i. split; [exact H|]. split; [reflexivity|]. auto.
Qed.

(** A backup that returns has, in a directory that was empty, the three
    files under the names [state.json], [history.json] and [config.json],
    each a copy of its source (or absent with it), and nothing else. *)
Lemma make_backup_done (MD ts : string) (faults : nat -> Backup.CopyFault)
  (save_fault : Fault) (cfg cfg1 : Backup.Cfg) (fs fs1 : Backup.Files) :
  (forall n, fs !! (Backup.bk_dir MD ts, n) = None) ->
  Backup.make_backup MD ts true faults save_fault cfg fs = (false, cfg1, fs1) ->
  fs1 !! (Backup.bk_dir MD ts, "state.json"%string) = fs !! Backup.DOWNLOAD_STATE MD /\
  fs1 !! (Backup.bk_dir MD ts, "history.json"%string) = fs !! Backup.HISTORY_FILE MD /\
  fs1 !! (Backup.bk_dir MD ts, "config.json"%string) = fs !! Backup.CFG_PATH MD /\
  forall n, n <> "state.json"%string -> n <> "history.json"%string ->
            n <> "config.json"%string ->
            fs1 !! (Backup.bk_dir MD ts, n) = None.
Proof.
  intros Hfresh. unfold Backup.make_backup. cbn [negb].
  destruct (Backup.backup_loop faults 0 (Backup.bk_dir MD ts) (Backup.files MD) fs)
    as [[] fs3] eqn:Hloop; [discriminate|].
  unfold Backup.files in Hloop.
  apply backup_loop_step in Hloop. destruct Hloop as (fa & ia & Hloop & Ha & Ha').
  apply backup_loop_step in Hloop. destruct Hloop as (fb & ib & Hloop & Hb & Hb').
  apply backup_loop_step in Hloop. destruct Hloop as (fc & ic & Hloop & Hc & Hc').
  cbn [Backup.backup_loop] in Hloop. injection Hloop as <-.
  change ("state" +:+ ".json") with "state.json"%string in *.
  change ("history" +:+ ".json") with "history.json"%string in *.
  change ("config" +:+ ".json") with "config.json"%string in *.
  pose proof (bk_dir_ne_MANAGER_DATA MD ts) as Hmd.
  pose proof (bk_dir_ne_SEC_DIR MD ts) as Hsec.
  assert (Hsrc : forall q : Backup.Path, fst q <> Backup.bk_dir MD ts -> fc !! q = fs !! q).
  { intros [d n] Hq. cbn in Hq.
    rewrite Hc', Hb', Ha' by congruence. reflexivity. }
  assert (H1 : fc !! (Backup.bk_dir MD ts, "state.json"%string) = fs !! Backup.DOWNLOAD_STATE MD).
  { rewrite Hc', Hb' by congruence. rewrite Ha.
    destruct (fs !! Backup.DOWNLOAD_STATE MD); [reflexivity|apply Hfresh]. }
  assert (H2 : fc !! (Backup.bk_dir MD ts, "history.json"%string) = fs !! Backup.HISTORY_FILE MD).
  { rewrite Hc' by congruence. rewrite Hb.
    rewrite (Ha' (Backup.HISTORY_FILE MD)) by (unfold Backup.HISTORY_FILE; congruence).
    destruct (fs !! Backup.HISTORY_FILE MD); [reflexivity|].
    rewrite Ha' by congruence. apply Hfresh. }
  assert (H3 : fc !! (Backup.bk_dir MD ts, "config.json"%string) = fs !! Backup.CFG_PATH MD).
  { rewrite Hc.
    rewrite (Hb' (Backup.CFG_PATH MD)), (Ha' (Backup.CFG_PATH MD))
      by (unfold Backup.CFG_PATH; congruence).
    destruct (fs !! Backup.CFG_PATH MD); [reflexivity|].
    rewrite Hb', Ha' by congruence. apply Hfresh. }
  assert (H4 : forall n, n <> "state.json"%string -> n <> "history.json"%string ->
                         n <> "config.json"%string ->
                         fc !! (Backup.bk_dir MD ts, n) = None).
  { intros n N1 N2 N3. rewrite Hc', Hb', Ha' by congruence. apply Hfresh. }
  unfold Backup.save_config.
  destruct save_fault; try discriminate.
  intros [= <- <-].
  assert (Hcfg : forall n, Backup.CFG_PATH MD <> (Backup.bk_dir MD ts, n))
    by (unfold Backup.CFG_PATH; congruence).
  rewrite !lookup_insert_ne by apply Hcfg.
  split; [exact H1|]. split; [exact H2|]. split; [exact H3|].
  intros n N1 N2 N3. rewrite lookup_insert_ne by apply Hcfg. now apply H4.
Qed.

Lemma restore_loop_other (MD : string) (faults : nat -> Backup.CopyFault) (sel : string)
  (q : Backup.Path) :
  forall (listing : list string) (i : nat) (fs : Backup.Files),
    (forall n, n ∈ listing -> Backup.restore_dest MD n <> q) ->
    snd (Backup.restore_loop MD faults i sel listing fs) !! q = fs !! q.
Proof.
  induction listing as [|a rest IH]; intros i fs Hne; [reflexivity|].
  assert (Ha : Backup.restore_dest MD a <> q) by (apply Hne; left).
  assert (Hrest : forall n, n ∈ rest -> Backup.restore_dest MD n <> q)
    by (intros n Hn; apply Hne; now right).
  cbn [Backup.restore_loop]. unfold Backup.copy.
  destruct (fs !! (sel, a)) as [c|]; [|reflexivity].
  destruct (faults i); cbn [snd]; try reflexivity.
  - rewrite IH by exact Hrest. now apply lookup_insert_ne.
  - now apply lookup_insert_ne.
Qed.

Lemma restore_loop_done (MD : string) (faults : nat -> Backup.CopyFault) (sel : string) :
  forall (listing : list string) (i : nat) (fs fs2 : Backup.Files),
    Backup.restore_loop MD faults i sel listing fs = (false, fs2) ->
    NoDup listing ->
    (forall n m, n ∈ listing -> m ∈ listing ->
       Backup.restore_dest MD n = Backup.restore_dest MD m -> n = m) ->
    (forall n m, n ∈ listing -> m ∈ listing -> (sel, n) <> Backup.restore_dest MD m) ->
    forall n, n ∈ listing -> fs2 !! Backup.restore_dest MD n = fs !! (sel, n).
Proof.
  induction listing as [|a rest IH]; intros i fs fs2 Hrun Hnd Hinj Hsrc n Hn.
  - now apply elem_of_nil in Hn.
  - apply NoDup_cons in Hnd. destruct Hnd as [Ha Hnd].
    cbn [Backup.restore_loop] in Hrun. unfold Backup.copy in Hrun.
    destruct (fs !! (sel, a)) as [c|] eqn:Hc; [|discriminate].
    destruct (faults i); try discriminate.
    apply elem_of_cons in Hn. destruct Hn as [-> | Hn].
    + pose proof (restore_loop_other MD faults sel (Backup.restore_dest MD a) rest (S i)
                    (<[Backup.restore_dest MD a := c]> fs)) as Ho.
      rewrite Hrun in Ho. cbn [snd] in Ho. rewrite Ho.
      * rewrite lookup_insert_eq. now rewrite Hc.
      * intros m Hm Heq. apply Ha.
        rewrite <- (Hinj m a); [exact Hm|now right|now left|exact Heq].
    + rewrite (IH (S i) _ fs2 Hrun Hnd); [| | |exact Hn].
      * apply lookup_insert_ne. intros Heq. apply (Hsrc n a); [now right|now left|].
        now symmetry.
      * intros x y Hx Hy. apply Hinj; now right.
      * intros x y Hx Hy. apply Hsrc; now right.
Qed.

Lemma restore_dest_names (MD : string) :
  Backup.restore_dest MD "state.json" = (MD, "state.json"%string) /\
  Backup.restore_dest MD "history.json" = (MD, "history.json"%string) /\
  Backup.restore_dest MD "config.json" = Backup.CFG_PATH MD.
Proof. repeat split. Qed.

(** X20: a backup is not brought back by a restore.  [make_backup] stores
    the checkpoint as [state.json] and the history as [history.json];
    [restore_backup_flow] writes each file of the backup to
    [MANAGER_DATA / f"{stem}.json"], so the checkpoint lands in
    [ManagerData/state.json] and the history in [ManagerData/history.json],
    which nothing reads.  For every backup that [make_backup] completed in a
    new directory and every restore from it, whatever the order of the glob
    and whatever fails: [DOWNLOAD_STATE] and [HISTORY_FILE] are left as the
    restore found them; when the restore completes, only the configuration
    is back in its place. *)
Theorem restore_leaves_checkpoint_and_history (MD ts : string)
  (faults faults' : nat -> Backup.CopyFault) (save_fault : Fault)
  (cfg cfg1 : Backup.Cfg) (fs fs1 fs' : Backup.Files) (listing : list string) :
  (forall n, fs !! (Backup.bk_dir MD ts, n) = None) ->
  Backup.make_backup MD ts true faults save_fault cfg fs = (false, cfg1, fs1) ->
  (forall n, fs' !! (Backup.bk_dir MD ts, n) = fs1 !! (Backup.bk_dir MD ts, n)) ->
  Backup.glob_of (Backup.bk_dir MD ts) fs' listing ->
  let r := Backup.restore_loop MD faults' 0 (Backup.bk_dir MD ts) listing fs' in
  snd r !! Backup.DOWNLOAD_STATE MD = fs' !! Backup.DOWNLOAD_STATE MD /\
  snd r !! Backup.HISTORY_FILE MD = fs' !! Backup.HISTORY_FILE MD /\
  (fst r = false ->
   (is_Some (fs !! Backup.DOWNLOAD_STATE MD) ->
    snd r !! (MD, "state.json"%string) = fs !! Backup.DOWNLOAD_STATE MD) /\
   (is_Some (fs !! Backup.HISTORY_FILE MD) ->
    snd r !! (MD, "history.json"%string) = fs !! Backup.HISTORY_FILE MD) /\
   (is_Some (fs !! Backup.CFG_PATH MD) ->
    snd r !! Backup.CFG_PATH MD = fs !! Backup.CFG_PATH MD)).
Proof.
  intros Hfresh Hbk Hsame [Hnd Hglob]. cbv zeta.
  destruct (make_backup_done MD ts faults save_fault cfg cfg1 fs fs1 Hfresh Hbk)
    as (Hs & Hh & Hc & Hnone).
  destruct (restore_dest_names MD) as (Ds & Dh & Dc).
  pose proof (bk_dir_ne_MANAGER_DATA MD ts) as Hmd.
  pose proof (bk_dir_ne_SEC_DIR MD ts) as Hsec.
  assert (Hnames : forall n, n ∈ listing ->
            n = "state.json"%string \/ n = "history.json"%string \/ n = "config.json"%string).
  { intros n Hn. apply Hglob in Hn. destruct Hn as [Hex _]. rewrite Hsame in Hex.
    destruct (decide (n = "state.json"%string)) as [|N1]; [auto|].
    destruct (decide (n = "history.json"%string)) as [|N2]; [auto|].
    destruct (decide (n = "config.json"%string)) as [|N3]; [auto|].
    rewrite (Hnone n N1 N2 N3) in Hex. now destruct Hex. }
  assert (Hin : forall n, is_Some (fs1 !! (Backup.bk_dir MD ts, n)) ->
                          Backup.ends_with ".json" n = true -> n ∈ listing).
  { intros n Hex He. apply Hglob. rewrite Hsame. auto. }
  assert (Hinj : forall n m, n ∈ listing -> m ∈ listing ->
            Backup.restore_dest MD n = Backup.restore_dest MD m -> n = m).
  { intros n m Hn Hm.
    destruct (Hnames n Hn) as [-> | [-> | ->]], (Hnames m Hm) as [-> | [-> | ->]];
      rewrite ?Ds, ?Dh, ?Dc; unfold Backup.CFG_PATH; intros [= ]; reflexivity. }
  assert (Hsrc : forall n m, n ∈ listing -> m ∈ listing ->
            (Backup.bk_dir MD ts, n) <> Backup.restore_dest MD m).
  { intros n m Hn Hm.
    destruct (Hnames m Hm) as [-> | [-> | ->]];
      rewrite ?Ds, ?Dh, ?Dc; unfold Backup.CFG_PATH; congruence. }
  split; [|split].
  - apply restore_loop_other. intros n Hn.
    destruct (Hnames n Hn) as [-> | [-> | ->]];
      rewrite ?Ds, ?Dh, ?Dc; unfold Backup.CFG_PATH, Backup.DOWNLOAD_STATE; congruence.
  - apply restore_loop_other. intros n Hn.
    destruct (Hnames n Hn) as [-> | [-> | ->]];
      rewrite ?Ds, ?Dh, ?Dc; unfold Backup.CFG_PATH, Backup.HISTORY_FILE; congruence.
  - intros Hok.
    destruct (Backup.restore_loop MD faults' 0 (Backup.bk_dir MD ts) listing fs')
      as [raised fs2] eqn:Hrun.
    cbn [fst snd] in *. subst raised.
    pose proof (restore_loop_done MD faults' (Backup.bk_dir MD ts) listing 0 fs' fs2
                  Hrun Hnd Hinj Hsrc) as Hdone.
    split; [|split]; intros Hex.
    + rewrite <- Ds, Hdone, Hsame, Hs; [reflexivity|].
      apply Hin; [now rewrite Hs|reflexivity].
    + rewrite <- Dh, Hdone, Hsame, Hh; [reflexivity|].
      apply Hin; [now rewrite Hh|reflexivity].
    + rewrite <- Dc, Hdone, Hsame, Hc; [reflexivity|].
      apply Hin; [now rewrite Hc|reflexivity].
Qed.

Lemma restore_leaves_checkpoint_and_history_witness :
  let bk := Backup.bk_dir data_dir "20240101_000000" in
  let r := Backup.restore_loop data_dir (fun _ => Backup.Copies) 0 bk
             ["state.json"; "config.json"]%string files_after_loss in
  snd r !! Backup.DOWNLOAD_STATE data_dir = files_after_loss !! Backup.DOWNLOAD_STATE data_dir /\
  snd r !! Backup.HISTORY_FILE data_dir = files_after_loss !! Backup.HISTORY_FILE data_dir /\
  (fst r = false ->
   (is_Some (files_before_backup !! Backup.DOWNLOAD_STATE data_dir) ->
    snd r !! (data_dir, "state.json"%string) =
      files_before_backup !! Backup.DOWNLOAD_STATE data_dir) /\
   (is_Some (files_before_backup !! Backup.HISTORY_FILE data_dir) ->
    snd r !! (data_dir, "history.json"%string) =
      files_before_backup !! Backup.HISTORY_FILE data_dir) /\
   (is_Some (files_before_backup !! Backup.CFG_PATH data_dir) ->
    snd r !! Backup.CFG_PATH data_dir = files_before_backup !! Backup.CFG_PATH data_dir)).
Proof.
  assert (Hfresh : forall n, files_before_backup !! (Backup.bk_dir data_dir "20240101_000000", n)
                             = None).
  { intros n. unfold files_before_backup.
    pose proof (bk_dir_ne_MANAGER_DATA data_dir "20240101_000000") as Hmd.
    pose proof (bk_dir_ne_SEC_DIR data_dir "20240101_000000") as Hsec.
    rewrite lookup_insert_ne by (unfold Backup.DOWNLOAD_STATE; congruence).
    rewrite lookup_singleton_ne by (unfold Backup.CFG_PATH; congruence).
    reflexivity. }
  assert (Hbk : Backup.make_backup data_dir "20240101_000000" true (fun _ => Backup.Copies)
                  NoFault cfg_plain files_before_backup
                = (false, snd (fst backup_made), snd backup_made)).
  { change (backup_made = (false, snd (fst backup_made), snd backup_made)).
    assert (Hok : fst (fst backup_made) = false) by (vm_compute; reflexivity).
    destruct backup_made as [[raised c] f]. cbn in *. now subst raised. }
  destruct (make_backup_done _ _ _ _ _ _ _ _ Hfresh Hbk) as (Hs & Hh & Hc & Hnone).
  apply (restore_leaves_checkpoint_and_history data_dir "20240101_000000"
           (fun _ => Backup.Copies) (fun _ => Backup.Copies) NoFault cfg_plain
           (snd (fst backup_made)) files_before_backup (snd backup_made) files_after_loss
           ["state.json"; "config.json"]%string Hfresh Hbk).
  - intros n. unfold files_after_loss. apply lookup_delete_ne.
    pose proof (bk_dir_ne_MANAGER_DATA data_dir "20240101_000000") as Hmd.
    unfold Backup.DOWNLOAD_STATE. congruence.
  - split.
    + apply NoDup_cons. split; [|apply NoDup_singleton].
      intros Hin. apply list_elem_of_singleton in Hin. discriminate Hin.
    + assert (Hsame : forall n, files_after_loss !! (Backup.bk_dir data_dir "20240101_000000", n)
                                = snd backup_made !! (Backup.bk_dir data_dir "20240101_000000", n)).
      { intros n. unfold files_after_loss. apply lookup_delete_ne.
        pose proof (bk_dir_ne_MANAGER_DATA data_dir "20240101_000000") as Hmd.
        unfold Backup.DOWNLOAD_STATE. congruence. }
      intros n. rewrite Hsame. split.
      * intros Hn. apply elem_of_cons in Hn. destruct Hn as [-> | Hn].
        { rewrite Hs. split; [eexists; reflexivity|reflexivity]. }
        apply list_elem_of_singleton in Hn. subst n.
        rewrite Hc. split; [eexists; reflexivity|reflexivity].
      * intros [Hex _].
        destruct (decide (n = "state.json"%string)) as [->|N1]; [now left|].
        destruct (decide (n = "config.json"%string)) as [->|N3]; [right; now left|].
        destruct (decide (n = "history.json"%string)) as [->|N2].
        { rewrite Hh in Hex. destruct Hex as [c Hex]. discriminate Hex. }
        rewrite (Hnone n N1 N2 N3) in Hex. now destruct Hex.
Defined.

(** ** [SimpleFernet] and the owner check of a restore *)

Lemma string_length_app (a b : string) :
  String.length (a +:+ b) = (String.length a + String.length b)%nat.
Proof.
  induction a as [|x a IH]; [reflexivity|].
  change (S (String.length (a +:+ b)) = S (String.length a + String.length b)).
  now rewrite IH.
Qed.

Lemma substring_app_left (a b : string) :
  String.substring 0 (String.length a) (a +:+ b) = a.
Proof.
  induction a as [|x a IH]; cbn.
  - now destruct b.
  - change (String x a +:+ b) with (String x (a +:+ b)). cbn. now rewrite IH.
Qed.

Lemma substring_all (b : string) : String.substring 0 (String.length b) b = b.
Proof. induction b as [|x b IH]; cbn; [reflexivity|now rewrite IH]. Qed.

Lemma substring_app_right (a b : string) :
  String.substring (String.length a) (String.length b) (a +:+ b) = b.
Proof.
  induction a as [|x a IH]; cbn.
  - change ("" +:+ b) with b. apply substring_all.
  - change (String x a +:+ b) with (String x (a +:+ b)). cbn. exact IH.
Qed.

Lemma substring_length_le (s : string) :
  forall m, (String.length (String.substring 0 m s) <= String.length s)%nat.
Proof.
  induction s as [|x s IH]; intros [|m]; cbn; try lia.
  specialize (IH m). lia.
Qed.

Section Security_facts.

Variable urlsafe_b64encode : string -> string.
Variable urlsafe_b64decode : string -> option string.
Variable aes_cfb_encrypt : string -> string -> string -> string.
Variable aes_cfb_decrypt : string -> string -> string -> string.
Variable utf8_decode : string -> option string.
Variable pycrypto_ok : bool.
Variable MANAGER_DATA : string.

(** X21: [decrypt] undoes [encrypt] under the same key, given that the
    library's base64 decoding undoes its encoding, that AES-CFB decryption
    undoes encryption under the same key and IV, and a 16-byte IV.  Without
    PyCryptodome the key is not used at all: the token is the base64 text of
    the data and an instance with any other key reads it. *)
Theorem SimpleFernet_decrypt_encrypt (self other : SimpleFernet) (iv data : string) :
  (forall d, urlsafe_b64decode (urlsafe_b64encode d) = Some d) ->
  (forall k v d, aes_cfb_decrypt k v (aes_cfb_encrypt k v d) = d) ->
  String.length iv = 16%nat ->
  decrypt urlsafe_b64decode aes_cfb_decrypt pycrypto_ok self
    (encrypt urlsafe_b64encode aes_cfb_encrypt pycrypto_ok self iv data) = data /\
  (pycrypto_ok = false ->
   encrypt urlsafe_b64encode aes_cfb_encrypt pycrypto_ok self iv data
     = urlsafe_b64encode data /\
   decrypt urlsafe_b64decode aes_cfb_decrypt pycrypto_ok other
     (encrypt urlsafe_b64encode aes_cfb_encrypt pycrypto_ok self iv data) = data).
Proof.
  intros Hb64 Haes Hiv. unfold decrypt, encrypt.
  destruct pycrypto_ok; cbn [negb].
  - split; [|discriminate]. rewrite Hb64.
    rewrite string_length_app, Hiv.
    replace (16 + String.length (aes_cfb_encrypt (fernet_key self) iv data) - 16)%nat
      with (String.length (aes_cfb_encrypt (fernet_key self) iv data)) by lia.
    assert (H1 : String.substring 0 16 (iv +:+ aes_cfb_encrypt (fernet_key self) iv data) = iv)
      by (rewrite <- Hiv at 1; apply substring_app_left).
    assert (H2 : String.substring 16 (String.length (aes_cfb_encrypt (fernet_key self) iv data))
                   (iv +:+ aes_cfb_encrypt (fernet_key self) iv data)
                 = aes_cfb_encrypt (fernet_key self) iv data)
      by (rewrite <- Hiv; apply substring_app_right).
    rewrite H1, H2, Hiv. cbn [Nat.eqb]. apply Haes.
  - rewrite Hb64. split; [reflexivity|]. intros _. split; reflexivity.
Qed.

(** One visit of the restore menu never lowers the count of failed
    attempts and never changes the owner. *)
Lemma visit_attempts (FERNET : SimpleFernet) (v : Visit) (st : Backup.Cfg * Backup.Files) :
  let r := visit urlsafe_b64decode aes_cfb_decrypt utf8_decode pycrypto_ok MANAGER_DATA
             FERNET v st in
  Backup.attempts (Backup.lockout (fst st))
    <= Backup.attempts (Backup.lockout (snd (fst r))).
Proof.
  cbv zeta. unfold visit, restore_backup_flow, perform_restore.
  repeat case_match; cbn; lia.
Qed.

Lemma visits_attempts (FERNET : SimpleFernet) (l : list Visit) :
  forall st : Backup.Cfg * Backup.Files,
    Backup.attempts (Backup.lockout (fst st))
      <= Backup.attempts (Backup.lockout
           (fst (visits urlsafe_b64decode aes_cfb_decrypt utf8_decode pycrypto_ok
                   MANAGER_DATA FERNET l st))).
Proof.
  induction l as [|v l IH]; intros st; [cbn; lia|].
  unfold visits in *. cbn [fold_left].
  pose proof (visit_attempts FERNET v st) as Hv. cbv zeta in Hv.
  destruct (visit urlsafe_b64decode aes_cfb_decrypt utf8_decode pycrypto_ok MANAGER_DATA
              FERNET v st) as [[out cfg'] fs'].
  cbn [fst snd] in Hv. specialize (IH (cfg', fs')). cbn [fst] in IH. lia.
Qed.


(** X23: when the stored owner code cannot be decrypted ([urlsafe_b64decode]
    raises on the token, or with PyCryptodome the decoded token is shorter
    than an IV), [decrypt] gives [b""] instead of an error, and the check
    [dec.decode() != code] then passes for the empty code: with the owner
    set, a stored token and no lock, typing nothing at the prompt goes on to
    the restore, and no failed attempt is counted. *)
Theorem restore_accepts_empty_code (FERNET : SimpleFernet) (backups : list string)
  (k : nat) (sel enc : string) (now_ts : Z) (save_fault : Fault)
  (glob : string -> list string) (faults : nat -> Backup.CopyFault)
  (cfg : Backup.Cfg) (fs : Backup.Files) :
  utf8_decode "" = Some ""%string ->
  (k < 10)%nat -> backups !! k = Some sel ->
  truthy_str (Backup.owner cfg) = true ->
  Backup.owner_code_enc cfg = Some enc -> enc <> ""%string ->
  Backup.blocked_until (Backup.lockout cfg) <= now_ts ->
  (urlsafe_b64decode enc = None \/
   (pycrypto_ok = true /\
    exists raw, urlsafe_b64decode enc = Some raw /\ (String.length raw < 16)%nat)) ->
  decrypt urlsafe_b64decode aes_cfb_decrypt pycrypto_ok FERNET enc = ""%string /\
  restore_backup_flow urlsafe_b64decode aes_cfb_decrypt utf8_decode pycrypto_ok MANAGER_DATA
    FERNET backups (PickNumber (Z.of_nat k + 1)) now_ts "" save_fault glob faults cfg fs
  = perform_restore MANAGER_DATA sel glob faults cfg fs.
Proof.
  intros Hdec Hk Hsel Howner Henc Hne Hlock Hbad.
  assert (Hd : decrypt urlsafe_b64decode aes_cfb_decrypt pycrypto_ok FERNET enc = ""%string).
  { unfold decrypt. destruct Hbad as [-> | (-> & raw & -> & Hlen)]; [reflexivity|].
    cbn [negb].
    pose proof (substring_length_le raw 16) as Hle.
    destruct (Nat.eqb_spec (String.length (String.substring 0 16 raw)) 16); [lia|reflexivity]. }
  split; [exact Hd|].
  unfold restore_backup_flow.
  pose proof (lookup_lt_Some _ _ _ Hsel) as Hlt.
  destruct backups as [|b0 bs] eqn:Hb; [now rewrite lookup_nil in Hsel|]. rewrite <- Hb in *.
  assert (Hrange : (1 <=? Z.of_nat k + 1) && (Z.of_nat k + 1 <=? Z.of_nat (length (take 10 backups)))
                   = true).
  { apply andb_true_iff. split; apply Z.leb_le; [lia|]. rewrite length_take. lia. }
  rewrite Hrange.
  replace (Z.of_nat k + 1 - 1) with (Z.of_nat k) by lia.
  rewrite py_index_nonneg, Hsel, Howner.
  destruct (now_ts <? Backup.blocked_until (Backup.lockout cfg)) eqn:Hb'.
  { apply Z.ltb_lt in Hb'. lia. }
  rewrite Henc.
  assert (Htr : truthy_str (Some enc) = true) by (destruct enc; [now destruct Hne|reflexivity]).
  rewrite Htr. cbn [default from_option id]. rewrite Hd, Hdec. reflexivity.
Qed.

End Security_facts.

Lemma SimpleFernet_decrypt_encrypt_witness :
  decrypt Some no_aes true plain_fernet
    (encrypt id no_aes true plain_fernet "0123456789abcdef" "1234") = "1234"%string /\
  (true = false ->
   encrypt id no_aes true plain_fernet "0123456789abcdef" "1234" = id "1234"%string /\
   decrypt Some no_aes true (mkSimpleFernet "other")
     (encrypt id no_aes true plain_fernet "0123456789abcdef" "1234") = "1234"%string).
Proof.
  apply (SimpleFernet_decrypt_encrypt id Some no_aes no_aes true plain_fernet
           (mkSimpleFernet "other") "0123456789abcdef" "1234");
    reflexivity.
Defined.

Lemma restore_accepts_empty_code_witness :
  decrypt no_b64decode no_aes false plain_fernet "1234" = ""%string /\
  restore_backup_flow no_b64decode no_aes Some false data_dir plain_fernet
    ["backup_20240101_000000"%string] (PickNumber (Z.of_nat 0 + 1)) 100 "" NoFault
    (fun _ => []) (fun _ => Backup.Copies) cfg_owner files_before_backup
  = perform_restore data_dir "backup_20240101_000000" (fun _ => [])
      (fun _ => Backup.Copies) cfg_owner files_before_backup.
Proof.
  apply (restore_accepts_empty_code no_b64decode no_aes Some false data_dir plain_fernet
           ["backup_20240101_000000"%string] 0 "backup_20240101_000000" "1234" 100 NoFault
           (fun _ => []) (fun _ => Backup.Copies) cfg_owner files_before_backup);
    first [reflexivity | lia | discriminate | (left; reflexivity)].
Defined.

(** With the stored code kept as plain text: three wrong codes lock the
    device, the right code is then refused, and after the lock has run out
    one more wrong code locks it again at once. *)
Example restore_lockout_three_strikes :
  let visit := visit Some no_aes Some false data_dir plain_fernet in
  let visits := visits Some no_aes Some false data_dir plain_fernet in
  let st3 := visits [try_code 100 "0000"; try_code 101 "1111"; try_code 102 "2222"]
               (cfg_owner, files_before_backup) in
  Backup.lockout (fst st3) = Backup.mkLock 3 (102 + 86400) /\
  fst (fst (visit (try_code 200 "1234") st3)) = Blocked /\
  fst (fst (visit (try_code 90000 "1234") st3)) = Restored /\
  Backup.lockout (fst (visits [try_code 90000 "1234"; try_code 90001 "0000"] st3))
    = Backup.mkLock 4 (90001 + 86400).
Proof. vm_compute. repeat split. Qed.
